(** * Satellite tracking engine: a shallow embedding of [satellite_tracker.py]

    The development follows the source file top to bottom:

    - [Py]: the Python built-ins the tracker relies on ([str.strip],
      [str.split], [str.lower], the [in] test on strings, slicing, [int()],
      [float()], string comparison), on strings of code points below 256;
    - [res]: exceptions as values, with [try_except] for [try ... except];
    - [Propagation]: the interface of the external libraries (skyfield, numpy,
      datetime), the black box of the tracking engine;
    - the tracker itself: [load_tle_data], [_categorize_satellite],
      [_update_category_lists], [_load_fallback_data],
      [get_satellite_positions], [get_satellite_details], [get_orbital_path],
      [get_next_passes];
    - the properties of the specification, one theorem each.

    Text: a character is a code point below 256, so a [str] is a [string].

    Numbers: a Python [int] is a [Z].  A Python [float] is modelled by the
    exact rational it approximates, or one of [inf], [-inf], [nan]: the
    rounding of binary64, its overflow to an infinity and its underflow to
    zero are not modelled, and there is one zero.

    Time: the two clocks, [time.time()] and [self.ts.now()], are arguments
    of the operations that read them.  The network is a function from the
    URL requested to the body received or the failure. *)

From Stdlib Require Import List String Ascii ZArith QArith Bool Arith Lia.
Import ListNotations.

Open Scope string_scope.
Open Scope list_scope.
Open Scope nat_scope.

(* ================================================================= *)
(** ** Exceptions as values *)

Inductive exn : Type :=
| ValueError
| KeyError
| ZeroDivisionError
| OverflowError
| RequestException
| LibraryError.

Inductive res (A : Type) : Type :=
| Ret (a : A)
| Raise (e : exn).

Arguments Ret {A} a.
Arguments Raise {A} e.

Definition bind {A B : Type} (c : res A) (k : A -> res B) : res B :=
  match c with
  | Ret a => k a
  | Raise e => Raise e
  end.

(** [try: c except Exception: h] *)
Definition try_except {A : Type} (c : res A) (h : exn -> A) : A :=
  match c with
  | Ret a => a
  | Raise e => h e
  end.

Definition raises {A : Type} (c : res A) : bool :=
  match c with
  | Ret _ => false
  | Raise _ => true
  end.

Declare Scope res_scope.
Delimit Scope res_scope with res.
Notation "x <- c ;; k" := (bind c (fun x => k))
  (at level 61, c at next level, right associativity) : res_scope.
Notation "' p <- c ;; k" := (bind c (fun p => k))
  (at level 61, p pattern, c at next level, right associativity) : res_scope.

(* ================================================================= *)
(** ** Python floats, idealised *)

Inductive pyfloat : Type :=
| Fin (q : Q)
| PInf
| NInf
| NaN.

Module Py.

(** *** Characters *)

Definition code (c : ascii) : nat := nat_of_ascii c.

Definition between (lo hi n : nat) : bool := (lo <=? n) && (n <=? hi).

(** [str.isspace] on one code point below 256. *)
Definition isspace (c : ascii) : bool :=
  let n := code c in
  between 9 13 n || between 28 32 n || (n =? 133) || (n =? 160).

(** The white space [int()] and [float()] skip at both ends: the file,
    group, record and unit separators (28 to 31) are not part of it. *)
Definition isspace_num (c : ascii) : bool :=
  let n := code c in
  between 9 13 n || (n =? 32) || (n =? 133) || (n =? 160).

Definition isdigit (c : ascii) : bool := between 48 57 (code c).

Definition digit_val (c : ascii) : Z := Z.of_nat (code c) - 48.

(** [str.lower] on one code point below 256: A-Z, and the Latin-1 capitals
    192 to 222 but for the multiplication sign 215. *)
Definition lower_char (c : ascii) : ascii :=
  let n := code c in
  if between 65 90 n || (between 192 222 n && negb (n =? 215))
  then ascii_of_nat (n + 32)
  else c.

(** *** Strings *)

Fixpoint lower (s : string) : string :=
  match s with
  | EmptyString => EmptyString
  | String c s' => String (lower_char c) (lower s')
  end.

Fixpoint lstrip_by (sp : ascii -> bool) (s : string) : string :=
  match s with
  | EmptyString => EmptyString
  | String c s' => if sp c then lstrip_by sp s' else s
  end.

Fixpoint rstrip_by (sp : ascii -> bool) (s : string) : string :=
  match s with
  | EmptyString => EmptyString
  | String c s' =>
      match rstrip_by sp s' with
      | EmptyString => if sp c then EmptyString else String c EmptyString
      | r => String c r
      end
  end.

Definition strip_by (sp : ascii -> bool) (s : string) : string :=
  rstrip_by sp (lstrip_by sp s).

(** [s.strip()] *)
Definition strip (s : string) : string := strip_by isspace s.

(** [s.split(sep)] for a one-character separator: never the empty list. *)
Fixpoint split (sep : ascii) (s : string) : list string :=
  match s with
  | EmptyString => [EmptyString]
  | String c s' =>
      if Ascii.eqb c sep then EmptyString :: split sep s'
      else match split sep s' with
           | h :: t => String c h :: t
           | [] => [String c EmptyString]
           end
  end.

Definition newline : ascii := ascii_of_nat 10.

(** [s.startswith(p)] *)
Definition startswith (s p : string) : bool := String.prefix p s.

(** [len(s)] *)
Definition len (s : string) : nat := String.length s.

(** [s[a:]] for a non-negative literal bound *)
Fixpoint slice_from (s : string) (a : nat) {struct a} : string :=
  match a with
  | O => s
  | S a' =>
      match s with
      | EmptyString => EmptyString
      | String _ s' => slice_from s' a'
      end
  end.

(** [s[:n]] *)
Fixpoint slice_to (s : string) (n : nat) {struct n} : string :=
  match n with
  | O => EmptyString
  | S n' =>
      match s with
      | EmptyString => EmptyString
      | String c s' => String c (slice_to s' n')
      end
  end.

(** [s[a:b]] for non-negative literal bounds: out-of-range bounds are
    clipped, never an error. *)
Definition slice (s : string) (a b : nat) : string :=
  slice_to (slice_from s a) (b - a).

(** [p in s] *)
Fixpoint contains (p s : string) : bool :=
  String.prefix p s ||
  match s with
  | EmptyString => false
  | String _ s' => contains p s'
  end.

(** [a < b] on strings: lexicographic on code points. *)
Fixpoint str_lt (a b : string) : bool :=
  match a, b with
  | _, EmptyString => false
  | EmptyString, String _ _ => true
  | String x a', String y b' =>
      (code x <? code y) || ((code x =? code y) && str_lt a' b')
  end.

(** [s.replace(c, r)] for a one-character [c]. *)
Fixpoint replace (c : ascii) (r : string) (s : string) : string :=
  match s with
  | EmptyString => EmptyString
  | String x s' =>
      if Ascii.eqb x c then (r ++ replace c r s')%string else String x (replace c r s')
  end.

(** *** Numbers from strings *)

(** digitpart ::= digit (["_"] digit)*, all of [s]; the digits read. *)
Fixpoint digitpart (after_digit : bool) (s : string) : option (list Z) :=
  match s with
  | EmptyString => if after_digit then Some [] else None
  | String c s' =>
      if isdigit c then option_map (cons (digit_val c)) (digitpart true s')
      else if Ascii.eqb c "_" && after_digit then digitpart false s'
      else None
  end.

Definition decimal (ds : list Z) : Z :=
  fold_left (fun acc d => 10 * acc + d)%Z ds 0%Z.

(** An optional sign: [true] for a minus, and the rest of the string. *)
Definition sign (s : string) : bool * string :=
  match s with
  | String "-" s' => (true, s')
  | String "+" s' => (false, s')
  | _ => (false, s)
  end.

(** [int(s)], base 10. *)
Definition int (s : string) : res Z :=
  let (neg, body) := sign (strip_by isspace_num s) in
  match digitpart false body with
  | Some ds => Ret (if neg then - decimal ds else decimal ds)%Z
  | None => Raise ValueError
  end.

(** Cut [s] at the first character satisfying [p]. *)
Fixpoint cut (p : ascii -> bool) (s : string) : string * option string :=
  match s with
  | EmptyString => (EmptyString, None)
  | String c s' =>
      if p c then (EmptyString, Some s')
      else let (h, t) := cut p s' in (String c h, t)
  end.

Definition is_e (c : ascii) : bool := Ascii.eqb c "e" || Ascii.eqb c "E".
Definition is_dot (c : ascii) : bool := Ascii.eqb c ".".

(** number ::= [digitpart] "." digitpart | digitpart ["."]: the digits of
    the integer and of the fractional part. *)
Definition number (s : string) : option (list Z * list Z) :=
  match cut is_dot s with
  | (ip, None) => option_map (fun ds => (ds, [])) (digitpart false ip)
  | (ip, Some fp) =>
      match ip, fp with
      | EmptyString, EmptyString => None
      | EmptyString, _ => option_map (fun fs => ([], fs)) (digitpart false fp)
      | _, EmptyString => option_map (fun ds => (ds, [])) (digitpart false ip)
      | _, _ =>
          match digitpart false ip, digitpart false fp with
          | Some ds, Some fs => Some (ds, fs)
          | _, _ => None
          end
      end
  end.

(** exponent ::= ("e" | "E") [sign] digitpart, after the letter. *)
Definition exponent (s : string) : option Z :=
  let (neg, body) := sign s in
  option_map (fun ds => if neg then - decimal ds else decimal ds)%Z
             (digitpart false body).

(** [m * 10^e] as a rational. *)
Definition scale10 (m e : Z) : Q :=
  match e with
  | Z0 => Qmake m 1
  | Zpos p => Qmake (m * Z.pow_pos 10 p) 1
  | Zneg p => Qmake m (Pos.pow 10 p)
  end.

(** floatnumber ::= number [exponent] *)
Definition floatnumber (s : string) : option Q :=
  let (mant, ex) := cut is_e s in
  match number mant with
  | None => None
  | Some (ds, fs) =>
      let m := decimal (ds ++ fs)%list in
      let k := Z.of_nat (List.length fs) in
      match ex with
      | None => Some (scale10 m (- k))
      | Some es => option_map (fun e => scale10 m (e - k)) (exponent es)
      end
  end.

(** [float(s)] *)
Definition float (s : string) : res pyfloat :=
  let (neg, body) := sign (strip_by isspace_num s) in
  let word := lower body in
  if String.eqb word "inf" || String.eqb word "infinity"
  then Ret (if neg then NInf else PInf)
  else if String.eqb word "nan" then Ret NaN
  else match floatnumber body with
       | Some q => Ret (Fin (if neg then Qopp q else q))
       | None => Raise ValueError
       end.

End Py.

(* ================================================================= *)
(** ** Arithmetic on floats *)

Module F.

Definition of_Z (z : Z) : pyfloat := Fin (inject_Z z).

Definition Qgtb (a b : Q) : bool := negb (Qle_bool a b).

Definition neg (x : pyfloat) : pyfloat :=
  match x with
  | Fin q => Fin (Qopp q)
  | PInf => NInf
  | NInf => PInf
  | NaN => NaN
  end.

Definition add (x y : pyfloat) : pyfloat :=
  match x, y with
  | NaN, _ | _, NaN => NaN
  | Fin a, Fin b => Fin (Qplus a b)
  | PInf, NInf | NInf, PInf => NaN
  | PInf, _ | _, PInf => PInf
  | NInf, _ | _, NInf => NInf
  end.

Definition sub (x y : pyfloat) : pyfloat := add x (neg y).

(** An infinity of the sign of [q], [nan] for zero. *)
Definition signed_inf (positive : bool) (q : Q) : pyfloat :=
  if Qeq_bool q 0 then NaN
  else if Bool.eqb positive (Qgtb q 0) then PInf else NInf.

Definition mul (x y : pyfloat) : pyfloat :=
  match x, y with
  | NaN, _ | _, NaN => NaN
  | Fin a, Fin b => Fin (Qmult a b)
  | PInf, Fin q | Fin q, PInf => signed_inf true q
  | NInf, Fin q | Fin q, NInf => signed_inf false q
  | PInf, PInf | NInf, NInf => PInf
  | PInf, NInf | NInf, PInf => NaN
  end.

(** [x / y]: Python raises on a zero divisor. *)
Definition div (x y : pyfloat) : res pyfloat :=
  match x, y with
  | _, Fin b =>
      if Qeq_bool b 0 then Raise ZeroDivisionError
      else Ret match x with
               | Fin a => Fin (Qdiv a b)
               | PInf => if Qgtb b 0 then PInf else NInf
               | NInf => if Qgtb b 0 then NInf else PInf
               | NaN => NaN
               end
  | NaN, _ | _, NaN => Ret NaN
  | Fin _, _ => Ret (Fin 0)
  | _, _ => Ret NaN
  end.

(** [x > y]: false whenever a [nan] is involved. *)
Definition gt (x y : pyfloat) : bool :=
  match x, y with
  | NaN, _ | _, NaN => false
  | Fin a, Fin b => Qgtb a b
  | PInf, PInf => false
  | PInf, _ => true
  | _, NInf => match x with NInf => false | _ => true end
  | _, _ => false
  end.

Definition lt (x y : pyfloat) : bool := gt y x.

(** [x <= y] *)
Definition le (x y : pyfloat) : bool :=
  match x, y with
  | NaN, _ | _, NaN => false
  | Fin a, Fin b => Qle_bool a b
  | NInf, _ => true
  | _, PInf => true
  | _, _ => false
  end.

End F.

(** A Python number: [1440 / mean_motion if mean_motion > 0 else 0] is a
    [float] on one branch and the [int] 0 on the other. *)
Inductive pynum : Type :=
| PInt (z : Z)
| PFloat (f : pyfloat).

(* ================================================================= *)
(** ** The taxonomy ([_define_categories]) *)

Inductive Category : Type :=
| ISS | GPS | GLONASS | Galileo | BeiDou | Weather | Earth_Observation
| Communication | Starlink | OneWeb | Iridium | Scientific | Space_Telescopes
| Military | CubeSats | Amateur_Radio | Technology_Demo | Debris_Tracking
| Geostationary | LEO_Constellation | Commercial | Rocket_Bodies | Other.

Definition category_eqb (a b : Category) : bool :=
  match a, b with
  | ISS, ISS | GPS, GPS | GLONASS, GLONASS | Galileo, Galileo
  | BeiDou, BeiDou | Weather, Weather
  | Earth_Observation, Earth_Observation | Communication, Communication
  | Starlink, Starlink | OneWeb, OneWeb | Iridium, Iridium
  | Scientific, Scientific | Space_Telescopes, Space_Telescopes
  | Military, Military | CubeSats, CubeSats | Amateur_Radio, Amateur_Radio
  | Technology_Demo, Technology_Demo | Debris_Tracking, Debris_Tracking
  | Geostationary, Geostationary | LEO_Constellation, LEO_Constellation
  | Commercial, Commercial | Rocket_Bodies, Rocket_Bodies
  | Other, Other => true
  | _, _ => false
  end.

(** The keys of the dictionary [_define_categories] returns, in its order. *)
Definition taxonomy : list Category :=
  [ISS; GPS; GLONASS; Galileo; BeiDou; Weather; Earth_Observation;
   Communication; Starlink; OneWeb; Iridium; Scientific; Space_Telescopes;
   Military; CubeSats; Amateur_Radio; Technology_Demo; Debris_Tracking;
   Geostationary; LEO_Constellation; Commercial; Rocket_Bodies; Other].

Definition category_name (c : Category) : string :=
  match c with
  | ISS => "International Space Station"
  | GPS => "GPS Constellation"
  | GLONASS => "GLONASS Navigation"
  | Galileo => "Galileo Navigation"
  | BeiDou => "BeiDou Navigation"
  | Weather => "Weather Satellites"
  | Earth_Observation => "Earth Observation"
  | Communication => "Communication Satellites"
  | Starlink => "Starlink Constellation"
  | OneWeb => "OneWeb Constellation"
  | Iridium => "Iridium Constellation"
  | Scientific => "Scientific Satellites"
  | Space_Telescopes => "Space Telescopes"
  | Military => "Military Satellites"
  | CubeSats => "CubeSats"
  | Amateur_Radio => "Amateur Radio"
  | Technology_Demo => "Technology Demo"
  | Debris_Tracking => "Debris & Tracking"
  | Geostationary => "Geostationary Orbit"
  | LEO_Constellation => "LEO Constellations"
  | Commercial => "Commercial Satellites"
  | Rocket_Bodies => "Rocket Bodies"
  | Other => "Other Satellites"
  end.

Definition category_color (c : Category) : string :=
  match c with
  | ISS => "#FF6B6B"
  | GPS => "#4ECDC4"
  | GLONASS => "#FF8C42"
  | Galileo => "#6A4C93"
  | BeiDou => "#F25C54"
  | Weather => "#45B7D1"
  | Earth_Observation => "#52B788"
  | Communication => "#96CEB4"
  | Starlink => "#E9C46A"
  | OneWeb => "#F4A261"
  | Iridium => "#E76F51"
  | Scientific => "#FFEAA7"
  | Space_Telescopes => "#264653"
  | Military => "#DDA0DD"
  | CubeSats => "#F72585"
  | Amateur_Radio => "#4CC9F0"
  | Technology_Demo => "#7209B7"
  | Debris_Tracking => "#A44A3F"
  | Geostationary => "#F77F00"
  | LEO_Constellation => "#FCBF49"
  | Commercial => "#FFB347"
  | Rocket_Bodies => "#8B5A3C"
  | Other => "#A8A8A8"
  end.

(* ================================================================= *)
(** ** The categorizer ([_categorize_satellite]) *)

Definition _categorize_satellite (name : string) (norad_id : Z) : Category :=
  let name_lower := Py.lower name in
  let has p := Py.contains p name_lower in
  if (norad_id =? 25544)%Z || has "iss" then ISS
  else if has "gps" || has "navstar" then GPS
  else if has "glonass" then GLONASS
  else if has "galileo" then Galileo
  else if has "beidou" || has "compass" then BeiDou
  else if has "starlink" then Starlink
  else if has "oneweb" then OneWeb
  else if has "iridium" then Iridium
  else if has "noaa" || has "goes" || has "meteosat" || has "weather"
          || has "metop" || has "himawari" then Weather
  else if has "landsat" || has "sentinel" || has "terra" || has "aqua"
          || has "modis" || has "worldview" then Earth_Observation
  else if has "hubble" || has "kepler" || has "tess" || has "chandra"
          || has "spitzer" || has "jwst" || has "telescope"
          || has "observatory" then Space_Telescopes
  else if has "science" || has "research" || has "explorer"
          || has "mission" || has "experiment" then Scientific
  else if has "cubesat" || has "cube" || has "picosatellite"
          || has "nanosat" || has "microsat" then CubeSats
  else if has "amateur" || has "ham" || (has "radio" && has "sat")
       then Amateur_Radio
  else if has "demo" || has "test" || has "technology"
          || has "experimental" then Technology_Demo
  else if has "usa" || has "nro" || has "dscs" || has "milstar"
          || has "sbirs" || has "lacrosse" then Military
  else if has "rocket" || has "r/b" || has "debris" || has "stage"
       then Rocket_Bodies
  else if has "intelsat" || has "eutelsat" || has "ses"
          || has "communication" || has "telecom" || has "broadcast"
       then Communication
  else if has "geo" || has "geostationary" then Geostationary
  else Other.

(** *** The same function as an ordered rule table

    The specification describes the categorizer as an ordered list of rules
    evaluated top to bottom on the lower-cased name, the first match
    winning; [rule_table] writes that list down and [first_match] evaluates
    it.  It is compared with the cascade of the source below. *)

Inductive pattern : Type :=
| IdIs (z : Z)                 (* the catalog id is [z] *)
| Has (keyword : string)       (* the keyword occurs in the name *)
| Both (p q : pattern).        (* both patterns match *)

Fixpoint matches (p : pattern) (name_lower : string) (norad_id : Z) : bool :=
  match p with
  | IdIs z => (norad_id =? z)%Z
  | Has k => Py.contains k name_lower
  | Both p q => matches p name_lower norad_id && matches q name_lower norad_id
  end.

(** A rule: any of its patterns matching selects its category. *)
Definition rule : Type := list pattern * Category.

Definition rule_table : list rule :=
  [ ([IdIs 25544; Has "iss"], ISS);
    ([Has "gps"; Has "navstar"], GPS);
    ([Has "glonass"], GLONASS);
    ([Has "galileo"], Galileo);
    ([Has "beidou"; Has "compass"], BeiDou);
    ([Has "starlink"], Starlink);
    ([Has "oneweb"], OneWeb);
    ([Has "iridium"], Iridium);
    ([Has "noaa"; Has "goes"; Has "meteosat"; Has "weather"; Has "metop";
      Has "himawari"], Weather);
    ([Has "landsat"; Has "sentinel"; Has "terra"; Has "aqua"; Has "modis";
      Has "worldview"], Earth_Observation);
    ([Has "hubble"; Has "kepler"; Has "tess"; Has "chandra"; Has "spitzer";
      Has "jwst"; Has "telescope"; Has "observatory"], Space_Telescopes);
    ([Has "science"; Has "research"; Has "explorer"; Has "mission";
      Has "experiment"], Scientific);
    ([Has "cubesat"; Has "cube"; Has "picosatellite"; Has "nanosat";
      Has "microsat"], CubeSats);
    ([Has "amateur"; Has "ham"; Both (Has "radio") (Has "sat")],
     Amateur_Radio);
    ([Has "demo"; Has "test"; Has "technology"; Has "experimental"],
     Technology_Demo);
    ([Has "usa"; Has "nro"; Has "dscs"; Has "milstar"; Has "sbirs";
      Has "lacrosse"], Military);
    ([Has "rocket"; Has "r/b"; Has "debris"; Has "stage"], Rocket_Bodies);
    ([Has "intelsat"; Has "eutelsat"; Has "ses"; Has "communication";
      Has "telecom"; Has "broadcast"], Communication);
    ([Has "geo"; Has "geostationary"], Geostationary) ].

Definition rule_matches (r : rule) (name_lower : string) (norad_id : Z) : bool :=
  existsb (fun p => matches p name_lower norad_id) (fst r).

Fixpoint first_match (rs : list rule) (name_lower : string) (norad_id : Z)
  : Category :=
  match rs with
  | [] => Other
  | r :: rs' =>
      if rule_matches r name_lower norad_id then snd r
      else first_match rs' name_lower norad_id
  end.

(* ================================================================= *)
(** ** The external libraries

    The tracker never computes an orbit itself: it drives skyfield, numpy and
    the datetime module.  [Propagation] is the interface it uses of them,
    each operation named after the call in the source; an operation that can
    raise returns a [res]. *)

(** A skyfield [Time], by its TT Julian date: [ts.tt_jd(x)] is [x] and
    [t.tt] is [t]. *)
Definition Time : Type := pyfloat.

(** [geocentric.subpoint()]: degrees, degrees, kilometres. *)
Record Subpoint : Type := {
  latitude_degrees : pyfloat;
  longitude_degrees : pyfloat;
  elevation_km : pyfloat
}.

(** [wgs84.latlon(observer_lat, observer_lon, elevation_m=observer_alt)] *)
Record Observer : Type := latlon {
  observer_lat : pyfloat;
  observer_lon : pyfloat;
  observer_alt : pyfloat
}.

Class Propagation : Type := {
  Satellite : Type;
  Geocentric : Type;
  Vector : Type;
  DateTime : Type;
  (** [EarthSatellite(line1, line2, name, ts)] *)
  EarthSatellite : string -> string -> string -> res Satellite;
  (** [satellite.at(t)] *)
  sat_at : Satellite -> Time -> res Geocentric;
  (** [geocentric.subpoint()] *)
  subpoint : Geocentric -> res Subpoint;
  (** [geocentric.position.km] *)
  position_km : Geocentric -> Vector;
  (** [a - b] on numpy arrays *)
  vec_sub : Vector -> Vector -> Vector;
  (** [np.linalg.norm(v)] *)
  linalg_norm : Vector -> pyfloat;
  (** [satellite.find_events(observer, t0, t1, altitude_degrees=a)], the
      times and the events zipped *)
  find_events :
    Satellite -> Observer -> Time -> Time -> pyfloat -> res (list (Time * Z));
  (** [(satellite - observer).at(t).altaz()]: altitude and azimuth in
      degrees, distance *)
  altaz : Satellite -> Observer -> Time -> res (pyfloat * pyfloat * pyfloat);
  (** [t.utc_iso()] *)
  utc_iso : Time -> string;
  (** [datetime.fromisoformat(s)] *)
  fromisoformat : string -> res DateTime;
  (** [ts.from_datetime(d)] *)
  from_datetime : DateTime -> res Time;
  (** [(a - b).total_seconds()] *)
  total_seconds : DateTime -> DateTime -> pyfloat;
  (** [(datetime(year, 1, 1) + timedelta(days=d)).strftime("%Y-%m-%d")] *)
  new_year_plus_days : Z -> pyfloat -> res string
}.

(* ================================================================= *)
(** ** Dictionaries

    A Python [dict] keeps its keys in insertion order and the queries
    iterate over it, so the catalog is an association list; [dict_has] is
    the [in] test and [dict_get] the lookup. *)

Definition dict (V : Type) : Type := list (Z * V).

Definition dict_has {V : Type} (k : Z) (d : dict V) : bool :=
  existsb (fun e => (fst e =? k)%Z) d.

Fixpoint dict_get {V : Type} (k : Z) (d : dict V) : option V :=
  match d with
  | [] => None
  | (k', v) :: d' => if (k' =? k)%Z then Some v else dict_get k d'
  end.

Definition keys {V : Type} (d : dict V) : list Z := map fst d.

(* ================================================================= *)
(** ** The tracker *)

Section Engine.

Context {P : Propagation}.

(** One value of [self.satellites]. *)
Record SatData : Type := {
  satellite : Satellite;
  name : string;
  tle_line1 : string;
  tle_line2 : string;
  category : Category
}.

(** [self]: the catalog, the membership lists of the taxonomy, and the
    refresh policy. *)
Record Tracker : Type := {
  satellites : dict SatData;
  categories : list (Category * list Z);
  last_update : option pyfloat;
  update_interval : pyfloat
}.

(** *** [_update_category_lists] *)

Fixpoint append_member (c : Category) (norad_id : Z)
    (cats : list (Category * list Z)) : list (Category * list Z) :=
  match cats with
  | [] => []
  | (c', ids) :: rest =>
      if category_eqb c' c then (c', ids ++ [norad_id]) :: rest
      else (c', ids) :: append_member c norad_id rest
  end.

Definition _update_category_lists (self : Tracker) : Tracker :=
  let cleared := map (fun e => (fst e, @nil Z)) (categories self) in
  {| satellites := satellites self;
     categories :=
       fold_left (fun cats e => append_member (category (snd e)) (fst e) cats)
                 (satellites self) cleared;
     last_update := last_update self;
     update_interval := update_interval self |}.

(** *** [_load_fallback_data] *)

Definition iss_tle1 : string :=
  "1 25544U 98067A   23001.00000000  .00002182  00000-0  40768-4 0  9990".
Definition iss_tle2 : string :=
  "2 25544  51.6461 339.7939 0001220  92.8340 267.3124 15.49309239 00000".

Definition _load_fallback_data (self : Tracker) : Tracker :=
  try_except
    (iss <- EarthSatellite iss_tle1 iss_tle2 "ISS (ZARYA)" ;;
     Ret (_update_category_lists
            {| satellites :=
                 [(25544%Z, {| satellite := iss;
                               name := "ISS (ZARYA)";
                               tle_line1 := iss_tle1;
                               tle_line2 := iss_tle2;
                               category := ISS |})];
               categories := categories self;
               last_update := last_update self;
               update_interval := update_interval self |}))%res
    (fun _ => self).

(** *** [load_tle_data] *)

(** [tle_source_sets]: the primary source and its two fall-backs. *)
Definition celestrak (group : string) : string :=
  "https://celestrak.org/NORAD/elements/gp.php?GROUP=" ++ group ++ "&FORMAT=tle".

Definition tle_source_sets : list (list string) :=
  [ map celestrak
      ["active"; "stations"; "weather"; "gps-ops"; "galileo"; "glonass-ops";
       "beidou"; "science"; "starlink"; "oneweb"; "iridium-33-debris";
       "iridium-next"; "noaa"; "goes"; "resource"; "cubesat"; "amateur";
       "x-comm"; "geo"; "intelsat"; "ses"; "orbcomm"; "globalstar";
       "military"; "radar"];
    [ "https://www.n2yo.com/tle/download.php?catalog=stations";
      "https://www.n2yo.com/tle/download.php?catalog=weather";
      "https://www.n2yo.com/tle/download.php?catalog=gps" ];
    [ "https://celestrak.org/NORAD/elements/stations.txt";
      "https://celestrak.org/NORAD/elements/weather.txt";
      "https://celestrak.org/NORAD/elements/gps.txt" ] ].

(** The network, as one load sees it: [requests.get(url, timeout=15)],
    [raise_for_status()] and [response.text]. *)
Variable http_get : string -> res string.

(** The locals of [load_tle_data], and the requests made so far. *)
Record Ingest : Type := {
  all_satellites : dict SatData;
  satellite_count : Z;
  requested : list string
}.

Definition ingest_start : Ingest :=
  {| all_satellites := []; satellite_count := 0; requested := [] |}.

(** The record ceiling. *)
Definition ceiling : Z := 2000.

(** The format check of lines 220-221. *)
Definition valid_tle (line1 line2 : string) : bool :=
  Py.startswith line1 "1 " && Py.startswith line2 "2 " &&
  (Py.len line1 =? 69) && (Py.len line2 =? 69).

(** One turn of the loop over triplets, after its ceiling test: lines
    215-240.  The state is the locals and [url_satellite_count]. *)
Definition store_triplet (raw_name raw1 raw2 : string) (st : Ingest * Z)
  : Ingest * Z :=
  let name := Py.strip raw_name in
  let line1 := Py.strip raw1 in
  let line2 := Py.strip raw2 in
  if valid_tle line1 line2 then
    try_except
      (satellite <- EarthSatellite line1 line2 name ;;
       norad_id <- Py.int (Py.slice line1 2 7) ;;
       Ret (if dict_has norad_id (all_satellites (fst st)) then st
            else
              ({| all_satellites :=
                    all_satellites (fst st) ++
                    [(norad_id,
                      {| satellite := satellite;
                         name := name;
                         tle_line1 := line1;
                         tle_line2 := line2;
                         category := _categorize_satellite name norad_id |})];
                  satellite_count := satellite_count (fst st) + 1;
                  requested := requested (fst st) |},
               (snd st + 1)%Z)))%res
      (fun _ => st)
  else st.

(** [for i in range(0, len(lines) - 2, 3)]: whole triplets only. *)
Fixpoint parse_lines (lines : list string) (st : Ingest * Z) : Ingest * Z :=
  match lines with
  | raw_name :: raw1 :: raw2 :: rest =>
      if (ceiling <=? satellite_count (fst st))%Z || (ceiling <=? snd st)%Z
      then st
      else parse_lines rest (store_triplet raw_name raw1 raw2 st)
  | _ => st
  end.

(** The body of the loop over the endpoints of a group, after its ceiling
    test: lines 202-248.  The state is the locals and [successful_loads]. *)
Definition load_url (url : string) (st : Ingest * Z) : Ingest * Z :=
  let asked :=
    {| all_satellites := all_satellites (fst st);
       satellite_count := satellite_count (fst st);
       requested := requested (fst st) ++ [url] |} in
  try_except
    (text <- http_get url ;;
     let lines := Py.split Py.newline (Py.strip text) in
     let parsed := parse_lines lines (asked, 0%Z) in
     Ret (fst parsed,
          if (0 <? snd parsed)%Z then (snd st + 1)%Z else snd st))%res
    (fun _ => (asked, snd st)).

(** [for url in tle_urls] *)
Fixpoint load_urls (tle_urls : list string) (st : Ingest * Z) : Ingest * Z :=
  match tle_urls with
  | [] => st
  | url :: rest =>
      if (ceiling <=? satellite_count (fst st))%Z then st
      else load_urls rest (load_url url st)
  end.

(** [for source_index, tle_urls in enumerate(tle_source_sets)] *)
Fixpoint load_source_sets (sets : list (list string)) (acc : Ingest) : Ingest :=
  match sets with
  | [] => acc
  | tle_urls :: rest =>
      if (ceiling <=? satellite_count acc)%Z then acc
      else
        let loaded := load_urls tle_urls (acc, 0%Z) in
        if (0 <? snd loaded)%Z then fst loaded
        else load_source_sets rest (fst loaded)
  end.

(** [load_tle_data] over any list of source groups; [time_time] is the
    clock read at line 264.  The result is the new [self] and the requests
    made.  Nothing inside the outer [try] raises once the inner handlers
    have run, so its handler (lines 271-275) is never entered. *)
Definition load_tle_data_from (sets : list (list string))
    (time_time : pyfloat) (self : Tracker) : Tracker * list string :=
  let acc := load_source_sets sets ingest_start in
  match all_satellites acc with
  | [] => (_load_fallback_data self, requested acc)
  | _ =>
      (_update_category_lists
         {| satellites := all_satellites acc;
            categories := categories self;
            last_update := Some time_time;
            update_interval := update_interval self |},
       requested acc)
  end.

Definition load_tle_data (time_time : pyfloat) (self : Tracker)
  : Tracker * list string :=
  load_tle_data_from tle_source_sets time_time self.

(** [refresh_tle_data] *)
Definition refresh_tle_data (time_time : pyfloat) (self : Tracker)
  : Tracker * list string :=
  load_tle_data time_time self.

(** [_should_update_tle].  The difference of the two clocks is taken in
    exact arithmetic here; line 769 takes it in binary floating point, so
    within a rounding error of the interval the two can decide differently.
    The properties below take the decision as it comes and state no
    threshold. *)
Definition _should_update_tle (time_time : pyfloat) (self : Tracker) : bool :=
  match last_update self with
  | None => true
  | Some t => F.gt (F.sub time_time t) (update_interval self)
  end.

(** [__init__], before its call of [load_tle_data]. *)
Definition fresh : Tracker :=
  {| satellites := [];
     categories := map (fun c => (c, @nil Z)) taxonomy;
     last_update := None;
     update_interval := F.of_Z 86400 |}.

(** [SatelliteTracker()] *)
Definition __init__ (time_time : pyfloat) : Tracker * list string :=
  load_tle_data time_time fresh.

(* ----------------------------------------------------------------- *)
(** *** Loops *)

(** A [for] loop whose body can raise outside any handler. *)
Fixpoint for_each {A S : Type} (items : list A) (body : A -> S -> res S)
    (s : S) : res S :=
  match items with
  | [] => Ret s
  | x :: rest => bind (body x s) (for_each rest body)
  end.

(** A [for] loop whose whole body is a [try] block with the handler
    [continue]: a turn that raises leaves the list as it was. *)
Definition collect {A B : Type} (items : list A) (body : A -> res B) : list B :=
  fold_left
    (fun out x => try_except (y <- body x ;; Ret (out ++ [y]))%res (fun _ => out))
    items [].

(** [range(n)] *)
Definition range (n : nat) : list Z := map Z.of_nat (seq 0 n).

(* ----------------------------------------------------------------- *)
(** *** [get_satellite_positions] *)

Record PositionRecord : Type := {
  pos_norad_id : Z;
  pos_name : string;
  pos_latitude : pyfloat;
  pos_longitude : pyfloat;
  pos_altitude : pyfloat;
  pos_velocity : pyfloat;
  pos_orbital_period : pynum;
  pos_category : Category;
  pos_color : string;
  pos_launch_date : string
}.

(** [0.5/86400]: half a second, in days. *)
Definition half_second : pyfloat := Fin (Qmake 1 172800).

(** Lines 409-414 and 468-473: the distance covered in the second around
    [current_time], in metres. *)
Definition velocity_at (satellite : Satellite) (current_time : Time)
  : res pyfloat :=
  (let dt1 := F.sub current_time half_second in
   let dt2 := F.add current_time half_second in
   geocentric_before <- sat_at satellite dt1 ;;
   geocentric_after <- sat_at satellite dt2 ;;
   let velocity_vector :=
     vec_sub (position_km geocentric_after) (position_km geocentric_before) in
   Ret (F.mul (linalg_norm velocity_vector) (F.of_Z 1000)))%res.

(** [1440 / mean_motion if mean_motion > 0 else 0] *)
Definition period_of (mean_motion : pyfloat) : res pynum :=
  if F.gt mean_motion (F.of_Z 0)
  then (p <- F.div (F.of_Z 1440) mean_motion ;; Ret (PFloat p))%res
  else Ret (PInt 0).

(** [int('20' + e[:2]) if e[:2] < '57' else int('19' + e[:2])] *)
Definition epoch_year (epoch_str : string) : res Z :=
  if Py.str_lt (Py.slice epoch_str 0 2) "57"
  then Py.int ("20" ++ Py.slice epoch_str 0 2)
  else Py.int ("19" ++ Py.slice epoch_str 0 2).

(** [_extract_launch_date]; lines 422-431 of [get_satellite_positions] are
    the same statements on [tle_line1[18:32]]. *)
Definition _extract_launch_date (epoch_str : string) : string :=
  try_except
    (year <- epoch_year epoch_str ;;
     day_of_year <- Py.float (Py.slice_from epoch_str 2) ;;
     new_year_plus_days year (F.sub day_of_year (F.of_Z 1)))%res
    (fun _ => "Unknown").

(** The [try] block of lines 403-446 for one entry of the catalog. *)
Definition position_record (current_time : Time) (entry : Z * SatData)
  : res PositionRecord :=
  (let norad_id := fst entry in
   let sat_data := snd entry in
   geocentric <- sat_at (satellite sat_data) current_time ;;
   sp <- subpoint geocentric ;;
   velocity <- velocity_at (satellite sat_data) current_time ;;
   mean_motion <- Py.float (Py.slice (tle_line2 sat_data) 52 63) ;;
   orbital_period <- period_of mean_motion ;;
   let launch_date :=
     let tle_epoch := Py.slice (tle_line1 sat_data) 18 32 in
     try_except
       (year <- epoch_year tle_epoch ;;
        day_of_year <- Py.float (Py.slice_from tle_epoch 2) ;;
        new_year_plus_days year (F.sub day_of_year (F.of_Z 1)))
       (fun _ => "Unknown") in
   Ret {| pos_norad_id := norad_id;
          pos_name := name sat_data;
          pos_latitude := latitude_degrees sp;
          pos_longitude := longitude_degrees sp;
          pos_altitude := elevation_km sp;
          pos_velocity := velocity;
          pos_orbital_period := orbital_period;
          pos_category := category sat_data;
          pos_color := category_color (category sat_data);
          pos_launch_date := launch_date |})%res.

(** [time_time] is the clock of the refresh policy, [current_time] is
    [self.ts.now()].  The result is [self] after the refresh, the requests
    the refresh made, and the list returned. *)
Definition get_satellite_positions (time_time : pyfloat) (current_time : Time)
    (self : Tracker) : res (Tracker * list string * list PositionRecord) :=
  let refreshed :=
    if _should_update_tle time_time self then load_tle_data time_time self
    else (self, []) in
  Ret (refreshed,
       collect (satellites (fst refreshed)) (position_record current_time)).

(* ----------------------------------------------------------------- *)
(** *** [get_satellite_details] and its helpers *)

Definition any_in (patterns : list string) (name_lower : string) : bool :=
  existsb (fun pattern => Py.contains pattern name_lower) patterns.

Definition _get_country_from_satellite (name : string) (norad_id : Z) : string :=
  let name_lower := Py.lower name in
  if (norad_id =? 25544)%Z then "International"
  else if any_in ["usa"; "noaa"; "goes"; "landsat"; "aqua"; "terra"] name_lower
  then "United States"
  else if any_in ["cosmos"; "glonass"; "meteor"; "resurs"] name_lower
  then "Russia"
  else if any_in ["beidou"; "fengyun"; "yaogan"; "tiangong"] name_lower
  then "China"
  else if any_in ["galileo"; "sentinel"; "meteosat"; "eutelsat"] name_lower
  then "Europe (ESA)"
  else if any_in ["himawari"; "jaxa"; "mtsat"] name_lower then "Japan"
  else if any_in ["insat"; "cartosat"; "resourcesat"] name_lower then "India"
  else if any_in ["starlink"; "oneweb"; "iridium"] name_lower then "Commercial"
  else "Unknown".

Definition _get_agency_from_satellite (name : string) (c : Category) : string :=
  let name_lower := Py.lower name in
  if Py.contains "starlink" name_lower then "SpaceX"
  else if Py.contains "oneweb" name_lower then "OneWeb"
  else if Py.contains "iridium" name_lower then "Iridium Communications"
  else if any_in ["noaa"; "goes"; "landsat"] name_lower then "NASA/NOAA"
  else if Py.contains "glonass" name_lower then "Roscosmos"
  else if Py.contains "galileo" name_lower then "ESA"
  else if Py.contains "beidou" name_lower then "CNSA"
  else if category_eqb c ISS then "NASA/Roscosmos/ESA/JAXA"
  else if category_eqb c Military then "Defense Department"
  else "Various".

Definition _get_satellite_type (c : Category) : string :=
  match c with
  | ISS => "Space Station"
  | GPS | GLONASS | Galileo | BeiDou => "Navigation"
  | Weather => "Weather/Climate"
  | Earth_Observation => "Earth Observation"
  | Communication => "Communication"
  | Starlink | OneWeb => "Internet Constellation"
  | Iridium => "Communication"
  | Scientific => "Scientific Research"
  | Space_Telescopes => "Space Observatory"
  | Military => "Defense/Intelligence"
  | CubeSats => "Small Satellite"
  | Amateur_Radio => "Amateur Radio"
  | Technology_Demo => "Technology Demo"
  | Debris_Tracking => "Debris/Inactive"
  | Geostationary => "Communication/Broadcasting"
  | LEO_Constellation => "Constellation"
  | Commercial => "Commercial"
  | Rocket_Bodies => "Rocket Stage/Debris"
  | Other => "Unknown"
  end.

Record Orbit : Type := {
  orbit_altitude : pyfloat;
  orbit_inclination : pyfloat;
  orbit_period : pynum;
  orbit_velocity : pyfloat;
  orbit_type : string
}.

Record Position : Type := {
  position_latitude : pyfloat;
  position_longitude : pyfloat;
  position_country : string;
  position_visibility : string
}.

Record Technical : Type := {
  technical_norad_id : Z;
  technical_launch_date : string;
  technical_type : string;
  technical_agency : string;
  technical_status : string
}.

Record TleData : Type := {
  tle_data_line1 : string;
  tle_data_line2 : string;
  tle_data_epoch : string
}.

Record Detail : Type := {
  detail_norad_id : Z;
  detail_name : string;
  detail_category : Category;
  detail_orbit : Orbit;
  detail_position : Position;
  detail_technical : Technical;
  detail_tle_data : TleData
}.

(** The [try] block of lines 464-539. *)
Definition detail_record (current_time : Time) (norad_id : Z)
    (sat_data : SatData) : res Detail :=
  (geocentric <- sat_at (satellite sat_data) current_time ;;
   sp <- subpoint geocentric ;;
   velocity <- velocity_at (satellite sat_data) current_time ;;
   let tle_line1 := tle_line1 sat_data in
   let tle_line2 := tle_line2 sat_data in
   inclination <- Py.float (Py.slice tle_line2 8 16) ;;
   eccentricity <- Py.float ("0." ++ Py.slice tle_line2 26 33) ;;
   arg_perigee <- Py.float (Py.slice tle_line2 34 42) ;;
   mean_anomaly <- Py.float (Py.slice tle_line2 43 51) ;;
   mean_motion <- Py.float (Py.slice tle_line2 52 63) ;;
   orbital_period <- period_of mean_motion ;;
   let altitude_km := elevation_km sp in
   let orbit_type :=
     if F.lt altitude_km (F.of_Z 2000) then "LEO (Low Earth Orbit)"
     else if F.lt altitude_km (F.of_Z 35000) then "MEO (Medium Earth Orbit)"
     else "GEO (Geostationary Orbit)" in
   let country := _get_country_from_satellite (name sat_data) norad_id in
   let agency :=
     _get_agency_from_satellite (name sat_data) (category sat_data) in
   let satellite_type := _get_satellite_type (category sat_data) in
   let launch_date := _extract_launch_date (Py.slice tle_line1 18 32) in
   let visibility :=
     if F.lt altitude_km (F.of_Z 1000) then "Visible"
     else "Telescope Required" in
   let status :=
     if F.gt mean_motion (F.of_Z 0) then "Active" else "Inactive" in
   velocity_km <- F.div velocity (F.of_Z 1000) ;;
   Ret {| detail_norad_id := norad_id;
          detail_name := name sat_data;
          detail_category := category sat_data;
          detail_orbit :=
            {| orbit_altitude := altitude_km;
               orbit_inclination := inclination;
               orbit_period := orbital_period;
               orbit_velocity := velocity_km;
               orbit_type := orbit_type |};
          detail_position :=
            {| position_latitude := latitude_degrees sp;
               position_longitude := longitude_degrees sp;
               position_country := country;
               position_visibility := visibility |};
          detail_technical :=
            {| technical_norad_id := norad_id;
               technical_launch_date := launch_date;
               technical_type := satellite_type;
               technical_agency := agency;
               technical_status := status |};
          detail_tle_data :=
            {| tle_data_line1 := tle_line1;
               tle_data_line2 := tle_line2;
               tle_data_epoch := Py.slice tle_line1 18 32 |} |})%res.

(** [None] is Python's [None]: the value returned at line 457 and, from
    the handler, at line 543. *)
Definition get_satellite_details (current_time : Time) (norad_id : Z)
    (self : Tracker) : res (option Detail) :=
  if negb (dict_has norad_id (satellites self)) then Ret None
  else
    match dict_get norad_id (satellites self) with
    | None => Raise KeyError
    | Some sat_data =>
        Ret (try_except
               (d <- detail_record current_time norad_id sat_data ;;
                Ret (Some d))%res
               (fun _ => None))
    end.

(* ----------------------------------------------------------------- *)
(** *** [get_orbital_path] *)

Record OrbitPoint : Type := {
  point_latitude : pyfloat;
  point_longitude : pyfloat;
  point_altitude : pyfloat
}.

Definition num_points : nat := 100.

(** Lines 658-660: one turn appends the time of sample [i]. *)
Definition sample_time (current_time : Time) (hours : pyfloat) (i : Z)
    (time_points : list Time) : res (list Time) :=
  (offset <- F.div (F.mul (F.of_Z i) hours)
                   (F.of_Z (24 * Z.of_nat num_points)) ;;
   Ret (time_points ++ [F.add current_time offset]))%res.

(** The [try] block of lines 666-673. *)
Definition orbit_point (satellite : Satellite) (t : Time) : res OrbitPoint :=
  (geocentric <- sat_at satellite t ;;
   sp <- subpoint geocentric ;;
   Ret {| point_latitude := latitude_degrees sp;
          point_longitude := longitude_degrees sp;
          point_altitude := elevation_km sp |})%res.

Definition get_orbital_path (current_time : Time) (norad_id : Z)
    (hours : pyfloat) (self : Tracker) : res (list OrbitPoint) :=
  if negb (dict_has norad_id (satellites self)) then Ret []
  else
    match dict_get norad_id (satellites self) with
    | None => Raise KeyError
    | Some sat_data =>
        (time_points <-
           for_each (range num_points) (sample_time current_time hours) [] ;;
         Ret (collect time_points (orbit_point (satellite sat_data))))%res
    end.

(* ----------------------------------------------------------------- *)
(** *** [get_next_passes] *)

(** A pass is a dictionary that gets its keys one event at a time: a field
    is [None] while its key is missing.  [rise_azimuth] is first stored
    with the value [None], which is [Some None] here. *)
Record Pass : Type := {
  rise_time : option string;
  rise_azimuth : option (option pyfloat);
  culmination_time : option string;
  max_elevation : option pyfloat;
  culmination_azimuth : option pyfloat;
  set_time : option string;
  set_azimuth : option pyfloat;
  duration_minutes : option pyfloat
}.

(** [{}] *)
Definition no_pass : Pass :=
  {| rise_time := None; rise_azimuth := None; culmination_time := None;
     max_elevation := None; culmination_azimuth := None; set_time := None;
     set_azimuth := None; duration_minutes := None |}.

Definition is_some {A : Type} (o : option A) : bool :=
  match o with Some _ => true | None => false end.

(** [if current_pass:], a dictionary with a key *)
Definition truthy (p : Pass) : bool :=
  is_some (rise_time p) || is_some (rise_azimuth p) ||
  is_some (culmination_time p) || is_some (max_elevation p) ||
  is_some (culmination_azimuth p) || is_some (set_time p) ||
  is_some (set_azimuth p) || is_some (duration_minutes p).

(** [datetime.fromisoformat(s.replace('Z', '+00:00'))] *)
Definition parse_iso (s : string) : res DateTime :=
  fromisoformat (Py.replace "Z" "+00:00" s).

(** The event is a rise: lines 704-707. *)
Definition on_rise (time_point : Time) : Pass :=
  {| rise_time := Some (utc_iso time_point); rise_azimuth := Some None;
     culmination_time := None; max_elevation := None;
     culmination_azimuth := None; set_time := None; set_azimuth := None;
     duration_minutes := None |}.

(** The event is a culmination: lines 709-716. *)
Definition on_culmination (satellite : Satellite) (observer : Observer)
    (time_point : Time) (current_pass : Pass) : res Pass :=
  if truthy current_pass then
    ('(alt, az, distance) <- altaz satellite observer time_point ;;
     Ret {| rise_time := rise_time current_pass;
            rise_azimuth := rise_azimuth current_pass;
            culmination_time := Some (utc_iso time_point);
            max_elevation := Some alt;
            culmination_azimuth := Some az;
            set_time := set_time current_pass;
            set_azimuth := set_azimuth current_pass;
            duration_minutes := duration_minutes current_pass |})%res
  else Ret current_pass.

(** The event is a set, and the pass has a key: lines 719-737.  The pass
    that is appended. *)
Definition on_set (satellite : Satellite) (observer : Observer)
    (time_point : Time) (current_pass : Pass) : res Pass :=
  (let set_iso := utc_iso time_point in
   az_rise <-
     match rise_time current_pass with
     | Some rise_iso =>
         rise_dt <- parse_iso rise_iso ;;
         rise_t <- from_datetime rise_dt ;;
         '(_, az_rise, _) <- altaz satellite observer rise_t ;;
         Ret (Some (Some az_rise))
     | None => Ret (rise_azimuth current_pass)
     end ;;
   '(_, az_set, _) <- altaz satellite observer time_point ;;
   duration <-
     match rise_time current_pass with
     | Some rise_iso =>
         rise_dt <- parse_iso rise_iso ;;
         set_dt <- parse_iso set_iso ;;
         d <- F.div (total_seconds set_dt rise_dt) (F.of_Z 60) ;;
         Ret (Some d)
     | None => Ret (duration_minutes current_pass)
     end ;;
   Ret {| rise_time := rise_time current_pass;
          rise_azimuth := az_rise;
          culmination_time := culmination_time current_pass;
          max_elevation := max_elevation current_pass;
          culmination_azimuth := culmination_azimuth current_pass;
          set_time := Some set_iso;
          set_azimuth := Some az_set;
          duration_minutes := duration |})%res.

(** One turn of the loop over the events: the passes and the current pass
    after it. *)
Definition on_event (satellite : Satellite) (observer : Observer)
    (time_point : Time) (event : Z) (st : list Pass * Pass)
  : res (list Pass * Pass) :=
  (if (event =? 0)%Z then Ret (fst st, on_rise time_point)
   else if (event =? 1)%Z then
     p <- on_culmination satellite observer time_point (snd st) ;;
     Ret (fst st, p)
   else if (event =? 2)%Z then
     if truthy (snd st) then
       p <- on_set satellite observer time_point (snd st) ;;
       Ret (fst st ++ [p], no_pass)
     else Ret st
   else Ret st)%res.

(** The loop of lines 702-740 inside its [try]: a turn that raises ends the
    loop, and the passes appended before it stay. *)
Fixpoint pair_events (satellite : Satellite) (observer : Observer)
    (events : list (Time * Z)) (st : list Pass * Pass) : list Pass :=
  match events with
  | [] => fst st
  | (time_point, event) :: rest =>
      match on_event satellite observer time_point event st with
      | Ret st' => pair_events satellite observer rest st'
      | Raise _ => fst st
      end
  end.

Definition get_next_passes (current_time : Time) (norad_id : Z)
    (observer_lat observer_lon observer_alt : pyfloat) (days : pyfloat)
    (self : Tracker) : res (list Pass) :=
  if negb (dict_has norad_id (satellites self)) then Ret []
  else
    match dict_get norad_id (satellites self) with
    | None => Raise KeyError
    | Some sat_data =>
        let satellite := satellite sat_data in
        let observer := latlon observer_lat observer_lon observer_alt in
        let end_time := F.add current_time days in
        let passes :=
          try_except
            (events <- find_events satellite observer current_time end_time
                                   (F.of_Z 10) ;;
             Ret (pair_events satellite observer events ([], no_pass)))%res
            (fun _ => []) in
        Ret (firstn 3 passes)
    end.

(* ----------------------------------------------------------------- *)
(** *** [get_satellite_categories] *)

Record CategorySummary : Type := {
  summary_name : string;
  summary_color : string;
  summary_count : Z;
  summary_satellites : list Z
}.

Definition get_satellite_categories (self : Tracker)
  : list (Category * CategorySummary) :=
  map (fun e =>
         (fst e,
          {| summary_name := category_name (fst e);
             summary_color := category_color (fst e);
             summary_count := Z.of_nat (List.length (snd e));
             summary_satellites := snd e |}))
      (categories self).

End Engine.

(* ================================================================= *)
(** ** Ingestion, read as a function of the records

    What [load_tle_data] computes, said without its counters: the records
    an endpoint offers, and the dictionary that accepting them in order
    builds. *)

Section Records.

Context {P : Propagation}.
Variable http_get : string -> res string.

(** The record a triplet stands for, when it passes the format check, the
    satellite can be built from it and its id can be read. *)
Definition read_triplet (raw_name raw1 raw2 : string) : option (Z * SatData) :=
  let name := Py.strip raw_name in
  let line1 := Py.strip raw1 in
  let line2 := Py.strip raw2 in
  if valid_tle line1 line2 then
    try_except
      (satellite <- EarthSatellite line1 line2 name ;;
       norad_id <- Py.int (Py.slice line1 2 7) ;;
       Ret (Some (norad_id,
                  {| satellite := satellite;
                     name := name;
                     tle_line1 := line1;
                     tle_line2 := line2;
                     category := _categorize_satellite name norad_id |})))%res
      (fun _ => None)
  else None.

Fixpoint records_of_lines (lines : list string) : list (Z * SatData) :=
  match lines with
  | raw_name :: raw1 :: raw2 :: rest =>
      match read_triplet raw_name raw1 raw2 with
      | Some r => r :: records_of_lines rest
      | None => records_of_lines rest
      end
  | _ => []
  end.

(** The valid records of an endpoint, in the order of its body; none when
    the request fails. *)
Definition valid_records (url : string) : list (Z * SatData) :=
  try_except
    (text <- http_get url ;;
     Ret (records_of_lines (Py.split Py.newline (Py.strip text))))%res
    (fun _ => []).

(** The valid records of a list of endpoints, in the order of the requests. *)
Definition records_of_urls (urls : list string) : list (Z * SatData) :=
  List.concat (map valid_records urls).

(** Accepting records in order: nothing more at the ceiling, and a record
    whose id is already a key is dropped. *)
Fixpoint absorb (d : dict SatData) (rs : list (Z * SatData)) : dict SatData :=
  match rs with
  | [] => d
  | r :: rs' =>
      if (ceiling <=? Z.of_nat (List.length d))%Z then d
      else if dict_has (fst r) d then absorb d rs'
      else absorb (d ++ [r]) rs'
  end.

(** An endpoint yields at least one valid record. *)
Definition yields (url : string) : bool :=
  match valid_records url with
  | [] => false
  | _ :: _ => true
  end.

(** A source group is successful: one of its endpoints yields. *)
Definition successful (tle_urls : list string) : bool := existsb yields tle_urls.

(** The counter is the size of the dictionary. *)
Definition counted (acc : Ingest) : Prop :=
  (satellite_count acc = Z.of_nat (List.length (all_satellites acc)))%Z.

(** The locals after a step: the dictionary is [d], the requests are [rq],
    and the counter follows. *)
Definition moved (acc' : Ingest) (d : dict SatData) (rq : list string) : Prop :=
  all_satellites acc' = d /\ requested acc' = rq /\ counted acc'.

(** The locals when a group is entered after groups that gave no record. *)
Definition entering (rq : list string) : Ingest :=
  {| all_satellites := []; satellite_count := 0%Z; requested := rq |}.

End Records.

(** The format check on both stored lines of a record. *)
Definition lines_ok {P : Propagation} (e : Z * SatData) : Prop :=
  Py.startswith (tle_line1 (snd e)) "1 " = true /\
  Py.len (tle_line1 (snd e)) = 69 /\
  Py.startswith (tle_line2 (snd e)) "2 " = true /\
  Py.len (tle_line2 (snd e)) = 69.

(** The invariant of the catalog. *)
Definition catalog_ok {P : Propagation} (d : dict SatData) : Prop :=
  NoDup (keys d) /\ Forall lines_ok d /\ (Z.of_nat (List.length d) <= ceiling)%Z.

(** The trackers a program can hold: a new one, and what any number of
    loads, from any source groups and over any network, make of it. *)
Inductive reachable {P : Propagation} : Tracker -> Prop :=
| reach_fresh : reachable fresh
| reach_load (http_get : string -> res string) (sets : list (list string))
    (time_time : pyfloat) (self : Tracker) :
    reachable self ->
    reachable (fst (load_tle_data_from http_get sets time_time self)).

(** The record [_load_fallback_data] installs. *)
Definition fallback_entry {P : Propagation} (iss : Satellite) : Z * SatData :=
  (25544%Z, {| satellite := iss;
               name := "ISS (ZARYA)";
               tle_line1 := iss_tle1;
               tle_line2 := iss_tle2;
               category := ISS |}).

(* ================================================================= *)
(** ** The queries, read as functions of the catalog *)

(** [x / d] for a float [x] and a non-zero rational [d] of positive sign. *)
Definition div_by (x : pyfloat) (d : Q) : pyfloat :=
  match x with
  | Fin a => Fin (Qdiv a d)
  | other => other
  end.

(** The time of sample [i] of [get_orbital_path]. *)
Definition sample_at (current_time : Time) (hours : pyfloat) (i : Z) : Time :=
  F.add current_time (div_by (F.mul (F.of_Z i) hours) (inject_Z 2400)).

(** The same for a finite time and a finite horizon, in days. *)
Definition sample_q (c h : Q) (i : Z) : Q :=
  Qplus c (Qdiv (Qmult (inject_Z i) h) (inject_Z 2400)).

(** What a [try ... except: continue] loop keeps of one item. *)
Definition kept {A : Type} (c : res A) : list A :=
  match c with
  | Ret a => [a]
  | Raise _ => []
  end.

(** The two-digit number two characters spell. *)
Definition two_digits (a b : ascii) : Z := (10 * Py.digit_val a + Py.digit_val b)%Z.

(** A pass as [get_next_passes] returns it: rise and set times, and the
    duration their dates give. *)
Definition timed {P : Propagation} (p : Pass) : Prop :=
  exists rise_iso set_iso rise_dt set_dt,
    rise_time p = Some rise_iso /\
    set_time p = Some set_iso /\
    parse_iso rise_iso = Ret rise_dt /\
    parse_iso set_iso = Ret set_dt /\
    duration_minutes p
    = Some (div_by (total_seconds set_dt rise_dt) (inject_Z 60)).

(** The pass being assembled, when it has a key, has a rise time. *)
Definition risen {P : Propagation} (current_pass : Pass) : Prop :=
  truthy current_pass = true -> exists iso, rise_time current_pass = Some iso.

(** The three events of a complete cycle: rise, culmination, set. *)
Definition cycle_events (cycle : Time * Time * Time) : list (Time * Z) :=
  let '(t_rise, t_culmination, t_set) := cycle in
  [(t_rise, 0%Z); (t_culmination, 1%Z); (t_set, 2%Z)].

(** The pass of a complete cycle, as the specification describes it: the
    three times as the library displays them, the elevation and azimuth at
    the culmination, the azimuths at the displayed time of the rise and at
    the set, and the minutes from the displayed rise to the displayed
    set. *)
Definition cycle_pass {P : Propagation} (satellite : Satellite)
    (observer : Observer) (cycle : Time * Time * Time) : res Pass :=
  (let '(t_rise, t_culmination, t_set) := cycle in
   '(alt, az, _) <- altaz satellite observer t_culmination ;;
   rise_dt <- parse_iso (utc_iso t_rise) ;;
   rise_t <- from_datetime rise_dt ;;
   '(_, az_rise, _) <- altaz satellite observer rise_t ;;
   '(_, az_set, _) <- altaz satellite observer t_set ;;
   set_dt <- parse_iso (utc_iso t_set) ;;
   Ret {| rise_time := Some (utc_iso t_rise);
          rise_azimuth := Some (Some az_rise);
          culmination_time := Some (utc_iso t_culmination);
          max_elevation := Some alt;
          culmination_azimuth := Some az;
          set_time := Some (utc_iso t_set);
          set_azimuth := Some az_set;
          duration_minutes :=
            Some (div_by (total_seconds set_dt rise_dt) (inject_Z 60)) |})%res.

(* ================================================================= *)
(** ** A test double

    A small instance of the libraries and a small network, to run the
    tracker on: a satellite is its name, a position is the time it was
    asked for, a date is a number of seconds. *)

Module Stub.

(** Propagation fails after this time. *)
Definition horizon : pyfloat := Fin (Qmake 1 20).

Definition lib : Propagation :=
  {| Satellite := string;
     Geocentric := Time;
     Vector := pyfloat;
     DateTime := Z;
     EarthSatellite := fun line1 line2 name =>
       if Py.contains "?" line1 then Raise ValueError else Ret name;
     sat_at := fun s t =>
       if F.gt t horizon then Raise LibraryError else Ret t;
     subpoint := fun g =>
       Ret {| latitude_degrees := F.of_Z 0;
              longitude_degrees := F.of_Z 0;
              elevation_km := F.of_Z 400 |};
     position_km := fun g => g;
     vec_sub := F.sub;
     linalg_norm := fun v => v;
     find_events := fun s o t0 t1 a =>
       if String.eqb s "ISS (ZARYA)"
       then Ret [(F.of_Z 1, 0%Z); (F.of_Z 2, 1%Z); (F.of_Z 3, 2%Z)]
       else Ret [];
     altaz := fun s o t => Ret (F.of_Z 45, F.of_Z 180, F.of_Z 1000);
     utc_iso := fun t =>
       if F.le t (F.of_Z 1) then "2024-01-01T00:00:00Z"
       else "2024-01-01T00:10:00Z";
     fromisoformat := fun s =>
       if String.eqb s "2024-01-01T00:00:00+00:00" then Ret 0%Z
       else if String.eqb s "2024-01-01T00:10:00+00:00" then Ret 600%Z
       else Raise ValueError;
     from_datetime := fun d => Ret (F.of_Z d);
     total_seconds := fun a b => F.of_Z (a - b);
     new_year_plus_days := fun year d =>
       match d with
       | Fin _ => Ret "a date"
       | _ => Raise OverflowError
       end |}.

#[local] Existing Instance lib.

(** A line with another catalog id in columns 2 to 7. *)
Definition with_id (id line : string) : string :=
  Py.slice line 0 2 ++ id ++ Py.slice_from line 7.

Definition body (lines : list string) : string :=
  String.concat (String Py.newline EmptyString) lines.

(** Three valid triplets, the second id repeated in a fourth. *)
Definition three_triplets : string :=
  body [ "ISS (ZARYA)"; iss_tle1; iss_tle2;
         "STARLINK-1007"; with_id "44713" iss_tle1; with_id "44713" iss_tle2;
         "not a triplet"; "1 short"; "2 short";
         "UNKNOWNSAT-1"; with_id "99999" iss_tle1; with_id "99999" iss_tle2;
         "STARLINK-1007 AGAIN"; with_id "44713" iss_tle1;
         with_id "44713" iss_tle2 ].

Definition http_get (url : string) : res string :=
  if String.eqb url "second" then Ret three_triplets
  else if String.eqb url "third"
  then Ret (body ["NOAA 19"; with_id "33591" iss_tle1; with_id "33591" iss_tle2])
  else if String.eqb url "empty" then Ret "nothing here"
  else Raise RequestException.

(** No endpoint answers. *)
Definition offline (url : string) : res string := Raise RequestException.

(** The fallback record, with its mean motion overwritten. *)
Definition corrupted : Z * @SatData lib :=
  (7%Z, {| satellite := "BROKEN";
           name := "BROKEN";
           tle_line1 := iss_tle1;
           tle_line2 := Py.slice iss_tle2 0 52 ++ "xx.xxxxxxxx 00000";
           category := Other |}).

Definition healthy : Z * @SatData lib :=
  (25544%Z, {| satellite := "ISS (ZARYA)";
               name := "ISS (ZARYA)";
               tle_line1 := iss_tle1;
               tle_line2 := iss_tle2;
               category := ISS |}).

(** A tracker that holds both and is not due for a refresh. *)
Definition tracker : @Tracker lib :=
  {| satellites := [corrupted; healthy];
     categories := categories fresh;
     last_update := Some (F.of_Z 0);
     update_interval := F.of_Z 86400 |}.

End Stub.

(* ================================================================= *)
(** ** The membership index, read as a function of the catalog *)

(** The catalog ids of a category, in the order of the catalog. *)
Definition members {P : Propagation} (c : Category) (d : dict SatData)
  : list Z :=
  keys (filter (fun e => category_eqb (category (snd e)) c) d).

(** The index [_update_category_lists] builds over the taxonomy. *)
Definition index_of {P : Propagation} (d : dict SatData)
  : list (Category * list Z) :=
  map (fun c => (c, members c d)) taxonomy.

(** A stored record agrees with its own first line and name: its key is
    the integer of columns 2 to 6 and its category is the categorizer's. *)
Definition entry_consistent {P : Propagation} (e : Z * SatData) : Prop :=
  Py.int (Py.slice (tle_line1 (snd e)) 2 7) = Ret (fst e) /\
  category (snd e) = _categorize_satellite (name (snd e)) (fst e).

(** The entries of a catalog whose position can be computed. *)
Definition computable {P : Propagation} (current_time : Time)
    (d : dict SatData) : dict SatData :=
  filter (fun e => negb (raises (position_record current_time e))) d.

(** The events of one kind in a sequence of events. *)
Definition count_events (kind : Z) (events : list (Time * Z)) : nat :=
  List.length (filter (fun e => (snd e =? kind)%Z) events).

(** A pass as the loop of [get_next_passes] appends it: the azimuths of
    rise and set are numbers, and the three keys of the culmination are
    there together or not at all. *)
Definition assembled (p : Pass) : Prop :=
  (exists az, rise_azimuth p = Some (Some az)) /\
  (exists az, set_azimuth p = Some az) /\
  ((exists t el az, culmination_time p = Some t /\ max_elevation p = Some el /\
                    culmination_azimuth p = Some az) \/
   (culmination_time p = None /\ max_elevation p = None /\
    culmination_azimuth p = None)).

(** The pass being assembled, before its set: no key of the set yet, and
    the keys of the culmination together or not at all. *)
Definition assembling (p : Pass) : Prop :=
  set_time p = None /\ set_azimuth p = None /\ duration_minutes p = None /\
  ((exists t el az, culmination_time p = Some t /\ max_elevation p = Some el /\
                    culmination_azimuth p = Some az) \/
   (culmination_time p = None /\ max_elevation p = None /\
    culmination_azimuth p = None)).

(* ================================================================= *)
(** ** The routes ([routes.py])

    The handlers of the API, over the one tracker of the application.  A
    response is the status code and the JSON object; [str(e)] of an
    exception is the exception, and [jsonify] is taken to succeed on every
    value the tracker returns. *)

Module Routes.

Section Handlers.

Context {P : Propagation}.

Inductive Body : Type :=
| satellites_body (satellites : list PositionRecord) (timestamp : string)
| satellites_failed (error : exn) (timestamp : string)
| satellite_body (satellite : Detail)
| orbit_body (orbit : list OrbitPoint)
| passes_body (passes : list Pass)
| categories_body (categories : list (Category * CategorySummary))
| message_body (message : string)
| error_body (error : string)
| exception_body (error : exn).

Record Response : Type := {
  success : bool;
  body : Body;
  status : Z
}.

(** [if not tracker.satellites] *)
Definition is_empty {V : Type} (d : dict V) : bool :=
  match d with
  | [] => true
  | _ :: _ => false
  end.

(** [GET /api/satellites]; [timestamp] is [tracker.get_current_time()].
    The result is the tracker after the request, the requests made to the
    sources, and the response. *)
Definition get_satellites (http_get : string -> res string)
    (time_time : pyfloat) (current_time : Time) (timestamp : string)
    (tracker : Tracker) : Tracker * list string * Response :=
  let loaded :=
    if is_empty (satellites tracker)
    then load_tle_data http_get time_time tracker else (tracker, []) in
  match get_satellite_positions http_get time_time current_time (fst loaded)
  with
  | Ret (refreshed, satellites) =>
      (fst refreshed, snd loaded ++ snd refreshed,
       {| success := true;
          body := satellites_body satellites timestamp;
          status := 200 |})
  | Raise e =>
      (fst loaded, snd loaded,
       {| success := false;
          body := satellites_failed e timestamp;
          status := 200 |})
  end.

(** [GET /api/satellite/<int:norad_id>] *)
Definition get_satellite_details (current_time : Time) (norad_id : Z)
    (tracker : Tracker) : Response :=
  match get_satellite_details current_time norad_id tracker with
  | Ret (Some details) =>
      {| success := true; body := satellite_body details; status := 200 |}
  | Ret None =>
      {| success := false;
         body := error_body "Satellite not found";
         status := 404 |}
  | Raise e =>
      {| success := false; body := exception_body e; status := 500 |}
  end.

(** [GET /api/satellite/<int:norad_id>/orbit] *)
Definition get_satellite_orbit (current_time : Time) (norad_id : Z)
    (tracker : Tracker) : Response :=
  match get_orbital_path current_time norad_id (F.of_Z 2) tracker with
  | Ret orbit_points =>
      {| success := true; body := orbit_body orbit_points; status := 200 |}
  | Raise e =>
      {| success := false; body := exception_body e; status := 500 |}
  end.

(** [float(request.args.get(key, 0))]: the argument of the query string
    when it is there, the integer 0 when it is not. *)
Definition float_arg (arg : option string) : res pyfloat :=
  match arg with
  | Some s => Py.float s
  | None => Ret (F.of_Z 0)
  end.

(** [GET /api/satellite/<int:norad_id>/passes?lat&lon&alt] *)
Definition get_satellite_passes (current_time : Time) (norad_id : Z)
    (lat_arg lon_arg alt_arg : option string) (tracker : Tracker) : Response :=
  match
    (lat <- float_arg lat_arg ;;
     lon <- float_arg lon_arg ;;
     alt <- float_arg alt_arg ;;
     get_next_passes current_time norad_id lat lon alt (F.of_Z 7) tracker)%res
  with
  | Ret passes =>
      {| success := true; body := passes_body passes; status := 200 |}
  | Raise e =>
      {| success := false; body := exception_body e; status := 500 |}
  end.

(** [GET /api/categories] *)
Definition get_satellite_categories (tracker : Tracker) : Response :=
  {| success := true;
     body := categories_body (get_satellite_categories tracker);
     status := 200 |}.

(** [GET /api/refresh] *)
Definition refresh_tle_data (http_get : string -> res string)
    (time_time : pyfloat) (tracker : Tracker)
  : Tracker * list string * Response :=
  (refresh_tle_data http_get time_time tracker,
   {| success := true;
      body := message_body "TLE data refreshed successfully";
      status := 200 |}).

End Handlers.

End Routes.

(* ================================================================= *)
(** ** More of the test double *)

Module Scenes.

#[local] Existing Instance Stub.lib.

(** The built-in record with its inclination overwritten: its position
    can be computed, its details cannot. *)
Definition tilted : Z * @SatData Stub.lib :=
  (8%Z, {| satellite := "TILTED";
           name := "TILTED";
           tle_line1 := iss_tle1;
           tle_line2 :=
             Py.slice iss_tle2 0 8 ++ "??.????" ++ Py.slice_from iss_tle2 15;
           category := Other |}).

Definition tracker : @Tracker Stub.lib :=
  {| satellites := [Stub.healthy; tilted];
     categories := index_of [Stub.healthy; tilted];
     last_update := Some (F.of_Z 0);
     update_interval := F.of_Z 86400 |}.

(** A rise and its culmination cut off by the end of the window, after a
    set and a culmination without their rise. *)
Definition truncated : list (Time * Z) :=
  [(F.of_Z 1, 2%Z); (F.of_Z 2, 1%Z); (F.of_Z 3, 0%Z); (F.of_Z 4, 1%Z)].

(** The library of the test double with these events in every window. *)
Definition lib_truncated : Propagation :=
  {| Satellite := string;
     Geocentric := Time;
     Vector := pyfloat;
     DateTime := Z;
     EarthSatellite := @EarthSatellite Stub.lib;
     sat_at := @sat_at Stub.lib;
     subpoint := @subpoint Stub.lib;
     position_km := @position_km Stub.lib;
     vec_sub := @vec_sub Stub.lib;
     linalg_norm := @linalg_norm Stub.lib;
     find_events := fun s o t0 t1 a => Ret truncated;
     altaz := @altaz Stub.lib;
     utc_iso := @utc_iso Stub.lib;
     fromisoformat := @fromisoformat Stub.lib;
     from_datetime := @from_datetime Stub.lib;
     total_seconds := @total_seconds Stub.lib;
     new_year_plus_days := @new_year_plus_days Stub.lib |}.

Definition tracker_truncated : @Tracker lib_truncated :=
  {| satellites :=
       [(25544%Z, {| satellite := "ISS (ZARYA)" : @Satellite lib_truncated;
                     name := "ISS (ZARYA)";
                     tle_line1 := iss_tle1;
                     tle_line2 := iss_tle2;
                     category := ISS |})];
     categories := [];
     last_update := Some (F.of_Z 0);
     update_interval := F.of_Z 86400 |}.

(** The tracker a load leaves when the first group does not answer and
    the second does. *)
Definition loaded : @Tracker Stub.lib :=
  fst (load_tle_data_from Stub.http_get [["first"]; ["second"]; ["third"]]
                          (F.of_Z 0) fresh).

(** The library of the test double with the given events in every
    window, and a tracker over it that holds the built-in record. *)
Definition lib_of (events : list (Time * Z)) : Propagation :=
  {| Satellite := string;
     Geocentric := Time;
     Vector := pyfloat;
     DateTime := Z;
     EarthSatellite := @EarthSatellite Stub.lib;
     sat_at := @sat_at Stub.lib;
     subpoint := @subpoint Stub.lib;
     position_km := @position_km Stub.lib;
     vec_sub := @vec_sub Stub.lib;
     linalg_norm := @linalg_norm Stub.lib;
     find_events := fun s o t0 t1 a => Ret events;
     altaz := @altaz Stub.lib;
     utc_iso := @utc_iso Stub.lib;
     fromisoformat := @fromisoformat Stub.lib;
     from_datetime := @from_datetime Stub.lib;
     total_seconds := @total_seconds Stub.lib;
     new_year_plus_days := @new_year_plus_days Stub.lib |}.

Definition tracker_of (events : list (Time * Z)) : @Tracker (lib_of events) :=
  {| satellites :=
       [(25544%Z, {| satellite := "ISS (ZARYA)" : @Satellite (lib_of events);
                     name := "ISS (ZARYA)";
                     tle_line1 := iss_tle1;
                     tle_line2 := iss_tle2;
                     category := ISS |})];
     categories := [];
     last_update := Some (F.of_Z 0);
     update_interval := F.of_Z 86400 |}.

(** A complete cycle within one displayed second: the test double shows
    every time up to 1 as 00:00:00. *)
Definition brief : Time * Time * Time :=
  (Fin (Qmake 1 4), Fin (Qmake 2 4), Fin (Qmake 3 4)).

(** Four complete cycles in the order of their times: the first within one
    displayed second, the second from 00:00:00 to 00:10:00, the last two
    within the second 00:10:00. *)
Definition four_cycles : list (Time * Time * Time) :=
  [ (Fin (Qmake 1 8), Fin (Qmake 2 8), Fin (Qmake 3 8));
    (Fin (Qmake 4 8), Fin (Qmake 5 8), F.of_Z 2);
    (F.of_Z 3, F.of_Z 4, F.of_Z 5);
    (F.of_Z 6, F.of_Z 7, F.of_Z 8) ].

End Scenes.

(* ================================================================= *)
(** * Properties *)

(** ** The built-ins on literal inputs *)

Example int_examples :
  Py.int " 25544" = Ret 25544%Z /\ Py.int "1_2" = Ret 12%Z /\
  Py.int "-7" = Ret (-7)%Z /\ Py.int "12_" = Raise ValueError /\
  Py.int "" = Raise ValueError /\ Py.int "+ 1" = Raise ValueError /\
  Py.int "2023" = Ret 2023%Z /\ Py.int "1.0" = Raise ValueError.
Proof. repeat split. Qed.

Example float_examples :
  Py.float "15.49309239" = Ret (Fin (Qmake 1549309239 100000000)) /\
  Py.float "1." = Ret (Fin (Qmake 1 1)) /\
  Py.float ".5" = Ret (Fin (Qmake 5 10)) /\
  Py.float "." = Raise ValueError /\
  Py.float "1e5" = Ret (Fin (Qmake 100000 1)) /\
  Py.float "1e" = Raise ValueError /\
  Py.float "1_.0" = Raise ValueError /\
  Py.float "-Infinity" = Ret NInf /\
  Py.float " nan " = Ret NaN /\
  Py.float "" = Raise ValueError /\
  Py.float "1 e5" = Raise ValueError.
Proof. repeat split. Qed.

Example strip_split_examples :
  Py.strip "  ISS (ZARYA) " = "ISS (ZARYA)" /\
  Py.split "," "a,b,,c" = ["a"; "b"; ""; "c"] /\
  Py.split "," "" = [""] /\
  Py.slice "0123456789" 2 7 = "23456" /\
  Py.slice "012" 2 7 = "2" /\
  Py.slice_from "23001.5" 2 = "001.5" /\
  Py.contains "iss" "the iss" = true /\
  Py.contains "iss" "is s" = false /\
  Py.lower "ISS (Zarya)" = "iss (zarya)" /\
  Py.str_lt "56" "57" = true /\ Py.str_lt "57" "57" = false /\
  Py.str_lt "  " "57" = true /\
  Py.replace "Z" "+00:00" "2024-01-01T00:00:00Z" = "2024-01-01T00:00:00+00:00".
Proof. repeat split. Qed.

Example float_arithmetic_examples :
  F.div (F.of_Z 1440) (F.of_Z 0) = Raise ZeroDivisionError /\
  F.div (F.of_Z 1440) PInf = Ret (Fin 0) /\
  F.gt NaN (F.of_Z 0) = false /\ F.le NaN (F.of_Z 0) = false /\
  F.gt PInf (F.of_Z 0) = true /\
  F.mul PInf (F.of_Z 0) = NaN /\
  F.sub PInf PInf = NaN /\
  F.gt (Fin (Qmake 1 2)) (F.of_Z 0) = true /\
  period_of (F.of_Z 0) = Ret (PInt 0) /\
  period_of (Fin (Qmake (-1) 2)) = Ret (PInt 0) /\
  period_of NaN = Ret (PInt 0) /\
  period_of (F.of_Z 16) = Ret (PFloat (Fin (Qdiv (inject_Z 1440) (inject_Z 16)))).
Proof. repeat split. Qed.

(** The year of an epoch: the pivot is a comparison of strings, which is
    the comparison of numbers on two digits only. *)
Example epoch_year_examples :
  epoch_year "23001.00000000" = Ret 2023%Z /\
  epoch_year "56366.00000000" = Ret 2056%Z /\
  epoch_year "57001.00000000" = Ret 1957%Z /\
  epoch_year "99365.99999999" = Ret 1999%Z /\
  epoch_year "00001.00000000" = Ret 2000%Z /\
  epoch_year "5 001.00000000" = Ret 205%Z /\
  epoch_year " 5001.00000000" = Raise ValueError /\
  epoch_year "9" = Ret 199%Z /\
  epoch_year "AB001.00000000" = Raise ValueError /\
  epoch_year "_5001.00000000" = Ret 195%Z /\
  epoch_year "" = Ret 20%Z.
Proof. repeat split. Qed.

(** ** The categorizer *)

Lemma lower_char_idempotent (c : ascii) :
  Py.lower_char (Py.lower_char c) = Py.lower_char c.
Proof.
  destruct c as [[] [] [] [] [] [] [] []]; reflexivity.
Qed.

Lemma lower_idempotent (s : string) : Py.lower (Py.lower s) = Py.lower s.
Proof.
  induction s as [|c s IH]; simpl; [reflexivity|].
  now rewrite lower_char_idempotent, IH.
Qed.

(** The cascade of the source is the rule table read top to bottom. *)
Lemma categorize_is_first_match (n : string) (id : Z) :
  _categorize_satellite n id = first_match rule_table (Py.lower n) id.
Proof.
  unfold _categorize_satellite, rule_table.
  cbn [first_match rule_matches existsb matches fst snd].
  rewrite ?orb_false_r, ?orb_assoc.
  reflexivity.
Qed.

(** The first rule that matches decides, whatever the rules after it. *)
Lemma first_match_wins (before after : list rule) (r : rule) (l : string)
    (id : Z) :
  forallb (fun r' => negb (rule_matches r' l id)) before = true ->
  rule_matches r l id = true ->
  first_match (before ++ r :: after) l id = snd r.
Proof.
  induction before as [|r' before IH]; simpl; intros Hb Hr.
  - now rewrite Hr.
  - apply andb_prop in Hb as [Hr' Hb].
    apply negb_true_iff in Hr'. rewrite Hr'. now apply IH.
Qed.

Lemma first_match_none (rs : list rule) (l : string) (id : Z) :
  forallb (fun r => negb (rule_matches r l id)) rs = true ->
  first_match rs l id = Other.
Proof.
  induction rs as [|r rs IH]; simpl; intros H; [reflexivity|].
  apply andb_prop in H as [Hr H].
  apply negb_true_iff in Hr. rewrite Hr. now apply IH.
Qed.

(** C4. The categorizer is a function of the lower-cased name and the
    catalog id, so names that differ in letter case only get the same
    category; it is the ordered rule table evaluated first match first: when
    a rule matches and none before it does, its category is the result, and
    the result is Other when no rule matches; and it maps
    ("ISS (ZARYA)", 25544) to ISS, ("STARLINK-1007", 44713) to Starlink and
    ("UNKNOWNSAT-1", 99999) to Other. *)
Theorem categorize_first_match_case_insensitive :
  (forall n1 n2 id,
      Py.lower n1 = Py.lower n2 ->
      _categorize_satellite n1 id = _categorize_satellite n2 id) /\
  (forall n id, _categorize_satellite (Py.lower n) id = _categorize_satellite n id) /\
  (forall before r after n id,
      rule_table = before ++ r :: after ->
      forallb (fun r' => negb (rule_matches r' (Py.lower n) id)) before = true ->
      rule_matches r (Py.lower n) id = true ->
      _categorize_satellite n id = snd r) /\
  (forall n id,
      forallb (fun r => negb (rule_matches r (Py.lower n) id)) rule_table = true ->
      _categorize_satellite n id = Other) /\
  _categorize_satellite "ISS (ZARYA)" 25544 = ISS /\
  _categorize_satellite "STARLINK-1007" 44713 = Starlink /\
  _categorize_satellite "UNKNOWNSAT-1" 99999 = Other.
Proof.
  repeat apply conj.
  - intros n1 n2 id H. now rewrite !categorize_is_first_match, H.
  - intros n id. now rewrite !categorize_is_first_match, lower_idempotent.
  - intros before r after n id Ht Hb Hr.
    rewrite categorize_is_first_match, Ht. now apply first_match_wins.
  - intros n id H. rewrite categorize_is_first_match.
    now apply first_match_none.
  - reflexivity.
  - reflexivity.
  - reflexivity.
Qed.

(** The rule for the station precedes the keyword rules: a name that also
    carries a constellation keyword is still the station's category. *)
Lemma categorize_witness :
  _categorize_satellite "iss (zarya)" 25544 = _categorize_satellite "ISS (ZARYA)" 25544
  /\ _categorize_satellite "Starlink-ISS" 1 = snd ([IdIs 25544; Has "iss"], ISS).
Proof.
  split.
  - apply (proj1 categorize_first_match_case_insensitive). reflexivity.
  - apply (proj1 (proj2 (proj2 categorize_first_match_case_insensitive))
             [] ([IdIs 25544; Has "iss"], ISS) (tl rule_table)
             "Starlink-ISS" 1%Z); reflexivity.
Defined.

(** ** Ingestion *)

Section IngestFacts.

Context {P : Propagation}.
Variable http_get : string -> res string.

Local Open Scope Z_scope.

(** Case analysis on every integer comparison of the goal. *)
Ltac cases_ltb :=
  repeat match goal with
         | |- context [(?a <? ?b)%Z] => destruct (Z.ltb_spec a b)
         | |- context [(?a <=? ?b)%Z] => destruct (Z.leb_spec a b)
         end.

Lemma triplet_ind (Q : list string -> Prop) :
  Q [] -> (forall a, Q [a]) -> (forall a b, Q [a; b]) ->
  (forall a b c rest, Q rest -> Q (a :: b :: c :: rest)) ->
  forall lines, Q lines.
Proof.
  intros H0 H1 H2 H3.
  fix IH 1.
  intros [|a [|b [|c rest]]];
    [exact H0 | apply H1 | apply H2 | apply H3, IH].
Qed.

Lemma absorb_full (d : dict SatData) (rs : list (Z * SatData)) :
  ceiling <= Z.of_nat (List.length d) -> absorb d rs = d.
Proof.
  intros H. destruct rs as [|r rs]; simpl; [reflexivity|].
  apply Z.leb_le in H. now rewrite H.
Qed.

Lemma absorb_app (rs1 rs2 : list (Z * SatData)) :
  forall d, absorb d (rs1 ++ rs2) = absorb (absorb d rs1) rs2.
Proof.
  induction rs1 as [|r rs1 IH]; intros d; simpl; [reflexivity|].
  destruct (ceiling <=? Z.of_nat (List.length d)) eqn:E.
  - apply Z.leb_le in E. symmetry. now apply absorb_full.
  - destruct (dict_has (fst r) d); apply IH.
Qed.

Lemma absorb_grows (rs : list (Z * SatData)) :
  forall d, exists extra, absorb d rs = d ++ extra.
Proof.
  induction rs as [|r rs IH]; intros d; simpl.
  - exists []. now rewrite app_nil_r.
  - destruct (ceiling <=? _).
    + exists []. now rewrite app_nil_r.
    + destruct (dict_has (fst r) d); [apply IH|].
      destruct (IH (d ++ [r])) as [extra E].
      exists (r :: extra). now rewrite E, <- app_assoc.
Qed.

Lemma absorb_length (rs : list (Z * SatData)) (d : dict SatData) :
  Z.of_nat (List.length d) <= Z.of_nat (List.length (absorb d rs)).
Proof.
  destruct (absorb_grows rs d) as [extra ->].
  rewrite length_app. lia.
Qed.

(** One triplet: the record is appended when it is valid and new. *)
Lemma store_triplet_spec (a b c : string) (acc : Ingest) (uc : Z) :
  counted acc ->
  let st' := store_triplet a b c (acc, uc) in
  let d' := match read_triplet a b c with
            | Some r => if dict_has (fst r) (all_satellites acc)
                        then all_satellites acc
                        else all_satellites acc ++ [r]
            | None => all_satellites acc
            end in
  moved (fst st') d' (requested acc) /\
  snd st' = uc + (Z.of_nat (List.length d')
                  - Z.of_nat (List.length (all_satellites acc))).
Proof.
  intros Hc. unfold store_triplet, read_triplet, moved, counted in *.
  destruct (valid_tle _ _); simpl; [|repeat split; auto; lia].
  destruct (EarthSatellite _ _ _) as [s|e]; simpl; [|repeat split; auto; lia].
  destruct (Py.int _) as [id|e]; simpl; [|repeat split; auto; lia].
  destruct (dict_has id (all_satellites acc)); simpl.
  - repeat split; auto; lia.
  - rewrite length_app; simpl. repeat split; auto; lia.
Qed.

(** The loop over the triplets of one body. *)
Lemma parse_lines_spec (lines : list string) :
  forall (acc : Ingest) (uc : Z),
    counted acc -> 0 <= uc <= satellite_count acc ->
    let st' := parse_lines lines (acc, uc) in
    let d' := absorb (all_satellites acc) (records_of_lines lines) in
    moved (fst st') d' (requested acc) /\
    snd st' = uc + (Z.of_nat (List.length d')
                    - Z.of_nat (List.length (all_satellites acc))).
Proof.
  induction lines as [| a | a b | a b c rest IH] using triplet_ind;
    intros acc uc Hc Hu; try (simpl; unfold moved; repeat split; auto; lia).
  cbn [parse_lines records_of_lines fst snd].
  destruct ((ceiling <=? satellite_count acc) || (ceiling <=? uc))%bool eqn:E.
  - assert (Hfull : ceiling <= Z.of_nat (List.length (all_satellites acc))).
    { apply orb_prop in E as [E|E]; apply Z.leb_le in E; red in Hc; lia. }
    rewrite absorb_full by (destruct (read_triplet a b c); assumption).
    simpl. unfold moved. repeat split; auto; lia.
  - apply orb_false_elim in E as [E1 E2].
    pose proof (store_triplet_spec a b c acc uc Hc) as [[Hd [Hr Hc']] Hu'].
    set (st1 := store_triplet a b c (acc, uc)) in *.
    replace st1 with (fst st1, snd st1) by now destruct st1.
    assert (Hlen : Z.of_nat (List.length (all_satellites acc))
                   <= Z.of_nat (List.length (all_satellites (fst st1)))).
    { rewrite Hd. destruct (read_triplet a b c) as [r|]; [|lia].
      destruct (dict_has _ _); [lia|]. rewrite length_app. lia. }
    assert (Hu1 : 0 <= snd st1 <= satellite_count (fst st1)).
    { red in Hc, Hc'. rewrite Hc', Hu', <- Hd. lia. }
    destruct (IH (fst st1) (snd st1) Hc' Hu1) as [[Hd2 [Hr2 Hc2]] Hu2].
    assert (Habs : absorb (all_satellites acc)
                     match read_triplet a b c with
                     | Some r => r :: records_of_lines rest
                     | None => records_of_lines rest
                     end
                   = absorb (all_satellites (fst st1))
                       (records_of_lines rest)).
    { rewrite Hd. destruct (read_triplet a b c) as [r|]; [|reflexivity].
      simpl. red in Hc. rewrite <- Hc, E1.
      now destruct (dict_has (fst r) (all_satellites acc)). }
    rewrite Habs. unfold moved. repeat split.
    + exact Hd2.
    + now rewrite Hr2.
    + exact Hc2.
    + rewrite Hu2, Hu', <- Hd. lia.
Qed.

(** One endpoint: it is requested, and its valid records are accepted. *)
Lemma load_url_spec (url : string) (acc : Ingest) (s : Z) :
  counted acc ->
  let st' := load_url http_get url (acc, s) in
  let d' := absorb (all_satellites acc) (valid_records http_get url) in
  moved (fst st') d' (requested acc ++ [url]) /\
  snd st' = if Z.of_nat (List.length (all_satellites acc))
               <? Z.of_nat (List.length d')
            then s + 1 else s.
Proof.
  intros Hc. unfold load_url, valid_records.
  destruct (http_get url) as [text|e]; cbn [bind try_except fst snd].
  - set (asked := {| all_satellites := all_satellites acc;
                     satellite_count := satellite_count acc;
                     requested := requested acc ++ [url] |}).
    assert (Hca : counted asked) by exact Hc.
    assert (Hu : 0 <= 0 <= satellite_count asked).
    { red in Hca. rewrite Hca. lia. }
    destruct (parse_lines_spec (Py.split Py.newline (Py.strip text))
                asked 0 Hca Hu) as [[Hd [Hr Hc']] Hn].
    cbn [all_satellites requested asked] in Hd, Hr, Hn.
    unfold moved. rewrite Hn. repeat split; auto.
    cases_ltb; lia.
  - unfold moved. rewrite Z.ltb_irrefl. repeat split; auto.
Qed.

Lemma records_of_urls_cons (url : string) (urls : list string) :
  records_of_urls http_get (url :: urls)
  = valid_records http_get url ++ records_of_urls http_get urls.
Proof. reflexivity. Qed.

Lemma records_of_urls_app (u1 u2 : list string) :
  records_of_urls http_get (u1 ++ u2)
  = records_of_urls http_get u1 ++ records_of_urls http_get u2.
Proof.
  unfold records_of_urls. now rewrite map_app, concat_app.
Qed.

(** The endpoints of one group: those requested are a prefix of the group,
    all of it below the ceiling; the counter of successful loads moves
    exactly when a record was accepted. *)
Lemma load_urls_spec (urls : list string) :
  forall (acc : Ingest) (s : Z),
    counted acc ->
    let st' := load_urls http_get urls (acc, s) in
    exists attempted skipped,
      urls = attempted ++ skipped /\
      moved (fst st')
            (absorb (all_satellites acc) (records_of_urls http_get urls))
            (requested acc ++ attempted) /\
      absorb (all_satellites acc) (records_of_urls http_get attempted)
      = absorb (all_satellites acc) (records_of_urls http_get urls) /\
      (skipped = [] \/
       ceiling <= Z.of_nat (List.length (all_satellites (fst st')))) /\
      s <= snd st' /\
      (s < snd st' <->
       Z.of_nat (List.length (all_satellites acc))
       < Z.of_nat (List.length (all_satellites (fst st')))).
Proof.
  induction urls as [|url rest IH]; intros acc s Hc; cbn [load_urls fst snd].
  - exists [], []. unfold moved. rewrite app_nil_r. simpl.
    repeat split; rewrite ?app_nil_r; auto; lia.
  - destruct (ceiling <=? satellite_count acc) eqn:E.
    + apply Z.leb_le in E. red in Hc. rewrite Hc in E.
      exists [], (url :: rest). unfold moved.
      rewrite app_nil_r, absorb_full by exact E. simpl.
      repeat split; rewrite ?app_nil_r; auto; lia.
    + destruct (load_url_spec url acc s Hc) as [[Hd [Hr Hc1]] Hs].
      set (st1 := load_url http_get url (acc, s)) in *.
      replace st1 with (fst st1, snd st1) by now destruct st1.
      destruct (IH (fst st1) (snd st1) Hc1)
        as (att & skip & Hsplit & [Hd2 [Hr2 Hc2]] & Hsame & Hstop & Hle & Hlt).
      pose proof (absorb_length (valid_records http_get url)
                    (all_satellites acc)) as Hlen1.
      pose proof (absorb_length (records_of_urls http_get rest)
                    (all_satellites (fst st1))) as Hlen2.
      rewrite <- Hd2 in Hlen2. rewrite <- Hd in Hlen1.
      exists (url :: att), skip. unfold moved.
      rewrite !records_of_urls_cons, !absorb_app, <- Hd.
      repeat split.
      * now rewrite Hsplit.
      * exact Hd2.
      * rewrite Hr2, Hr, <- app_assoc. reflexivity.
      * exact Hc2.
      * exact Hsame.
      * exact Hstop.
      * rewrite <- Hd in Hs. revert Hs. cases_ltb; intros; lia.
      * rewrite <- Hd in Hs. revert Hs. cases_ltb; intros; lia.
      * rewrite <- Hd in Hs. revert Hs. cases_ltb; intros; lia.
Qed.

(** The whole loop: the dictionary is what the requests made, in their
    order, add to it. *)
Lemma load_source_sets_spec (sets : list (list string)) :
  forall acc : Ingest,
    counted acc ->
    exists asked,
      incl asked (List.concat sets) /\
      moved (load_source_sets http_get sets acc)
            (absorb (all_satellites acc) (records_of_urls http_get asked))
            (requested acc ++ asked).
Proof.
  induction sets as [|g rest IH]; intros acc Hc; cbn [load_source_sets].
  - exists []. unfold moved. rewrite app_nil_r. split; [apply incl_nil_l|].
    now simpl.
  - destruct (ceiling <=? satellite_count acc).
    { exists []. unfold moved. rewrite app_nil_r. split; [apply incl_nil_l|].
      now simpl. }
    destruct (load_urls_spec g acc 0 Hc)
      as (att & skip & Hsplit & [Hd [Hr Hc1]] & Hsame & _).
    set (st1 := load_urls http_get g (acc, 0)) in *.
    assert (Hatt : incl att (List.concat (g :: rest))).
    { simpl. rewrite Hsplit. apply incl_appl, incl_appl, incl_refl. }
    destruct (0 <? snd st1).
    + exists att. unfold moved. rewrite Hsame. auto.
    + destruct (IH (fst st1) Hc1) as (asked & Hin & Hd2 & Hr2 & Hc2).
      exists (att ++ asked). unfold moved. split.
      * apply incl_app; [exact Hatt|]. simpl. now apply incl_appr.
      * rewrite records_of_urls_app, absorb_app, Hsame, <- Hd, Hd2, Hr2, Hr.
        now rewrite app_assoc.
Qed.

(** *** Dictionaries *)

Lemma dict_has_in (V : Type) (k : Z) (d : dict V) :
  dict_has k d = true <-> In k (keys d).
Proof.
  unfold dict_has, keys. rewrite existsb_exists, in_map_iff.
  split; intros [e [H1 H2]]; exists e.
  - apply Z.eqb_eq in H2. now split.
  - split; [assumption|]. now apply Z.eqb_eq.
Qed.

Lemma dict_has_get (V : Type) (k : Z) (d : dict V) :
  dict_has k d = true <-> exists v, dict_get k d = Some v.
Proof.
  induction d as [|[k' v'] d IH]; simpl.
  - split; [discriminate | now intros [v H]].
  - destruct (k' =? k); simpl; [|exact IH].
    split; [now exists v' | reflexivity].
Qed.

Lemma dict_get_app (V : Type) (k : Z) (a b : dict V) :
  dict_get k (a ++ b)
  = match dict_get k a with Some v => Some v | None => dict_get k b end.
Proof.
  induction a as [|[k' v'] a IH]; simpl; [reflexivity|].
  now destruct (k' =? k).
Qed.

Lemma dict_get_in (V : Type) (k : Z) (v : V) (d : dict V) :
  NoDup (keys d) -> In (k, v) d -> dict_get k d = Some v.
Proof.
  induction d as [|[k' v'] d IH]; simpl; intros Hn Hin; [contradiction|].
  inversion Hn as [|? ? Hk Hn']; subst.
  destruct Hin as [E|Hin].
  - inversion E; subst. now rewrite Z.eqb_refl.
  - destruct (Z.eqb_spec k' k) as [->|_]; [|now apply IH].
    exfalso. apply Hk. unfold keys.
    change k with (fst (k, v)). now apply in_map.
Qed.

Lemma keys_app (V : Type) (a b : dict V) : keys (a ++ b) = keys a ++ keys b.
Proof. apply map_app. Qed.

Lemma nodup_snoc (k : Z) (ks : list Z) :
  NoDup ks -> ~ In k ks -> NoDup (ks ++ [k]).
Proof.
  intros Hn Hk. apply NoDup_app; [assumption | repeat constructor; easy |].
  intros x Hx [<-|[]]. contradiction.
Qed.

(** *** What [absorb] keeps *)

Lemma absorb_nodup (rs : list (Z * SatData)) :
  forall d, NoDup (keys d) -> NoDup (keys (absorb d rs)).
Proof.
  induction rs as [|r rs IH]; intros d Hd; simpl; [assumption|].
  destruct (ceiling <=? _); [assumption|].
  destruct (dict_has (fst r) d) eqn:E; [now apply IH|].
  apply IH. rewrite keys_app. apply nodup_snoc; [assumption|].
  rewrite <- dict_has_in. now rewrite E.
Qed.

Lemma absorb_ceiling (rs : list (Z * SatData)) :
  forall d,
    Z.of_nat (List.length d) <= ceiling ->
    Z.of_nat (List.length (absorb d rs)) <= ceiling.
Proof.
  induction rs as [|r rs IH]; intros d Hd; simpl; [assumption|].
  destruct (Z.leb_spec ceiling (Z.of_nat (List.length d))); [assumption|].
  destruct (dict_has (fst r) d); apply IH; [assumption|].
  rewrite length_app. simpl. lia.
Qed.

Lemma absorb_forall (Q : Z * SatData -> Prop) (rs : list (Z * SatData)) :
  forall d, Forall Q d -> Forall Q rs -> Forall Q (absorb d rs).
Proof.
  induction rs as [|r rs IH]; intros d Hd Hrs; simpl; [assumption|].
  inversion Hrs; subst.
  destruct (ceiling <=? _); [assumption|].
  destruct (dict_has (fst r) d); apply IH; try assumption.
  apply Forall_app. split; [assumption|]. now constructor.
Qed.

(** First seen wins: an entry of the result is the first record of its id. *)
Lemma absorb_first_seen (id : Z) (v : SatData) (rs : list (Z * SatData)) :
  forall d,
    NoDup (keys d) -> In (id, v) (absorb d rs) ->
    dict_get id (d ++ rs) = Some v.
Proof.
  induction rs as [|r rs IH]; intros d Hd Hin; simpl in Hin.
  - rewrite app_nil_r. now apply dict_get_in.
  - rewrite dict_get_app.
    destruct (ceiling <=? _).
    { now rewrite (dict_get_in _ _ _ _ Hd Hin). }
    destruct (dict_has (fst r) d) eqn:E.
    + specialize (IH d Hd Hin). rewrite dict_get_app in IH.
      destruct (dict_get id d) as [w|] eqn:G; [assumption|].
      destruct r as [k w]. simpl in *.
      destruct (Z.eqb_spec k id) as [->|_]; [|assumption].
      apply dict_has_get in E as [w' E]. congruence.
    + assert (Hd' : NoDup (keys (d ++ [r]))).
      { rewrite keys_app. apply nodup_snoc; [assumption|].
        rewrite <- dict_has_in. now rewrite E. }
      specialize (IH (d ++ [r]) Hd' Hin).
      now rewrite <- app_assoc, dict_get_app in IH.
Qed.

(** Below the ceiling nothing is lost: the result answers every lookup as
    the stream of records does. *)
Lemma absorb_complete (id : Z) (rs : list (Z * SatData)) :
  forall d,
    Z.of_nat (List.length d) + Z.of_nat (List.length rs) <= ceiling ->
    dict_get id (absorb d rs) = dict_get id (d ++ rs).
Proof.
  induction rs as [|r rs IH]; intros d Hlen; simpl in *.
  - now rewrite app_nil_r.
  - destruct (Z.leb_spec ceiling (Z.of_nat (List.length d))); [lia|].
    destruct (dict_has (fst r) d) eqn:E.
    + rewrite IH by lia. rewrite !dict_get_app.
      destruct (dict_get id d) as [w|] eqn:G; [reflexivity|].
      destruct r as [k w]. simpl in *.
      destruct (Z.eqb_spec k id) as [->|_]; [|reflexivity].
      apply dict_has_get in E as [w' E]. congruence.
    + rewrite IH by (rewrite length_app; simpl; lia).
      now rewrite <- app_assoc.
Qed.

Lemma absorb_nonempty (rs : list (Z * SatData)) :
  rs <> [] -> absorb [] rs <> [].
Proof.
  destruct rs as [|r rs]; [easy|]. intros _.
  change (absorb [] (r :: rs)) with (absorb [r] rs).
  destruct (absorb_grows rs [r]) as [extra ->]. now simpl.
Qed.

(** *** What the records are *)

Lemma read_triplet_lines_ok (a b c : string) (r : Z * SatData) :
  read_triplet a b c = Some r -> lines_ok r.
Proof.
  unfold read_triplet, valid_tle.
  destruct (Py.startswith (Py.strip b) "1 ") eqn:E1; [|discriminate].
  destruct (Py.startswith (Py.strip c) "2 ") eqn:E2; [|discriminate].
  destruct (Nat.eqb_spec (Py.len (Py.strip b)) 69) as [E3|]; [|discriminate].
  destruct (Nat.eqb_spec (Py.len (Py.strip c)) 69) as [E4|]; [|discriminate].
  simpl.
  destruct (EarthSatellite _ _ _); [|discriminate]. simpl.
  destruct (Py.int _); [|discriminate]. simpl.
  intros [= <-]. now repeat split.
Qed.

Lemma records_of_lines_ok (lines : list string) :
  Forall lines_ok (records_of_lines lines).
Proof.
  induction lines as [| a | a b | a b c rest IH] using triplet_ind;
    try constructor.
  simpl. destruct (read_triplet a b c) as [r|] eqn:E; [|assumption].
  constructor; [|assumption]. now apply read_triplet_lines_ok in E.
Qed.

Lemma valid_records_ok (url : string) :
  Forall lines_ok (valid_records http_get url).
Proof.
  unfold valid_records. destruct (http_get url); simpl.
  - apply records_of_lines_ok.
  - constructor.
Qed.

Lemma records_of_urls_ok (urls : list string) :
  Forall lines_ok (records_of_urls http_get urls).
Proof.
  induction urls as [|u urls IH]; [constructor|].
  rewrite records_of_urls_cons. apply Forall_app. split; [|assumption].
  apply valid_records_ok.
Qed.

Lemma failed_request_no_record (url : string) :
  raises (http_get url) = true -> valid_records http_get url = [].
Proof.
  unfold valid_records. now destruct (http_get url).
Qed.

Lemma yields_false (url : string) :
  yields http_get url = false <-> valid_records http_get url = [].
Proof.
  unfold yields. destruct (valid_records http_get url); easy.
Qed.

Lemma unsuccessful_no_record (g : list string) :
  successful http_get g = false -> records_of_urls http_get g = [].
Proof.
  induction g as [|u g IH]; simpl; intros H; [reflexivity|].
  apply orb_false_elim in H as [Hu Hg].
  rewrite records_of_urls_cons, (proj1 (yields_false u) Hu). now apply IH.
Qed.

Lemma successful_some_record (g : list string) :
  successful http_get g = true -> records_of_urls http_get g <> [].
Proof.
  induction g as [|u g IH]; simpl; intros H; [discriminate|].
  rewrite records_of_urls_cons.
  destruct (yields http_get u) eqn:E.
  - unfold yields in E. destruct (valid_records http_get u); easy.
  - simpl in H. specialize (IH H).
    intros Happ. apply app_eq_nil in Happ as [_ Hg]. contradiction.
Qed.

Lemma no_record_anywhere (urls : list string) :
  (forall u, In u urls -> valid_records http_get u = []) ->
  records_of_urls http_get urls = [].
Proof.
  induction urls as [|u urls IH]; intros H; [reflexivity|].
  rewrite records_of_urls_cons, H by now left.
  apply IH. intros u' Hu'. apply H. now right.
Qed.

(** *** The priority of the groups *)

(** When some group is successful there is a first one. *)
Lemma first_successful_split (sets : list (list string)) :
  existsb (successful http_get) sets = true ->
  exists pre g post,
    sets = pre ++ g :: post /\
    forallb (fun g' => negb (successful http_get g')) pre = true /\
    successful http_get g = true.
Proof.
  induction sets as [|g0 sets IH]; simpl; intros H; [discriminate|].
  destruct (successful http_get g0) eqn:E.
  - exists [], g0, sets. now repeat split.
  - destruct (IH H) as (pre & g & post & -> & Hpre & Hg).
    exists (g0 :: pre), g, post. simpl. rewrite E. now repeat split.
Qed.

Lemma moved_unique (a b : Ingest) (d : dict SatData) (rq : list string) :
  moved a d rq -> moved b d rq -> a = b.
Proof.
  unfold moved, counted. destruct a, b; simpl.
  intros (-> & -> & ->) (-> & -> & ->). reflexivity.
Qed.

Lemma entering_eq (acc : Ingest) :
  counted acc -> all_satellites acc = [] -> acc = entering (requested acc).
Proof.
  unfold counted, entering. destruct acc; simpl. now intros -> ->.
Qed.

(** Groups without a valid record are passed over, every endpoint of them
    requested; the first group with one ends the loop, whatever follows. *)
Lemma load_source_sets_priority (g : list string) (post : list (list string)) :
  successful http_get g = true ->
  forall (pre : list (list string)) (rq : list string),
    forallb (fun g' => negb (successful http_get g')) pre = true ->
    load_source_sets http_get (pre ++ g :: post) (entering rq)
    = fst (load_urls http_get g (entering (rq ++ List.concat pre), 0)).
Proof.
  intros Hg pre. induction pre as [|g0 pre IH]; intros rq Hpre;
    cbn [app load_source_sets entering satellite_count List.concat].
  - change (ceiling <=? 0) with false. cbv iota. rewrite app_nil_r.
    destruct (load_urls_spec g (entering rq) 0 eq_refl)
      as (att & skip & Hsplit & [Hd [Hr Hc1]] & Hsame & Hstop & Hle & Hlt).
    set (st1 := load_urls http_get g (entering rq, 0)) in *.
    assert (Hpos : 0 < snd st1).
    { apply Hlt. rewrite Hd. simpl.
      pose proof (absorb_nonempty _ (successful_some_record g Hg)) as Hne.
      destruct (absorb [] (records_of_urls http_get g)); [easy|]. simpl. lia. }
    apply Z.ltb_lt in Hpos. now rewrite Hpos.
  - simpl in Hpre. apply andb_prop in Hpre as [Hg0 Hpre].
    apply negb_true_iff in Hg0.
    change (ceiling <=? 0) with false. cbv iota.
    destruct (load_urls_spec g0 (entering rq) 0 eq_refl)
      as (att & skip & Hsplit & [Hd [Hr Hc1]] & Hsame & Hstop & Hle & Hlt).
    set (st1 := load_urls http_get g0 (entering rq, 0)) in *.
    cbn [entering all_satellites requested] in Hd, Hr, Hlt.
    rewrite (unsuccessful_no_record g0 Hg0) in Hd. simpl in Hd.
    assert (Hzero : snd st1 = 0).
    { rewrite Hd in Hlt. simpl in Hlt. lia. }
    rewrite Hzero. change (0 <? 0) with false. cbv iota.
    assert (Hskip : skip = []).
    { destruct Hstop as [|Hstop]; [assumption|].
      rewrite Hd in Hstop. simpl in Hstop. unfold ceiling in Hstop. lia. }
    subst skip. rewrite app_nil_r in Hsplit. subst att.
    rewrite (entering_eq (fst st1) Hc1 Hd), Hr, IH by assumption.
    now rewrite <- app_assoc.
Qed.

End IngestFacts.

Section IngestTheorems.

Context {P : Propagation}.

Local Open Scope Z_scope.

Lemma update_category_lists_satellites (self : Tracker) :
  satellites (_update_category_lists self) = satellites self.
Proof. reflexivity. Qed.

(** What a load leaves in the catalog: the accepted records, or the
    fallback's outcome when there is none. *)
Lemma load_tle_data_from_satellites (http_get : string -> res string)
    (sets : list (list string)) (t : pyfloat) (self : Tracker) :
  let acc := load_source_sets http_get sets ingest_start in
  satellites (fst (load_tle_data_from http_get sets t self))
  = match all_satellites acc with
    | [] => satellites (_load_fallback_data self)
    | _ :: _ => all_satellites acc
    end
  /\ snd (load_tle_data_from http_get sets t self) = requested acc.
Proof.
  unfold load_tle_data_from.
  destruct (all_satellites (load_source_sets http_get sets ingest_start));
    now split.
Qed.

(** C1. Source groups are tried in priority order and the first
    successful one ends ingestion.  When no endpoint of the groups [pre]
    yields a valid record (its request fails, or its body has none) and an
    endpoint of [g] yields one, then after [load_tle_data] over
    [pre ++ g :: post]: the catalog is exactly what the records of [g]
    make, each id with its first record; the requests made are all the
    endpoints of [pre], in order, then a prefix of those of [g] (all of
    them below the ceiling), and none of [post]; and the groups [post] make
    no difference to the result. *)
Theorem first_successful_group_wins (http_get : string -> res string)
    (pre : list (list string)) (g : list string) (post : list (list string))
    (t : pyfloat) (self : Tracker) :
  forallb (fun g' => negb (successful http_get g')) pre = true ->
  successful http_get g = true ->
  let r := load_tle_data_from http_get (pre ++ g :: post) t self in
  satellites (fst r) = absorb [] (records_of_urls http_get g) /\
  satellites (fst r) <> [] /\
  (exists attempted skipped,
      g = attempted ++ skipped /\
      snd r = List.concat pre ++ attempted /\
      (skipped = [] \/ ceiling <= Z.of_nat (List.length (satellites (fst r))))) /\
  r = load_tle_data_from http_get (pre ++ [g]) t self /\
  (forall id v,
      In (id, v) (satellites (fst r)) ->
      dict_get id (records_of_urls http_get g) = Some v) /\
  (Z.of_nat (List.length (records_of_urls http_get g)) <= ceiling ->
   forall id,
     dict_get id (satellites (fst r))
     = dict_get id (records_of_urls http_get g)).
Proof.
  intros Hpre Hg r.
  pose proof (load_source_sets_priority http_get g post Hg pre [] Hpre) as E.
  pose proof (load_source_sets_priority http_get g [] Hg pre [] Hpre) as E'.
  change (entering []) with ingest_start in E, E'. simpl app in E, E'.
  destruct (load_urls_spec http_get g (entering (List.concat pre)) 0 eq_refl)
    as (att & skip & Hsplit & [Hd [Hr _]] & _ & Hstop & _).
  cbn [entering all_satellites requested] in Hd, Hr.
  rewrite <- E in Hd, Hr, Hstop.
  pose proof (absorb_nonempty _ (successful_some_record http_get g Hg)) as Hne.
  assert (Hsat : satellites (fst r) = absorb [] (records_of_urls http_get g)).
  { subst r.
    destruct (load_tle_data_from_satellites http_get (pre ++ g :: post) t self)
      as [-> _].
    rewrite Hd. now destruct (absorb [] (records_of_urls http_get g)). }
  repeat apply conj.
  - exact Hsat.
  - now rewrite Hsat.
  - exists att, skip. repeat split; [assumption| |].
    + subst r.
      destruct (load_tle_data_from_satellites http_get (pre ++ g :: post) t self)
        as [_ ->].
      exact Hr.
    + rewrite Hsat, <- Hd. exact Hstop.
  - subst r. unfold load_tle_data_from. now rewrite E, E'.
  - intros id v Hin. rewrite Hsat in Hin.
    now apply (absorb_first_seen id v _ [] (NoDup_nil _)) in Hin.
  - intros Hlen id. rewrite Hsat.
    now rewrite absorb_complete by (simpl; lia).
Qed.

Lemma fallback_entry_ok (iss : Satellite) : lines_ok (fallback_entry iss).
Proof. now repeat split. Qed.

Lemma load_fallback_data_satellites (self : Tracker) :
  satellites (_load_fallback_data self)
  = match EarthSatellite iss_tle1 iss_tle2 "ISS (ZARYA)" with
    | Ret iss => [fallback_entry iss]
    | Raise _ => satellites self
    end.
Proof.
  unfold _load_fallback_data.
  now destruct (EarthSatellite iss_tle1 iss_tle2 "ISS (ZARYA)").
Qed.

Lemma ingest_start_counted : counted ingest_start.
Proof. reflexivity. Qed.

(** The records accepted by a load, in terms of the requests it made. *)
Lemma load_source_sets_catalog (http_get : string -> res string)
    (sets : list (list string)) :
  let acc := load_source_sets http_get sets ingest_start in
  all_satellites acc = absorb [] (records_of_urls http_get (requested acc)) /\
  incl (requested acc) (List.concat sets).
Proof.
  destruct (load_source_sets_spec http_get sets ingest_start
              ingest_start_counted) as (asked & Hin & Hd & Hr & _).
  simpl in Hd, Hr. simpl. now rewrite Hr.
Qed.

Lemma loaded_catalog_ok (http_get : string -> res string)
    (sets : list (list string)) :
  catalog_ok (all_satellites (load_source_sets http_get sets ingest_start)).
Proof.
  destruct (load_source_sets_catalog http_get sets) as [-> _].
  repeat split.
  - apply absorb_nodup. constructor.
  - apply absorb_forall; [constructor | apply records_of_urls_ok].
  - apply absorb_ceiling. simpl. unfold ceiling. lia.
Qed.

(** C2. Given that the satellite of the built-in element lines can be
    built: when no source group yields a record, and in particular when
    every request fails, the catalog after [load_tle_data] is the one
    built-in record, with catalog id 25544 and lines that pass the format
    check; and whatever the sources do, the load returns a tracker whose
    catalog is not empty. *)
Theorem fallback_when_no_source_yields (http_get : string -> res string)
    (sets : list (list string)) (t : pyfloat) (self : Tracker)
    (iss : Satellite) :
  EarthSatellite iss_tle1 iss_tle2 "ISS (ZARYA)" = Ret iss ->
  let after := fst (load_tle_data_from http_get sets t self) in
  (forallb (fun g => negb (successful http_get g)) sets = true ->
   satellites after = [fallback_entry iss]) /\
  ((forall url, raises (http_get url) = true) ->
   satellites after = [fallback_entry iss]) /\
  satellites after <> [] /\
  fst (fallback_entry iss) = 25544 /\
  lines_ok (fallback_entry iss).
Proof.
  intros Hiss after.
  assert (Hnone : (forall u, In u (List.concat sets) ->
                             valid_records http_get u = []) ->
                  satellites after = [fallback_entry iss]).
  { intros H. subst after.
    destruct (load_tle_data_from_satellites http_get sets t self) as [-> _].
    destruct (load_source_sets_catalog http_get sets) as [-> Hin].
    rewrite no_record_anywhere by (intros u Hu; apply H, Hin, Hu).
    simpl. now rewrite load_fallback_data_satellites, Hiss. }
  split; [|split; [|split; [|split]]].
  - intros Hall. apply Hnone. intros u Hu.
    apply in_concat in Hu as (g & Hg & Hu).
    rewrite forallb_forall in Hall. specialize (Hall g Hg).
    apply negb_true_iff in Hall.
    apply yields_false. unfold successful in Hall.
    destruct (yields http_get u) eqn:E; [|reflexivity].
    assert (existsb (yields http_get) g = true)
      by (apply existsb_exists; now exists u).
    congruence.
  - intros Hfail. apply Hnone. intros u _.
    now apply failed_request_no_record.
  - subst after.
    destruct (load_tle_data_from_satellites http_get sets t self) as [-> _].
    destruct (all_satellites _); [|easy].
    now rewrite load_fallback_data_satellites, Hiss.
  - reflexivity.
  - apply fallback_entry_ok.
Qed.

(** C3. Every catalog a tracker can hold, after any number of loads over
    any source groups and any bodies, has pairwise different catalog ids,
    stored first lines that start with "1 " and second lines that start
    with "2 ", all of length 69, and at most 2000 records; and the record
    stored under an id is the first valid record of that id in the bodies
    requested, in the order of the requests. *)
Theorem ingestion_invariant :
  (forall self : Tracker, reachable self -> catalog_ok (satellites self)) /\
  (forall (http_get : string -> res string) (sets : list (list string))
          (id : Z) (v : SatData),
      In (id, v) (all_satellites (load_source_sets http_get sets ingest_start)) ->
      dict_get id
        (records_of_urls http_get
           (requested (load_source_sets http_get sets ingest_start)))
      = Some v).
Proof.
  split.
  - intros self Hreach.
    induction Hreach as [|http_get sets t self Hreach IH].
    + repeat split; simpl; try constructor. unfold ceiling. lia.
    + destruct (load_tle_data_from_satellites http_get sets t self) as [-> _].
      pose proof (loaded_catalog_ok http_get sets) as Hok.
      destruct (all_satellites (load_source_sets http_get sets ingest_start));
        [|exact Hok].
      rewrite load_fallback_data_satellites.
      destruct (EarthSatellite iss_tle1 iss_tle2 "ISS (ZARYA)") as [iss|e];
        [|exact IH].
      repeat split.
      * repeat constructor. easy.
      * repeat constructor; reflexivity.
      * simpl. unfold ceiling. lia.
  - intros http_get sets id v Hin.
    destruct (load_source_sets_catalog http_get sets) as [E _].
    rewrite E in Hin.
    now apply (absorb_first_seen id v _ [] (NoDup_nil _)) in Hin.
Qed.

End IngestTheorems.

(** The scenario of the specification on the test double: the only
    endpoint of the first group fails, the second group has three valid
    triplets (and a repeated id, and a malformed triplet), a third group
    exists. *)
Lemma first_successful_group_wins_witness :
  forallb (fun g' => negb (@successful Stub.lib Stub.http_get g'))
          [["first"]] = true /\
  @successful Stub.lib Stub.http_get ["second"] = true /\
  keys (satellites
          (fst (@load_tle_data_from Stub.lib Stub.http_get
                  [["first"]; ["second"]; ["third"]] (F.of_Z 0) fresh)))
  = [25544; 44713; 99999]%Z /\
  snd (@load_tle_data_from Stub.lib Stub.http_get
         [["first"]; ["second"]; ["third"]] (F.of_Z 0) fresh)
  = ["first"; "second"] /\
  @load_tle_data_from Stub.lib Stub.http_get
    [["first"]; ["second"]; ["third"]] (F.of_Z 0) fresh
  = @load_tle_data_from Stub.lib Stub.http_get
      [["first"]; ["second"]] (F.of_Z 0) fresh.
Proof.
  split; [vm_compute; reflexivity|].
  split; [vm_compute; reflexivity|].
  split; [vm_compute; reflexivity|].
  split; [vm_compute; reflexivity|].
  apply (@first_successful_group_wins Stub.lib Stub.http_get
           [["first"]] ["second"] [["third"]] (F.of_Z 0) fresh);
    vm_compute; reflexivity.
Defined.

Lemma fallback_when_no_source_yields_witness :
  @EarthSatellite Stub.lib iss_tle1 iss_tle2 "ISS (ZARYA)" = Ret "ISS (ZARYA)" /\
  satellites (fst (@load_tle_data_from Stub.lib Stub.offline tle_source_sets
                     (F.of_Z 0) fresh))
  = [@fallback_entry Stub.lib "ISS (ZARYA)"].
Proof.
  split; [reflexivity|].
  apply (proj1 (proj2 (@fallback_when_no_source_yields Stub.lib Stub.offline
                         tle_source_sets (F.of_Z 0) fresh "ISS (ZARYA)"
                         eq_refl))).
  reflexivity.
Defined.

Lemma ingestion_invariant_witness :
  @catalog_ok Stub.lib
    (satellites (fst (@load_tle_data_from Stub.lib Stub.http_get
                        [["first"]; ["second"]; ["third"]] (F.of_Z 0) fresh))).
Proof.
  apply (proj1 (@ingestion_invariant Stub.lib)).
  apply reach_load, reach_fresh.
Defined.

(** ** The queries *)

Section LoopFacts.

Context {A B : Type}.

Lemma collect_from (body : A -> res B) (items : list A) :
  forall out,
    fold_left
      (fun out x =>
         try_except (bind (body x) (fun y => Ret (out ++ [y]))) (fun _ => out))
      items out
    = out ++ flat_map (fun x => kept (body x)) items.
Proof.
  induction items as [|x items IH]; intros out; simpl.
  - now rewrite app_nil_r.
  - rewrite IH. destruct (body x) as [y|e]; simpl.
    + now rewrite <- app_assoc.
    + reflexivity.
Qed.

(** A loop that skips the turns that raise keeps the results of the
    others, in order. *)
Lemma collect_kept (body : A -> res B) (items : list A) :
  collect items body = flat_map (fun x => kept (body x)) items.
Proof. unfold collect. now rewrite collect_from. Qed.

Lemma collect_length (body : A -> res B) (items : list A) :
  (List.length (collect items body) <= List.length items)%nat.
Proof.
  rewrite collect_kept.
  induction items as [|x items IH]; simpl; [lia|].
  rewrite length_app. destruct (body x); simpl; lia.
Qed.

Lemma collect_in (body : A -> res B) (items : list A) (y : B) :
  In y (collect items body) <-> exists x, In x items /\ body x = Ret y.
Proof.
  rewrite collect_kept, in_flat_map. split.
  - intros (x & Hx & Hy). exists x. split; [assumption|].
    destruct (body x); simpl in Hy; [|contradiction].
    destruct Hy as [->|[]]. reflexivity.
  - intros (x & Hx & Hy). exists x. split; [assumption|].
    rewrite Hy. now left.
Qed.

Lemma collect_all_raise (body : A -> res B) (items : list A) :
  (forall x, In x items -> raises (body x) = true) -> collect items body = [].
Proof.
  intros H. rewrite collect_kept.
  induction items as [|x items IH]; simpl; [reflexivity|].
  rewrite IH by (intros y Hy; apply H; now right).
  specialize (H x (or_introl eq_refl)). now destruct (body x).
Qed.

End LoopFacts.

Lemma div_by_constant (x : pyfloat) (n : Z) :
  (0 < n)%Z -> F.div x (F.of_Z n) = Ret (div_by x (inject_Z n)).
Proof.
  intros Hn. unfold F.div, F.of_Z, div_by.
  assert (E : Qeq_bool (inject_Z n) 0 = false).
  { destruct (Qeq_bool (inject_Z n) 0) eqn:E; [|reflexivity].
    apply Qeq_bool_eq in E. unfold Qeq, inject_Z in E. simpl in E. lia. }
  assert (G : F.Qgtb (inject_Z n) 0 = true).
  { unfold F.Qgtb. apply negb_true_iff.
    destruct (Qle_bool (inject_Z n) 0) eqn:G; [|reflexivity].
    apply Qle_bool_iff in G. unfold Qle, inject_Z in G. simpl in G. lia. }
  rewrite E, G. now destruct x.
Qed.

Lemma range_length (n : nat) : List.length (range n) = n.
Proof. unfold range. now rewrite length_map, length_seq. Qed.

Lemma range_in (n : nat) (i : Z) :
  In i (range n) <-> (0 <= i < Z.of_nat n)%Z.
Proof.
  unfold range. rewrite in_map_iff. split.
  - intros (k & <- & Hk). apply in_seq in Hk. lia.
  - intros Hi. exists (Z.to_nat i). split; [lia|]. apply in_seq. lia.
Qed.

Section QueryFacts.

Context {P : Propagation}.

Lemma dict_has_false_get (V : Type) (k : Z) (d : dict V) :
  dict_has k d = false <-> dict_get k d = None.
Proof.
  pose proof (dict_has_get V k d) as H.
  destruct (dict_has k d), (dict_get k d) as [v|]; split; try easy.
  - intros _. destruct (proj1 H eq_refl) as [v E]. discriminate.
  - intros _. assert (true = false) by (symmetry; apply H; now exists v).
    discriminate.
Qed.

(** *** [get_orbital_path] *)

Lemma sample_times (current_time : Time) (hours : pyfloat) (idx : list Z) :
  forall acc,
    for_each idx (sample_time current_time hours) acc
    = Ret (acc ++ map (sample_at current_time hours) idx).
Proof.
  induction idx as [|i idx IH]; intros acc; simpl.
  - now rewrite app_nil_r.
  - unfold sample_time at 1.
    rewrite div_by_constant by (unfold num_points; lia). simpl.
    rewrite IH, <- app_assoc. reflexivity.
Qed.

Lemma get_orbital_path_known (current_time : Time) (norad_id : Z)
    (hours : pyfloat) (self : Tracker) (sat_data : SatData) :
  dict_get norad_id (satellites self) = Some sat_data ->
  get_orbital_path current_time norad_id hours self
  = Ret (collect (map (sample_at current_time hours) (range num_points))
                 (orbit_point (satellite sat_data))).
Proof.
  intros Hget. unfold get_orbital_path.
  assert (Hhas : dict_has norad_id (satellites self) = true)
    by (apply dict_has_get; now exists sat_data).
  rewrite Hhas, Hget. simpl negb. cbv iota.
  now rewrite sample_times.
Qed.

Lemma get_orbital_path_unknown (current_time : Time) (norad_id : Z)
    (hours : pyfloat) (self : Tracker) :
  dict_has norad_id (satellites self) = false ->
  get_orbital_path current_time norad_id hours self = Ret [].
Proof. intros H. unfold get_orbital_path. now rewrite H. Qed.

Lemma sample_at_finite (c h : Q) (i : Z) :
  sample_at (Fin c) (Fin h) i = Fin (sample_q c h i).
Proof. reflexivity. Qed.

Lemma sample_q_step (c h : Q) (i : Z) :
  Qeq (Qminus (sample_q c h (i + 1)) (sample_q c h i))
      (Qdiv h (inject_Z 2400)).
Proof.
  unfold sample_q. rewrite inject_Z_plus. field.
Qed.

Lemma sample_q_first (c h : Q) : Qeq (sample_q c h 0) c.
Proof.
  unfold sample_q. field.
Qed.

Lemma sample_q_interval (c h : Q) (i : Z) :
  Qle 0 h -> (0 <= i < 100)%Z ->
  Qle c (sample_q c h i) /\
  Qle (sample_q c h i) (sample_q c h 99) /\
  Qle (sample_q c h 99) (Qplus c (Qdiv h (inject_Z 24))).
Proof.
  intros Hh Hi. unfold sample_q. split; [|split].
  - rewrite <- (Qplus_0_r c) at 1. apply Qplus_le_r.
    apply Qle_shift_div_l; [reflexivity|]. rewrite Qmult_0_l.
    apply Qmult_le_0_compat; [|assumption].
    unfold Qle, inject_Z. simpl. lia.
  - apply Qplus_le_r. apply Qmult_le_compat_r; [|easy].
    apply Qmult_le_compat_r; [|assumption].
    unfold Qle, inject_Z. simpl. lia.
  - apply Qplus_le_r. apply Qle_shift_div_r; [reflexivity|].
    setoid_replace (h / inject_Z 24 * inject_Z 2400)%Q
      with (inject_Z 100 * h)%Q by field.
    apply Qmult_le_compat_r; [|assumption].
    unfold Qle, inject_Z. simpl. lia.
Qed.

(** What [orbit_point] keeps of a sample: the sub-point of the position,
    when both can be computed. *)
Lemma orbit_point_kept (satellite : Satellite) (t : Time) :
  kept (orbit_point satellite t)
  = match sat_at satellite t with
    | Ret geocentric =>
        match subpoint geocentric with
        | Ret sp => [ {| point_latitude := latitude_degrees sp;
                         point_longitude := longitude_degrees sp;
                         point_altitude := elevation_km sp |} ]
        | Raise _ => []
        end
    | Raise _ => []
    end.
Proof.
  unfold orbit_point. destruct (sat_at satellite t) as [g|]; [|reflexivity].
  cbn [bind]. now destruct (subpoint g).
Qed.

(** C9. For a satellite of the catalog, [get_orbital_path] takes the 100
    times [now + i * hours / 2400] days, i = 0 .. 99, and returns, in the
    order of the times, the latitude, longitude and altitude of the
    sub-point of the satellite's position at each time where the position
    and its sub-point can be computed; a time where one of them fails
    gives no point, so there are at most 100.  For a finite time [c] and a
    finite horizon [h] the samples are [c + i * h / 2400]: the first is
    [c], consecutive ones are [h / 2400] days apart, and for [h >= 0] all
    lie between [c] and the last one, [c + 99 * h / 2400], which is within
    the [h] hours, [h / 24] days, after [c]. *)
Theorem orbital_path_samples (current_time : Time) (norad_id : Z)
    (hours : pyfloat) (self : Tracker) (sat_data : SatData) :
  dict_get norad_id (satellites self) = Some sat_data ->
  let times := map (sample_at current_time hours) (range 100) in
  let point_at t :=
    match sat_at (satellite sat_data) t with
    | Ret geocentric =>
        match subpoint geocentric with
        | Ret sp => [ {| point_latitude := latitude_degrees sp;
                         point_longitude := longitude_degrees sp;
                         point_altitude := elevation_km sp |} ]
        | Raise _ => []
        end
    | Raise _ => []
    end in
  List.length times = 100%nat /\
  get_orbital_path current_time norad_id hours self
  = Ret (flat_map point_at times) /\
  (List.length (flat_map point_at times) <= 100)%nat /\
  (forall p,
      In p (flat_map point_at times) <->
      exists i geocentric sp,
        (0 <= i < 100)%Z /\
        sat_at (satellite sat_data) (sample_at current_time hours i)
        = Ret geocentric /\
        subpoint geocentric = Ret sp /\
        p = {| point_latitude := latitude_degrees sp;
               point_longitude := longitude_degrees sp;
               point_altitude := elevation_km sp |}) /\
  (forall c h i, sample_at (Fin c) (Fin h) i = Fin (sample_q c h i)) /\
  (forall c h, Qeq (sample_q c h 0) c) /\
  (forall c h i,
      Qeq (Qminus (sample_q c h (i + 1)) (sample_q c h i))
          (Qdiv h (inject_Z 2400))) /\
  (forall c h i,
      Qle 0 h -> (0 <= i < 100)%Z ->
      Qle c (sample_q c h i) /\
      Qle (sample_q c h i) (sample_q c h 99) /\
      Qle (sample_q c h 99) (Qplus c (Qdiv h (inject_Z 24)))).
Proof.
  intros Hget times point_at.
  assert (Hlen : List.length times = 100%nat).
  { subst times. now rewrite length_map, range_length. }
  assert (Hpath : collect times (orbit_point (satellite sat_data))
                  = flat_map point_at times).
  { rewrite collect_kept. apply flat_map_ext. intros t.
    apply orbit_point_kept. }
  split; [exact Hlen|]. split; [|split; [|split]].
  - rewrite (get_orbital_path_known _ _ _ _ _ Hget). now rewrite <- Hpath.
  - rewrite <- Hpath, <- Hlen. apply collect_length.
  - intros p. split.
    + intros (t & Ht & Hp)%in_flat_map.
      apply in_map_iff in Ht as (i & <- & Hi). apply range_in in Hi.
      subst point_at. cbv beta in Hp.
      destruct (sat_at _ _) as [g|] eqn:Hg; [|contradiction].
      destruct (subpoint g) as [sp|] eqn:Hsp; [|contradiction].
      destruct Hp as [<-|[]]. now exists i, g, sp.
    + intros (i & g & sp & Hi & Hg & Hsp & ->). apply in_flat_map.
      exists (sample_at current_time hours i). split.
      * apply in_map. now apply range_in.
      * subst point_at. cbv beta. rewrite Hg, Hsp. now left.
  - split; [reflexivity|]. split; [apply sample_q_first|].
    split; [apply sample_q_step|].
    intros c h i Hh Hi. now apply sample_q_interval.
Qed.

(** *** [get_next_passes] *)

Lemma get_next_passes_unknown (current_time : Time) (norad_id : Z)
    (lat lon alt days : pyfloat) (self : Tracker) :
  dict_has norad_id (satellites self) = false ->
  get_next_passes current_time norad_id lat lon alt days self = Ret [].
Proof. intros H. unfold get_next_passes. now rewrite H. Qed.

(** The passes the loop finds, before the cut to three. *)
Lemma get_next_passes_known (current_time : Time) (norad_id : Z)
    (lat lon alt days : pyfloat) (self : Tracker) (sat_data : SatData) :
  dict_get norad_id (satellites self) = Some sat_data ->
  get_next_passes current_time norad_id lat lon alt days self
  = Ret (firstn 3
           match find_events (satellite sat_data) (latlon lat lon alt)
                             current_time (F.add current_time days)
                             (F.of_Z 10) with
           | Ret events =>
               pair_events (satellite sat_data) (latlon lat lon alt) events
                           ([], no_pass)
           | Raise _ => []
           end).
Proof.
  intros Hget. unfold get_next_passes.
  assert (Hhas : dict_has norad_id (satellites self) = true)
    by (apply dict_has_get; now exists sat_data).
  rewrite Hhas, Hget. simpl negb. cbv iota.
  now destruct (find_events _ _ _ _ _).
Qed.

(** C10. For a catalog id that is not in the catalog, [get_orbital_path]
    and [get_next_passes] return the empty list; so does
    [get_orbital_path] for a satellite of the catalog whose every sample
    fails, and [get_next_passes] for one without events in the window. *)
Theorem unknown_satellite_gives_empty_lists (current_time : Time)
    (self : Tracker) :
  (forall norad_id hours,
      dict_has norad_id (satellites self) = false ->
      get_orbital_path current_time norad_id hours self = Ret []) /\
  (forall norad_id lat lon alt days,
      dict_has norad_id (satellites self) = false ->
      get_next_passes current_time norad_id lat lon alt days self = Ret []) /\
  (forall norad_id hours sat_data,
      dict_get norad_id (satellites self) = Some sat_data ->
      (forall t, raises (sat_at (satellite sat_data) t) = true) ->
      get_orbital_path current_time norad_id hours self = Ret []) /\
  (forall norad_id lat lon alt days sat_data,
      dict_get norad_id (satellites self) = Some sat_data ->
      find_events (satellite sat_data) (latlon lat lon alt) current_time
                  (F.add current_time days) (F.of_Z 10) = Ret [] ->
      get_next_passes current_time norad_id lat lon alt days self = Ret []).
Proof.
  repeat apply conj.
  - intros. now apply get_orbital_path_unknown.
  - intros. now apply get_next_passes_unknown.
  - intros norad_id hours sat_data Hget Hfail.
    rewrite (get_orbital_path_known _ _ _ _ _ Hget).
    rewrite collect_all_raise; [reflexivity|].
    intros t _. unfold orbit_point. specialize (Hfail t).
    now destruct (sat_at (satellite sat_data) t).
  - intros norad_id lat lon alt days sat_data Hget Hev.
    rewrite (get_next_passes_known _ _ _ _ _ _ _ _ Hget), Hev. reflexivity.
Qed.

(** *** [get_satellite_details] *)

(** C5, as the code has it. [get_satellite_details] never raises; it
    returns [None] when the catalog id is absent and also when the id is
    present and the computation on its record raises (a propagation
    failure, or an orbital element of the second line that [float] cannot
    read); it returns a detail record exactly when the id is present and
    that computation succeeds. *)
Theorem details_none_when_absent_or_failed (current_time : Time)
    (norad_id : Z) (self : Tracker) :
  get_satellite_details current_time norad_id self
  = Ret match dict_get norad_id (satellites self) with
        | None => None
        | Some sat_data =>
            match detail_record current_time norad_id sat_data with
            | Ret d => Some d
            | Raise _ => None
            end
        end
  /\ (get_satellite_details current_time norad_id self = Ret None <->
      dict_has norad_id (satellites self) = false \/
      exists sat_data,
        dict_get norad_id (satellites self) = Some sat_data /\
        raises (detail_record current_time norad_id sat_data) = true).
Proof.
  assert (E : get_satellite_details current_time norad_id self
              = Ret match dict_get norad_id (satellites self) with
                    | None => None
                    | Some sat_data =>
                        match detail_record current_time norad_id sat_data with
                        | Ret d => Some d
                        | Raise _ => None
                        end
                    end).
  { unfold get_satellite_details.
    destruct (dict_get norad_id (satellites self)) as [sat_data|] eqn:Hget.
    - assert (Hhas : dict_has norad_id (satellites self) = true)
        by (apply dict_has_get; now exists sat_data).
      rewrite Hhas. simpl.
      now destruct (detail_record current_time norad_id sat_data).
    - apply dict_has_false_get in Hget. now rewrite Hget. }
  split; [exact E|]. rewrite E.
  destruct (dict_get norad_id (satellites self)) as [sat_data|] eqn:Hget.
  - destruct (detail_record current_time norad_id sat_data) as [d|e] eqn:Hd.
    + split; [discriminate|].
      intros [Hhas|(sd & [= <-] & Hr)].
      * apply dict_has_false_get in Hhas. congruence.
      * rewrite Hd in Hr. discriminate.
    + split; [|reflexivity]. intros _. right. exists sat_data.
      now rewrite Hd.
  - split; [|reflexivity]. intros _. left. now apply dict_has_false_get.
Qed.

End QueryFacts.

(** On the test double, where propagation fails after the time 1/20: of
    the 100 samples of a horizon of two hours the first 61 give a point,
    each the sub-point the double answers. *)
Lemma orbital_path_samples_witness :
  dict_get 25544 (satellites Stub.tracker) = Some (snd Stub.healthy) /\
  (exists path,
      @get_orbital_path Stub.lib (F.of_Z 0) 25544 (F.of_Z 2) Stub.tracker
      = Ret path /\
      path = repeat {| point_latitude := F.of_Z 0;
                       point_longitude := F.of_Z 0;
                       point_altitude := F.of_Z 400 |} 61) /\
  List.length (map (sample_at (F.of_Z 0) (F.of_Z 2)) (range 100)) = 100%nat.
Proof.
  pose proof (@orbital_path_samples Stub.lib (F.of_Z 0) 25544 (F.of_Z 2)
                Stub.tracker (snd Stub.healthy) eq_refl) as (Hlen & Hpath & _).
  split; [reflexivity|]. split.
  - eexists. split; [exact Hpath|]. vm_compute. reflexivity.
  - exact Hlen.
Defined.

Lemma unknown_satellite_gives_empty_lists_witness :
  dict_has 99999 (satellites Stub.tracker) = false /\
  @get_orbital_path Stub.lib (F.of_Z 0) 99999 (F.of_Z 2) Stub.tracker = Ret [] /\
  @get_next_passes Stub.lib (F.of_Z 0) 99999 (F.of_Z 0) (F.of_Z 0) (F.of_Z 0)
                   (F.of_Z 7) Stub.tracker = Ret [] /\
  @get_next_passes Stub.lib (F.of_Z 0) 7 (F.of_Z 0) (F.of_Z 0) (F.of_Z 0)
                   (F.of_Z 7) Stub.tracker = Ret [].
Proof.
  split; [reflexivity|].
  pose proof (@unknown_satellite_gives_empty_lists Stub.lib (F.of_Z 0)
                Stub.tracker) as (H1 & H2 & _ & H4).
  split; [apply H1; reflexivity|].
  split; [apply H2; reflexivity|].
  apply (H4 7%Z _ _ _ _ (snd Stub.corrupted)); reflexivity.
Defined.

(** The record is in the catalog and its details are [None]: its mean
    motion cannot be read. *)
Lemma details_none_for_present_id :
  dict_has 7 (satellites Stub.tracker) = true /\
  @get_satellite_details Stub.lib (F.of_Z 0) 7 Stub.tracker = Ret None /\
  (exists d,
      @get_satellite_details Stub.lib (F.of_Z 0) 25544 Stub.tracker
      = Ret (Some d)).
Proof.
  split; [reflexivity|]. split; [reflexivity|].
  eexists. vm_compute. reflexivity.
Qed.

Section PositionFacts.

Context {P : Propagation}.
Variable http_get : string -> res string.

(** *** [get_satellite_positions] *)

Lemma position_record_id (current_time : Time) (e : Z * SatData)
    (r : PositionRecord) :
  position_record current_time e = Ret r -> pos_norad_id r = fst e.
Proof.
  unfold position_record.
  destruct (sat_at _ _); [|discriminate]. cbn [bind].
  destruct (subpoint _); [|discriminate]. cbn [bind].
  destruct (velocity_at _ _); [|discriminate]. cbn [bind].
  destruct (Py.float _); [|discriminate]. cbn [bind].
  destruct (period_of _); [|discriminate]. cbn [bind].
  now intros [= <-].
Qed.

(** A mean motion that [float] cannot read fails the record. *)
Lemma corrupted_mean_motion_raises (current_time : Time) (e : Z * SatData) :
  raises (Py.float (Py.slice (tle_line2 (snd e)) 52 63)) = true ->
  raises (position_record current_time e) = true.
Proof.
  unfold position_record.
  destruct (sat_at _ _); [|reflexivity]. cbn [bind].
  destruct (subpoint _); [|reflexivity]. cbn [bind].
  destruct (velocity_at _ _); [|reflexivity]. cbn [bind].
  destruct (Py.float _); [discriminate|reflexivity].
Qed.

Lemma same_key_same_entry (V : Type) (d : dict V) (e e' : Z * V) :
  NoDup (keys d) -> In e d -> In e' d -> fst e = fst e' -> e = e'.
Proof.
  intros Hn He He' Hk. destruct e as [k v], e' as [k' v']. simpl in Hk.
  subst k'. f_equal.
  pose proof (dict_get_in V k v d Hn He) as E.
  pose proof (dict_get_in V k v' d Hn He') as E'. congruence.
Qed.

(** The refresh policy, then the records of the entries that compute. *)
Lemma get_satellite_positions_result (time_time : pyfloat)
    (current_time : Time) (self : Tracker) :
  get_satellite_positions http_get time_time current_time self
  = Ret (if _should_update_tle time_time self
         then load_tle_data http_get time_time self else (self, []),
         flat_map (fun e => kept (position_record current_time e))
                  (satellites
                     (fst (if _should_update_tle time_time self
                           then load_tle_data http_get time_time self
                           else (self, []))))).
Proof. unfold get_satellite_positions. now rewrite collect_kept. Qed.

Lemma kept_positions_in (current_time : Time) (catalog : dict SatData)
    (r : PositionRecord) :
  In r (flat_map (fun e => kept (position_record current_time e)) catalog) <->
  exists e, In e catalog /\ position_record current_time e = Ret r.
Proof. rewrite <- collect_kept. apply collect_in. Qed.

(** C6. [get_satellite_positions] never raises.  Over the catalog it holds
    after the refresh policy has run, it returns, in order, the position
    records of the entries whose computation succeeds: an entry whose
    mean-motion field cannot be read fails and is left out (no record of
    the result carries its id, the ids being unique), and every entry
    whose computation succeeds is in the result, under its id. *)
Theorem positions_skip_failed_records (time_time : pyfloat)
    (current_time : Time) (self : Tracker) :
  let refreshed :=
    if _should_update_tle time_time self
    then load_tle_data http_get time_time self else (self, []) in
  let catalog := satellites (fst refreshed) in
  let out := flat_map (fun e => kept (position_record current_time e)) catalog in
  get_satellite_positions http_get time_time current_time self
  = Ret (refreshed, out) /\
  (forall e,
      In e catalog ->
      raises (Py.float (Py.slice (tle_line2 (snd e)) 52 63)) = true ->
      raises (position_record current_time e) = true) /\
  (forall e,
      In e catalog -> NoDup (keys catalog) ->
      raises (position_record current_time e) = true ->
      ~ In (fst e) (map pos_norad_id out)) /\
  (forall e r,
      In e catalog -> position_record current_time e = Ret r ->
      In r out /\ pos_norad_id r = fst e) /\
  (forall r,
      In r out ->
      exists e, In e catalog /\ position_record current_time e = Ret r).
Proof.
  intros refreshed catalog out.
  assert (Hout : forall r,
             In r out <->
             exists e, In e catalog /\ position_record current_time e = Ret r)
    by (intros r; apply kept_positions_in).
  split; [|split; [|split; [|split]]].
  - apply get_satellite_positions_result.
  - intros e _. apply corrupted_mean_motion_raises.
  - intros e He Hn Hr Hin.
    apply in_map_iff in Hin as (r & Hid & Hin).
    apply Hout in Hin as (e' & He' & Hr').
    apply position_record_id in Hr' as Hid'.
    assert (e' = e) by (apply (same_key_same_entry _ catalog); congruence).
    subst e'. rewrite Hr' in Hr. discriminate.
  - intros e r He Hr. split.
    + apply Hout. now exists e.
    + now apply position_record_id in Hr.
  - intros r. apply Hout.
Qed.

End PositionFacts.

(** On the test double: of a corrupted and a healthy record, the healthy
    one is returned. *)
Lemma positions_skip_failed_records_witness :
  match @get_satellite_positions Stub.lib Stub.http_get (F.of_Z 10) (F.of_Z 0)
                                 Stub.tracker with
  | Ret (_, out) => map pos_norad_id out
  | Raise _ => []
  end = [25544%Z] /\
  raises (Py.float (Py.slice (tle_line2 (snd Stub.corrupted)) 52 63)) = true.
Proof.
  split; [|reflexivity].
  rewrite (proj1 (@positions_skip_failed_records Stub.lib Stub.http_get
                    (F.of_Z 10) (F.of_Z 0) Stub.tracker)).
  vm_compute. reflexivity.
Defined.

(** *** The period and the launch date *)

Lemma isdigit_cases (c : ascii) :
  Py.isdigit c = true ->
  In c ["0"; "1"; "2"; "3"; "4"; "5"; "6"; "7"; "8"; "9"]%char.
Proof.
  destruct c as [[] [] [] [] [] [] [] []]; intros H;
    try discriminate H; simpl; tauto.
Qed.

(** On two digits the comparison of strings with "57" is the comparison of
    numbers with 57: below it the year is in the 2000s, from it on in the
    1900s. *)
Lemma epoch_year_two_digits (a b : ascii) (rest : string) :
  Py.isdigit a = true -> Py.isdigit b = true ->
  epoch_year (String a (String b rest))
  = Ret (if (two_digits a b <? 57)%Z then (2000 + two_digits a b)%Z
         else (1900 + two_digits a b)%Z).
Proof.
  intros Ha Hb.
  apply isdigit_cases in Ha. apply isdigit_cases in Hb.
  simpl in Ha, Hb.
  repeat (destruct Ha as [<-|Ha]; [|]);
    try contradiction;
    repeat (destruct Hb as [<-|Hb]; [|]);
    try contradiction; reflexivity.
Qed.

Lemma gt_zero_not_zero (q : Q) : F.Qgtb q 0 = true -> Qeq_bool q 0 = false.
Proof.
  unfold F.Qgtb. intros H. apply negb_true_iff in H.
  destruct (Qeq_bool q 0) eqn:E; [|reflexivity].
  apply Qeq_bool_eq in E.
  assert (Hle : Qle_bool q 0 = true).
  { apply Qle_bool_iff. rewrite E. apply Qle_refl. }
  congruence.
Qed.

Lemma le_zero_not_gt (x : pyfloat) :
  F.le x (F.of_Z 0) = true -> F.gt x (F.of_Z 0) = false.
Proof.
  destruct x as [q| | |]; simpl; try easy.
  unfold F.Qgtb. now intros ->.
Qed.

Lemma period_of_positive (mean_motion : pyfloat) :
  F.gt mean_motion (F.of_Z 0) = true ->
  exists p,
    F.div (F.of_Z 1440) mean_motion = Ret p /\
    period_of mean_motion = Ret (PFloat p).
Proof.
  intros H. unfold period_of. rewrite H.
  destruct mean_motion as [q| | |]; try discriminate H.
  - simpl in H. simpl. rewrite (gt_zero_not_zero q H).
    eexists. split; reflexivity.
  - eexists. split; reflexivity.
Qed.

Lemma period_of_finite (q : Q) :
  F.gt (Fin q) (F.of_Z 0) = true ->
  period_of (Fin q) = Ret (PFloat (Fin (Qdiv (inject_Z 1440) q))).
Proof.
  intros H. unfold period_of. rewrite H. simpl in *.
  now rewrite (gt_zero_not_zero q H).
Qed.

Lemma period_of_not_positive (mean_motion : pyfloat) :
  F.gt mean_motion (F.of_Z 0) = false -> period_of mean_motion = Ret (PInt 0).
Proof. intros H. unfold period_of. now rewrite H. Qed.

Section PeriodFacts.

Context {P : Propagation}.
Variable http_get : string -> res string.

(** The launch date, once the year and the day of the year are read. *)
Lemma extract_launch_date_read (epoch_str : string) (year : Z)
    (day_of_year : pyfloat) :
  epoch_year epoch_str = Ret year ->
  Py.float (Py.slice_from epoch_str 2) = Ret day_of_year ->
  _extract_launch_date epoch_str
  = try_except (new_year_plus_days year (F.sub day_of_year (F.of_Z 1)))
               (fun _ => "Unknown").
Proof.
  intros Hy Hd. unfold _extract_launch_date. now rewrite Hy, Hd.
Qed.

Lemma extract_launch_date_unread (epoch_str : string) :
  raises (epoch_year epoch_str) = true \/
  raises (Py.float (Py.slice_from epoch_str 2)) = true ->
  _extract_launch_date epoch_str = "Unknown".
Proof.
  unfold _extract_launch_date.
  destruct (epoch_year epoch_str); simpl; [|reflexivity].
  destruct (Py.float _); simpl; [|reflexivity].
  intros [H|H]; discriminate.
Qed.

(** What a position record says of the period and of the launch date. *)
Lemma position_record_fields (current_time : Time) (e : Z * SatData)
    (r : PositionRecord) :
  position_record current_time e = Ret r ->
  exists mean_motion,
    Py.float (Py.slice (tle_line2 (snd e)) 52 63) = Ret mean_motion /\
    period_of mean_motion = Ret (pos_orbital_period r) /\
    pos_launch_date r
    = _extract_launch_date (Py.slice (tle_line1 (snd e)) 18 32).
Proof.
  unfold position_record.
  destruct (sat_at _ _); [|discriminate]. cbn [bind].
  destruct (subpoint _); [|discriminate]. cbn [bind].
  destruct (velocity_at _ _); [|discriminate]. cbn [bind].
  destruct (Py.float (Py.slice (tle_line2 (snd e)) 52 63)) as [mm|];
    [|discriminate]. cbn [bind].
  destruct (period_of mm) as [p|] eqn:Hp; [|discriminate]. cbn [bind].
  intros [= <-]. exists mm. now repeat split.
Qed.

(** C7. For every record [get_satellite_positions] returns there is an
    entry of the catalog with its id such that: the mean motion is
    [float] of characters 52 to 62 of the second line; the period is
    [1440 / mean_motion] when the mean motion is positive, and the integer
    0 when it is not, in particular when it is at most 0; the launch date
    is read from characters 18 to 31 of the first line, as the first of
    January of the year plus the day of the year less one, the year of
    two digits [yy] being [2000 + yy] below 57 and [1900 + yy] from 57 on,
    and is "Unknown" when the year or the day cannot be read or the date
    cannot be formed. *)
Theorem period_and_launch_date (time_time : pyfloat) (current_time : Time)
    (self : Tracker) (after : Tracker * list string)
    (out : list PositionRecord) (r : PositionRecord) :
  get_satellite_positions http_get time_time current_time self
  = Ret (after, out) ->
  In r out ->
  exists e mean_motion,
    In e (satellites (fst after)) /\
    pos_norad_id r = fst e /\
    Py.float (Py.slice (tle_line2 (snd e)) 52 63) = Ret mean_motion /\
    (F.gt mean_motion (F.of_Z 0) = true ->
     exists p, F.div (F.of_Z 1440) mean_motion = Ret p /\
               pos_orbital_period r = PFloat p) /\
    (forall q, mean_motion = Fin q -> F.gt (Fin q) (F.of_Z 0) = true ->
               pos_orbital_period r
               = PFloat (Fin (Qdiv (inject_Z 1440) q))) /\
    (F.gt mean_motion (F.of_Z 0) = false -> pos_orbital_period r = PInt 0) /\
    (F.le mean_motion (F.of_Z 0) = true -> pos_orbital_period r = PInt 0) /\
    pos_launch_date r
    = _extract_launch_date (Py.slice (tle_line1 (snd e)) 18 32) /\
    (forall year day_of_year,
        epoch_year (Py.slice (tle_line1 (snd e)) 18 32) = Ret year ->
        Py.float (Py.slice_from (Py.slice (tle_line1 (snd e)) 18 32) 2)
        = Ret day_of_year ->
        pos_launch_date r
        = try_except
            (new_year_plus_days year (F.sub day_of_year (F.of_Z 1)))
            (fun _ => "Unknown")) /\
    (raises (epoch_year (Py.slice (tle_line1 (snd e)) 18 32)) = true \/
     raises (Py.float (Py.slice_from (Py.slice (tle_line1 (snd e)) 18 32) 2))
     = true ->
     pos_launch_date r = "Unknown") /\
    (forall a b rest,
        Py.slice (tle_line1 (snd e)) 18 32 = String a (String b rest) ->
        Py.isdigit a = true -> Py.isdigit b = true ->
        epoch_year (Py.slice (tle_line1 (snd e)) 18 32)
        = Ret (if (two_digits a b <? 57)%Z then (2000 + two_digits a b)%Z
               else (1900 + two_digits a b)%Z)).
Proof.
  intros Hres Hin.
  rewrite get_satellite_positions_result in Hres.
  injection Hres as Hafter Hout.
  rewrite <- Hout in Hin. apply kept_positions_in in Hin as (e & He & Hr).
  rewrite Hafter in He.
  destruct (position_record_fields current_time e r Hr) as (mm & Hmm & Hp & Hl).
  exists e, mm.
  split; [exact He|]. split; [now apply position_record_id in Hr|].
  split; [exact Hmm|].
  split; [|split; [|split; [|split; [|split; [|split; [|split]]]]]].
  - intros Hpos. destruct (period_of_positive mm Hpos) as (p & Hd & Hp').
    exists p. split; [exact Hd|]. congruence.
  - intros q -> Hpos. rewrite (period_of_finite q Hpos) in Hp. congruence.
  - intros Hneg. rewrite (period_of_not_positive mm Hneg) in Hp. congruence.
  - intros Hle. apply le_zero_not_gt in Hle.
    rewrite (period_of_not_positive mm Hle) in Hp. congruence.
  - exact Hl.
  - intros year doy Hy Hd. rewrite Hl. now apply extract_launch_date_read.
  - intros H. rewrite Hl. now apply extract_launch_date_unread.
  - intros a b rest -> Ha Hb. now apply epoch_year_two_digits.
Qed.

End PeriodFacts.

(** On the test double: the period of the built-in record is 1440 over
    its mean motion 15.49309239, and its epoch 23001.00000000 is read as
    the year 2023. *)
Lemma period_and_launch_date_witness :
  exists r e mean_motion,
    In e (satellites Stub.tracker) /\
    pos_norad_id r = fst e /\
    Py.float (Py.slice (tle_line2 (snd e)) 52 63) = Ret mean_motion /\
    mean_motion = Fin (Qmake 1549309239 100000000) /\
    pos_orbital_period r
    = PFloat (Fin (Qdiv (inject_Z 1440) (Qmake 1549309239 100000000))) /\
    epoch_year (Py.slice (tle_line1 (snd e)) 18 32) = Ret 2023%Z.
Proof.
  pose (out := flat_map
                 (fun e => kept (@position_record Stub.lib (F.of_Z 0) e))
                 (satellites Stub.tracker)).
  assert (Hres : @get_satellite_positions Stub.lib Stub.http_get (F.of_Z 10)
                   (F.of_Z 0) Stub.tracker
                 = Ret ((Stub.tracker, []), out))
    by (vm_compute; reflexivity).
  destruct out as [|r out'] eqn:Eout; [vm_compute in Eout; discriminate|].
  assert (Hr : pos_norad_id r = 25544%Z).
  { vm_compute in Eout. now injection Eout as <- _. }
  destruct (@period_and_launch_date Stub.lib Stub.http_get (F.of_Z 10)
              (F.of_Z 0) Stub.tracker _ (r :: out') r Hres
              (or_introl eq_refl))
    as (e & mm & He & Hid & Hmm & _ & Hq & _ & _ & _ & _ & _ & Hy).
  assert (Ee : e = Stub.healthy).
  { simpl in He. destruct He as [<-|[<-|[]]]; [|reflexivity].
    rewrite Hr in Hid. discriminate Hid. }
  subst e.
  assert (Em : mm = Fin (Qmake 1549309239 100000000)).
  { revert Hmm. vm_compute. now intros [= <-]. }
  exists r, Stub.healthy, mm.
  split; [now right; left|]. split; [exact Hid|]. split; [exact Hmm|].
  split; [exact Em|]. split.
  - subst mm. apply (Hq _ eq_refl). reflexivity.
  - apply (Hy "2"%char "3"%char "001.00000000"); reflexivity.
Defined.

(** *** [get_next_passes] *)

Lemma div_by_positive (x : pyfloat) :
  F.gt x (F.of_Z 0) = true ->
  F.gt (div_by x (inject_Z 60)) (F.of_Z 0) = true.
Proof.
  destruct x as [q| | |]; simpl; try easy.
  unfold F.Qgtb. change (inject_Z 0) with 0%Q.
  intros H. apply negb_true_iff in H. apply negb_true_iff.
  destruct (Qle_bool (q / inject_Z 60) 0) eqn:E; [|reflexivity].
  apply Qle_bool_iff in E.
  assert (Hq : Qle q 0).
  { destruct (Qlt_le_dec 0 q) as [Hpos|Hle]; [exfalso|exact Hle].
    apply (Qlt_not_le 0 (q / inject_Z 60)); [|exact E].
    apply Qlt_shift_div_l; [reflexivity|]. now rewrite Qmult_0_l. }
  apply Qle_bool_iff in Hq. congruence.
Qed.

Lemma firstn_forall (A : Type) (Q : A -> Prop) (n : nat) (l : list A) :
  Forall Q l -> Forall Q (firstn n l).
Proof.
  intros H. rewrite <- (firstn_skipn n l) in H.
  now apply Forall_app in H.
Qed.

Lemma div_by_sign (x : pyfloat) :
  F.gt (div_by x (inject_Z 60)) (F.of_Z 0) = F.gt x (F.of_Z 0).
Proof.
  destruct (F.gt x (F.of_Z 0)) eqn:E; [now apply div_by_positive|].
  destruct x as [q| | |]; simpl in *; try easy.
  unfold F.Qgtb in *. change (inject_Z 0) with 0%Q in *.
  apply negb_false_iff in E. apply negb_false_iff.
  apply Qle_bool_iff in E. apply Qle_bool_iff.
  apply Qle_shift_div_r; [reflexivity|]. now rewrite Qmult_0_l.
Qed.

Lemma firstn_app_enough (A : Type) (n : nat) (l more : list A) :
  (n <= List.length l)%nat -> firstn n (l ++ more) = firstn n l.
Proof.
  intros H. rewrite firstn_app.
  replace (n - List.length l)%nat with 0%nat by lia.
  now rewrite firstn_O, app_nil_r.
Qed.

Section PassFacts.

Context {P : Propagation}.

Lemma no_pass_risen : risen no_pass.
Proof. intros H. discriminate H. Qed.

Lemma on_rise_risen (t : Time) : risen (on_rise t).
Proof. intros _. now exists (utc_iso t). Qed.

Lemma on_culmination_risen (satellite : Satellite) (observer : Observer)
    (t : Time) (current_pass p : Pass) :
  risen current_pass ->
  on_culmination satellite observer t current_pass = Ret p -> risen p.
Proof.
  intros Hr. unfold on_culmination.
  destruct (truthy current_pass) eqn:Ht.
  - destruct (Hr Ht) as [iso Hiso].
    destruct (altaz _ _ _) as [[[alt az] dist]|]; [|discriminate].
    simpl. intros [= <-] _. now exists iso.
  - now intros [= <-].
Qed.

(** A set closes a pass that has a rise time into a timed pass. *)
Lemma on_set_timed (satellite : Satellite) (observer : Observer) (t : Time)
    (current_pass p : Pass) (rise_iso : string) :
  rise_time current_pass = Some rise_iso ->
  on_set satellite observer t current_pass = Ret p ->
  timed p.
Proof.
  intros Hrise. unfold on_set. rewrite Hrise.
  destruct (parse_iso rise_iso) as [rise_dt|] eqn:Hr; [|discriminate].
  cbn [bind].
  destruct (from_datetime rise_dt); [|discriminate]. cbn [bind].
  destruct (altaz _ _ _) as [[[a1 az1] d1]|]; [|discriminate]. cbn [bind].
  destruct (altaz _ _ _) as [[[a2 az2] d2]|]; [|discriminate]. cbn [bind].
  destruct (parse_iso (utc_iso t)) as [set_dt|] eqn:Hs; [|discriminate].
  cbn [bind].
  rewrite div_by_constant by lia. cbn [bind].
  intros [= <-].
  exists rise_iso, (utc_iso t), rise_dt, set_dt. now repeat split.
Qed.

Lemma pair_events_timed (satellite : Satellite) (observer : Observer)
    (events : list (Time * Z)) :
  forall st,
    Forall timed (fst st) -> risen (snd st) ->
    Forall timed (pair_events satellite observer events st).
Proof.
  induction events as [|[t ev] events IH]; intros [passes cp] Hp Hc;
    [exact Hp|].
  cbn [pair_events].
  destruct (on_event satellite observer t ev (passes, cp)) as [st'|] eqn:E;
    [|exact Hp].
  apply IH; unfold on_event in E; cbn [fst snd] in *.
  - destruct (ev =? 0)%Z; [now injection E as <-|].
    destruct (ev =? 1)%Z.
    { destruct (on_culmination _ _ _ _); [|discriminate].
      now injection E as <-. }
    destruct (ev =? 2)%Z; [|now injection E as <-].
    destruct (truthy cp) eqn:Ht; [|now injection E as <-].
    destruct (on_set satellite observer t cp) as [p|] eqn:Hs; [|discriminate].
    injection E as <-. cbn [fst].
    apply Forall_app. split; [exact Hp|]. constructor; [|constructor].
    destruct (Hc Ht) as [iso Hiso]. now apply (on_set_timed _ _ _ _ _ _ Hiso Hs).
  - destruct (ev =? 0)%Z; [injection E as <-; apply on_rise_risen|].
    destruct (ev =? 1)%Z.
    { destruct (on_culmination _ _ _ _) as [p|] eqn:Hcul; [|discriminate].
      injection E as <-. cbn [snd].
      now apply (on_culmination_risen _ _ _ _ _ Hc Hcul). }
    destruct (ev =? 2)%Z; [|now injection E as <-].
    destruct (truthy cp) eqn:Ht; [|now injection E as <-].
    destruct (on_set satellite observer t cp); [|discriminate].
    injection E as <-. apply no_pass_risen.
Qed.

(** The passes appended earlier stay where they are. *)
Lemma on_event_prefix (satellite : Satellite) (observer : Observer)
    (t : Time) (ev : Z) (pre q : list Pass) (cp : Pass) :
  on_event satellite observer t ev (pre ++ q, cp)
  = match on_event satellite observer t ev (q, cp) with
    | Ret st' => Ret (pre ++ fst st', snd st')
    | Raise e => Raise e
    end.
Proof.
  unfold on_event. cbn [fst snd].
  destruct (ev =? 0)%Z; [reflexivity|].
  destruct (ev =? 1)%Z;
    [now destruct (on_culmination satellite observer t cp)|].
  destruct (ev =? 2)%Z; [|reflexivity].
  destruct (truthy cp); [|reflexivity].
  destruct (on_set satellite observer t cp); cbn [bind fst snd];
    [now rewrite app_assoc | reflexivity].
Qed.

Lemma pair_events_prefix (satellite : Satellite) (observer : Observer)
    (events : list (Time * Z)) :
  forall pre q cp,
    pair_events satellite observer events (pre ++ q, cp)
    = pre ++ pair_events satellite observer events (q, cp).
Proof.
  induction events as [|[t ev] events IH]; intros pre q cp;
    cbn [pair_events fst]; [reflexivity|].
  rewrite on_event_prefix.
  destruct (on_event satellite observer t ev (q, cp)) as [[q' cp']|];
    cbn [fst snd]; [apply IH | reflexivity].
Qed.

(** The loop turns the three events of a complete cycle into its pass,
    whatever was being assembled before the rise. *)
Lemma pair_events_cycle (satellite : Satellite) (observer : Observer)
    (cycle : Time * Time * Time) (p : Pass) (rest : list (Time * Z))
    (passes : list Pass) (cp : Pass) :
  cycle_pass satellite observer cycle = Ret p ->
  pair_events satellite observer (cycle_events cycle ++ rest) (passes, cp)
  = pair_events satellite observer rest (passes ++ [p], no_pass).
Proof.
  destruct cycle as [[t1 t2] t3]. unfold cycle_pass.
  destruct (altaz satellite observer t2) as [[[alt2 az2] d2]|] eqn:Hc;
    [|discriminate]. cbn [bind].
  destruct (parse_iso (utc_iso t1)) as [rise_dt|] eqn:Hr; [|discriminate].
  cbn [bind].
  destruct (from_datetime rise_dt) as [rise_t|] eqn:Hrt; [|discriminate].
  cbn [bind].
  destruct (altaz satellite observer rise_t) as [[[a1 az_rise] d1]|] eqn:Har;
    [|discriminate]. cbn [bind].
  destruct (altaz satellite observer t3) as [[[a3 az_set] d3]|] eqn:Has;
    [|discriminate]. cbn [bind].
  destruct (parse_iso (utc_iso t3)) as [set_dt|] eqn:Hs; [|discriminate].
  cbn [bind]. intros [= <-].
  cbn [cycle_events app pair_events].
  change (on_event satellite observer t1 0 (passes, cp))
    with (Ret (passes, on_rise t1)).
  cbv iota.
  unfold on_event, on_culmination.
  cbn -[F.div utc_iso]. rewrite Hc. cbn -[F.div utc_iso].
  unfold on_set.
  cbn -[F.div utc_iso]. rewrite Hr. cbn -[F.div utc_iso].
  rewrite Hrt. cbn -[F.div utc_iso]. rewrite Har. cbn -[F.div utc_iso].
  rewrite Has. cbn -[F.div utc_iso]. rewrite Hs. cbn -[F.div utc_iso].
  rewrite div_by_constant by lia. reflexivity.
Qed.

Lemma pair_events_cycles (satellite : Satellite) (observer : Observer)
    (cycles : list (Time * Time * Time)) (found : list Pass) :
  Forall2 (fun cycle p => cycle_pass satellite observer cycle = Ret p)
          cycles found ->
  forall later passes,
    pair_events satellite observer (flat_map cycle_events cycles ++ later)
                (passes, no_pass)
    = pair_events satellite observer later (passes ++ found, no_pass).
Proof.
  induction 1 as [|cycle p cycles found Hp _ IH]; intros later passes.
  - now rewrite app_nil_r.
  - cbn [flat_map]. rewrite <- app_assoc.
    rewrite (pair_events_cycle _ _ _ _ _ _ _ Hp), IH, <- app_assoc.
    reflexivity.
Qed.

(** C8. [get_next_passes] never raises and returns at most three passes,
    each with a rise time, a set time and the duration
    [(set - rise).total_seconds() / 60] of the dates of the two displayed
    times.  They are the first three passes in the order of the events:
    when the window begins with complete cycles, the result is the first
    three of the passes of those cycles followed by what the loop makes of
    the events after them, so three complete cycles decide the result
    whatever follows.  A window without events, or a search for events
    that fails, gives the empty list.  One rise, culmination, set cycle
    gives one pass with all its fields; its duration is positive exactly
    when the seconds from the displayed rise to the displayed set are. *)
Theorem next_passes_first_three (current_time : Time) (norad_id : Z)
    (lat lon alt days : pyfloat) (self : Tracker) :
  (exists passes,
      get_next_passes current_time norad_id lat lon alt days self = Ret passes /\
      (List.length passes <= 3)%nat /\
      Forall timed passes) /\
  (forall sat_data cycles found later,
      dict_get norad_id (satellites self) = Some sat_data ->
      find_events (satellite sat_data) (latlon lat lon alt) current_time
                  (F.add current_time days) (F.of_Z 10)
      = Ret (flat_map cycle_events cycles ++ later) ->
      Forall2 (fun cycle p =>
                 cycle_pass (satellite sat_data) (latlon lat lon alt) cycle
                 = Ret p)
              cycles found ->
      get_next_passes current_time norad_id lat lon alt days self
      = Ret (firstn 3
               (found ++ pair_events (satellite sat_data) (latlon lat lon alt)
                                     later ([], no_pass))) /\
      (later = [] \/ (3 <= List.length found)%nat ->
       get_next_passes current_time norad_id lat lon alt days self
       = Ret (firstn 3 found))) /\
  (forall sat_data,
      dict_get norad_id (satellites self) = Some sat_data ->
      find_events (satellite sat_data) (latlon lat lon alt) current_time
                  (F.add current_time days) (F.of_Z 10) = Ret [] \/
      raises (find_events (satellite sat_data) (latlon lat lon alt)
                          current_time (F.add current_time days) (F.of_Z 10))
      = true ->
      get_next_passes current_time norad_id lat lon alt days self = Ret []) /\
  (forall sat_data t1 t2 t3 alt2 az2 d2 rise_dt rise_t a1 az_rise d1
          a3 az_set d3 set_dt,
      dict_get norad_id (satellites self) = Some sat_data ->
      find_events (satellite sat_data) (latlon lat lon alt) current_time
                  (F.add current_time days) (F.of_Z 10)
      = Ret [(t1, 0%Z); (t2, 1%Z); (t3, 2%Z)] ->
      altaz (satellite sat_data) (latlon lat lon alt) t2
      = Ret (alt2, az2, d2) ->
      parse_iso (utc_iso t1) = Ret rise_dt ->
      from_datetime rise_dt = Ret rise_t ->
      altaz (satellite sat_data) (latlon lat lon alt) rise_t
      = Ret (a1, az_rise, d1) ->
      altaz (satellite sat_data) (latlon lat lon alt) t3
      = Ret (a3, az_set, d3) ->
      parse_iso (utc_iso t3) = Ret set_dt ->
      get_next_passes current_time norad_id lat lon alt days self
      = Ret [ {| rise_time := Some (utc_iso t1);
                 rise_azimuth := Some (Some az_rise);
                 culmination_time := Some (utc_iso t2);
                 max_elevation := Some alt2;
                 culmination_azimuth := Some az2;
                 set_time := Some (utc_iso t3);
                 set_azimuth := Some az_set;
                 duration_minutes :=
                   Some (div_by (total_seconds set_dt rise_dt)
                                (inject_Z 60)) |} ] /\
      F.gt (div_by (total_seconds set_dt rise_dt) (inject_Z 60)) (F.of_Z 0)
      = F.gt (total_seconds set_dt rise_dt) (F.of_Z 0)).
Proof.
  split; [|split; [|split]].
  - destruct (dict_get norad_id (satellites self)) as [sat_data|] eqn:Hget.
    + rewrite (get_next_passes_known _ _ _ _ _ _ _ _ Hget).
      eexists. split; [reflexivity|]. split.
      * rewrite length_firstn. lia.
      * apply firstn_forall.
        destruct (find_events _ _ _ _ _); [|constructor].
        apply pair_events_timed; [constructor | apply no_pass_risen].
    + apply dict_has_false_get in Hget.
      rewrite (get_next_passes_unknown _ _ _ _ _ _ _ Hget).
      exists []. repeat split; [simpl; lia | constructor].
  - intros sat_data cycles found later Hget Hev Hcycles.
    assert (E : get_next_passes current_time norad_id lat lon alt days self
                = Ret (firstn 3
                         (found ++ pair_events (satellite sat_data)
                                               (latlon lat lon alt) later
                                               ([], no_pass)))).
    { rewrite (get_next_passes_known _ _ _ _ _ _ _ _ Hget), Hev.
      rewrite (pair_events_cycles _ _ _ _ Hcycles later []).
      cbn [app].
      rewrite <- (app_nil_r found) at 1. now rewrite pair_events_prefix. }
    split; [exact E|]. rewrite E. intros [->|Hlen].
    + cbn [pair_events fst]. now rewrite app_nil_r.
    + now rewrite firstn_app_enough.
  - intros sat_data Hget Hev.
    rewrite (get_next_passes_known _ _ _ _ _ _ _ _ Hget).
    destruct Hev as [-> | Hev]; [reflexivity|].
    now destruct (find_events _ _ _ _ _).
  - intros sat_data t1 t2 t3 alt2 az2 d2 rise_dt rise_t a1 az_rise d1
           a3 az_set d3 set_dt Hget Hev Hc Hr Hrt Har Has Hs.
    split; [|apply div_by_sign].
    rewrite (get_next_passes_known _ _ _ _ _ _ _ _ Hget), Hev.
    rewrite <- (app_nil_r [(t1, 0%Z); (t2, 1%Z); (t3, 2%Z)]).
    change [(t1, 0%Z); (t2, 1%Z); (t3, 2%Z)]
      with (cycle_events (t1, t2, t3)).
    erewrite pair_events_cycle; [reflexivity|].
    unfold cycle_pass. rewrite Hc. cbn [bind]. rewrite Hr. cbn [bind].
    rewrite Hrt. cbn [bind]. rewrite Har. cbn [bind]. rewrite Has.
    cbn [bind]. rewrite Hs. reflexivity.
Qed.

End PassFacts.

(** On the test double: of four complete cycles the first three are
    returned, in the order of the events. *)
Lemma next_passes_first_three_witness :
  exists p1 p2 p3 p4,
    Forall2 (fun cycle p =>
               @cycle_pass Stub.lib "ISS (ZARYA)"
                           (latlon (F.of_Z 0) (F.of_Z 0) (F.of_Z 0)) cycle
               = Ret p)
            Scenes.four_cycles [p1; p2; p3; p4] /\
    @get_next_passes (Scenes.lib_of (flat_map cycle_events Scenes.four_cycles))
      (F.of_Z 0) 25544 (F.of_Z 0) (F.of_Z 0) (F.of_Z 0) (F.of_Z 7)
      (Scenes.tracker_of (flat_map cycle_events Scenes.four_cycles))
    = Ret [p1; p2; p3] /\
    duration_minutes p1 = Some (Fin (Qdiv (inject_Z 0) (inject_Z 60))) /\
    duration_minutes p2 = Some (Fin (Qdiv (inject_Z 600) (inject_Z 60))) /\
    rise_time p3 = Some "2024-01-01T00:10:00Z" /\
    p4 = p3.
Proof.
  do 4 eexists. split; [|split].
  - repeat constructor.
  - apply (proj2 (proj1 (proj2
             (@next_passes_first_three
                (Scenes.lib_of (flat_map cycle_events Scenes.four_cycles))
                (F.of_Z 0) 25544%Z (F.of_Z 0) (F.of_Z 0) (F.of_Z 0) (F.of_Z 7)
                (Scenes.tracker_of (flat_map cycle_events Scenes.four_cycles))))
             _ Scenes.four_cycles _ [] eq_refl eq_refl
             ltac:(repeat constructor))).
    left. reflexivity.
  - repeat split.
Defined.

(** A rise, a culmination and a set within one displayed second: the pass
    is complete and its duration is 0, which is not positive. *)
Lemma full_cycle_of_no_duration :
  exists p,
    @get_next_passes (Scenes.lib_of (cycle_events Scenes.brief))
      (F.of_Z 0) 25544 (F.of_Z 0) (F.of_Z 0) (F.of_Z 0) (F.of_Z 7)
      (Scenes.tracker_of (cycle_events Scenes.brief))
    = Ret [p] /\
    rise_time p = Some "2024-01-01T00:00:00Z" /\
    is_some (culmination_time p) = true /\
    set_time p = Some "2024-01-01T00:00:00Z" /\
    duration_minutes p = Some (Fin (Qdiv (inject_Z 0) (inject_Z 60))) /\
    F.gt (Fin (Qdiv (inject_Z 0) (inject_Z 60))) (F.of_Z 0) = false.
Proof.
  eexists. split; [vm_compute; reflexivity|]. repeat split.
Qed.

(* ================================================================= *)
(** * Further properties *)

(** ** The membership index *)

Lemma category_eqb_eq (a b : Category) : category_eqb a b = true <-> a = b.
Proof. destruct a, b; simpl; split; intros H; congruence. Qed.

Lemma category_eqb_refl (a : Category) : category_eqb a a = true.
Proof. now apply category_eqb_eq. Qed.

Lemma taxonomy_nodup : NoDup taxonomy.
Proof.
  unfold taxonomy.
  repeat (constructor; [simpl; intuition discriminate|]). constructor.
Qed.

Lemma taxonomy_complete (c : Category) : In c taxonomy.
Proof. destruct c; simpl; tauto. Qed.

Section IndexFacts.

Context {P : Propagation}.

(** With pairwise different keys, appending to the list of [c] touches the
    entry of [c] and no other. *)
Lemma append_member_map (c : Category) (id : Z)
    (cats : list (Category * list Z)) :
  NoDup (map fst cats) ->
  append_member c id cats
  = map (fun e => (fst e, if category_eqb (fst e) c then snd e ++ [id]
                          else snd e)) cats.
Proof.
  induction cats as [|[c' ids] cats IH]; intros Hn; [reflexivity|].
  inversion Hn as [|? ? Hnot Hn']; subst. simpl.
  destruct (category_eqb c' c) eqn:E.
  - f_equal. apply category_eqb_eq in E. subst c'.
    clear IH Hn Hn'. induction cats as [|[c2 ids2] cats IH]; [reflexivity|].
    simpl in *. destruct (category_eqb c2 c) eqn:E2.
    + apply category_eqb_eq in E2. subst c2. tauto.
    + f_equal. apply IH. tauto.
  - f_equal. now apply IH.
Qed.

Lemma append_member_keys (c : Category) (id : Z)
    (cats : list (Category * list Z)) :
  map fst (append_member c id cats) = map fst cats.
Proof.
  induction cats as [|[c' ids] cats IH]; [reflexivity|]. simpl.
  destruct (category_eqb c' c); simpl; [reflexivity|]. now rewrite IH.
Qed.

Lemma members_cons (c : Category) (e : Z * SatData) (d : dict SatData) :
  members c (e :: d)
  = if category_eqb (category (snd e)) c then fst e :: members c d
    else members c d.
Proof. unfold members. simpl. now destruct (category_eqb _ c). Qed.

Lemma members_snoc (c : Category) (e : Z * SatData) (d : dict SatData) :
  members c (d ++ [e])
  = if category_eqb c (category (snd e)) then members c d ++ [fst e]
    else members c d.
Proof.
  unfold members, keys. rewrite filter_app, map_app. simpl.
  destruct (category_eqb c (category (snd e))) eqn:E1;
    destruct (category_eqb (category (snd e)) c) eqn:E2; simpl;
    rewrite ?app_nil_r; try reflexivity.
  - apply category_eqb_eq in E1. subst c.
    now rewrite category_eqb_refl in E2.
  - apply category_eqb_eq in E2. subst c.
    now rewrite category_eqb_refl in E1.
Qed.

(** The loop of [_update_category_lists] over the catalog. *)
Lemma fold_append_member (todo : dict SatData) :
  forall (done : dict SatData) (ks : list Category),
    NoDup ks ->
    fold_left (fun cats e => append_member (category (snd e)) (fst e) cats)
              todo (map (fun c => (c, members c done)) ks)
    = map (fun c => (c, members c (done ++ todo))) ks.
Proof.
  induction todo as [|e todo IH]; intros done ks Hks; simpl.
  - now rewrite app_nil_r.
  - rewrite append_member_map by (rewrite map_map, map_id; exact Hks).
    rewrite map_map. simpl.
    rewrite (map_ext _ (fun c => (c, members c (done ++ [e])))).
    + rewrite IH by exact Hks. now rewrite <- app_assoc.
    + intros c. now rewrite members_snoc.
Qed.

(** [_update_category_lists] rebuilds every list from the catalog alone:
    what the lists held before does not matter. *)
Lemma update_category_lists_index (self : Tracker) :
  NoDup (map fst (categories self)) ->
  categories (_update_category_lists self)
  = map (fun c => (c, members c (satellites self)))
        (map fst (categories self)).
Proof.
  intros Hn. unfold _update_category_lists. cbn [categories].
  pose proof (fold_append_member (satellites self) [] _ Hn) as H.
  simpl app in H. rewrite <- H. f_equal. rewrite map_map. reflexivity.
Qed.

Lemma index_of_keys (d : dict SatData) : map fst (index_of d) = taxonomy.
Proof. unfold index_of. rewrite map_map. apply map_id. Qed.

Lemma load_fallback_data_index (self : Tracker) :
  categories self = index_of (satellites self) ->
  categories (_load_fallback_data self)
  = index_of (satellites (_load_fallback_data self)).
Proof.
  intros H. unfold _load_fallback_data.
  destruct (EarthSatellite iss_tle1 iss_tle2 "ISS (ZARYA)") as [iss|];
    [|exact H].
  cbn [bind try_except]. rewrite update_category_lists_index.
  - cbn [categories satellites _update_category_lists].
    now rewrite H, index_of_keys.
  - cbn [categories]. rewrite H, index_of_keys. apply taxonomy_nodup.
Qed.

(** The index of a reachable tracker is the index of its catalog. *)
Lemma reachable_index (self : Tracker) :
  reachable self -> categories self = index_of (satellites self).
Proof.
  intros Hreach. induction Hreach as [|http_get sets t self Hreach IH].
  - reflexivity.
  - unfold load_tle_data_from.
    destruct (all_satellites (load_source_sets http_get sets ingest_start))
      as [|e d] eqn:E; cbn [fst].
    + now apply load_fallback_data_index.
    + rewrite update_category_lists_index.
      * cbn [categories satellites _update_category_lists].
        now rewrite IH, index_of_keys.
      * cbn [categories]. rewrite IH, index_of_keys. apply taxonomy_nodup.
Qed.

Lemma members_in (c : Category) (id : Z) (d : dict SatData) :
  In id (members c d) <->
  exists sat_data, In (id, sat_data) d /\ category sat_data = c.
Proof.
  unfold members, keys. rewrite in_map_iff. split.
  - intros ([k v] & <- & Hin). apply filter_In in Hin as [Hin Hc].
    exists v. split; [exact Hin|]. now apply category_eqb_eq.
  - intros (v & Hin & Hc). exists (id, v). split; [reflexivity|].
    apply filter_In. split; [exact Hin|]. now apply category_eqb_eq.
Qed.

Lemma keys_filter_nodup (V : Type) (f : Z * V -> bool) (d : dict V) :
  NoDup (keys d) -> NoDup (keys (filter f d)).
Proof.
  unfold keys. induction d as [|e d IH]; simpl; intros Hn; [constructor|].
  inversion Hn as [|? ? Hnot Hn']; subst.
  destruct (f e); simpl; [|now apply IH].
  constructor; [|now apply IH].
  intros Hin. apply Hnot. apply in_map_iff in Hin as (e' & He' & Hin).
  apply filter_In in Hin as [Hin _]. apply in_map_iff. now exists e'.
Qed.

Lemma members_total (d : dict SatData) :
  list_sum (map (fun c => List.length (members c d)) taxonomy)
  = List.length d.
Proof.
  induction d as [|e d IH]; [reflexivity|].
  rewrite (map_ext _ (fun c =>
             (if category_eqb (category (snd e)) c then 1 else 0)
             + List.length (members c d))).
  - assert (Hsplit : forall (f g : Category -> nat) (l : list Category),
               list_sum (map (fun c => f c + g c) l)
               = list_sum (map f l) + list_sum (map g l)).
    { intros f g l. induction l as [|c l IHl]; simpl; [reflexivity|].
      rewrite IHl. lia. }
    rewrite Hsplit, IH. simpl List.length. f_equal.
    destruct (category (snd e)); reflexivity.
  - intros c. rewrite members_cons.
    now destruct (category_eqb (category (snd e)) c).
Qed.

End IndexFacts.
(** ** What every reachable catalog keeps *)

Section ReachableFacts.

Context {P : Propagation}.

Lemma records_of_lines_forall (Q : Z * SatData -> Prop) :
  (forall a b c r, read_triplet a b c = Some r -> Q r) ->
  forall lines, Forall Q (records_of_lines lines).
Proof.
  intros HQ lines.
  induction lines as [| a | a b | a b c rest IH] using triplet_ind;
    try constructor.
  simpl. destruct (read_triplet a b c) as [r|] eqn:E; [|assumption].
  constructor; [|assumption]. now apply HQ in E.
Qed.

Lemma records_of_urls_forall (Q : Z * SatData -> Prop)
    (http_get : string -> res string) :
  (forall a b c r, read_triplet a b c = Some r -> Q r) ->
  forall urls, Forall Q (records_of_urls http_get urls).
Proof.
  intros HQ urls. induction urls as [|u urls IH]; [constructor|].
  rewrite records_of_urls_cons. apply Forall_app. split; [|assumption].
  unfold valid_records. destruct (http_get u); simpl; [|constructor].
  now apply records_of_lines_forall.
Qed.

(** A property of the records read and of the built-in record is a
    property of every record of every reachable catalog. *)
Lemma reachable_forall (Q : Z * SatData -> Prop) :
  (forall a b c r, read_triplet a b c = Some r -> Q r) ->
  (forall iss, Q (fallback_entry iss)) ->
  forall self, reachable self -> Forall Q (satellites self).
Proof.
  intros Hread Hfall self Hreach.
  induction Hreach as [|http_get sets t self Hreach IH]; [constructor|].
  destruct (load_tle_data_from_satellites http_get sets t self) as [-> _].
  destruct (load_source_sets_catalog http_get sets) as [E _].
  destruct (all_satellites (load_source_sets http_get sets ingest_start))
    as [|e d].
  - rewrite load_fallback_data_satellites.
    destruct (EarthSatellite iss_tle1 iss_tle2 "ISS (ZARYA)") as [iss|];
      [|exact IH].
    constructor; [apply Hfall | constructor].
  - rewrite E. apply absorb_forall; [constructor|].
    now apply records_of_urls_forall.
Qed.

Lemma reachable_keys_nodup (self : Tracker) :
  reachable self -> NoDup (keys (satellites self)).
Proof.
  intros Hreach.
  induction Hreach as [|http_get sets t self Hreach IH]; [constructor|].
  destruct (load_tle_data_from_satellites http_get sets t self) as [-> _].
  pose proof (loaded_catalog_ok http_get sets) as [Hn _].
  destruct (all_satellites (load_source_sets http_get sets ingest_start));
    [|exact Hn].
  rewrite load_fallback_data_satellites.
  destruct (EarthSatellite iss_tle1 iss_tle2 "ISS (ZARYA)") as [iss|];
    [|exact IH].
  repeat constructor. easy.
Qed.

Lemma read_triplet_consistent (a b c : string) (r : Z * SatData) :
  read_triplet a b c = Some r -> entry_consistent r.
Proof.
  unfold read_triplet.
  destruct (valid_tle _ _); [|discriminate].
  destruct (EarthSatellite _ _ _); [|discriminate]. simpl.
  destruct (Py.int _) as [id|] eqn:E; [|discriminate]. simpl.
  intros [= <-]. split; [exact E | reflexivity].
Qed.

Lemma fallback_entry_consistent (iss : Satellite) :
  entry_consistent (fallback_entry iss).
Proof. split; reflexivity. Qed.

Lemma reachable_consistent (self : Tracker) :
  reachable self -> Forall entry_consistent (satellites self).
Proof.
  apply reachable_forall.
  - apply read_triplet_consistent.
  - apply fallback_entry_consistent.
Qed.

(** In a dictionary with pairwise different keys, lookup finds exactly
    the entries. *)
Lemma dict_get_iff (V : Type) (k : Z) (v : V) (d : dict V) :
  NoDup (keys d) -> (dict_get k d = Some v <-> In (k, v) d).
Proof.
  intros Hn. split; [|now apply dict_get_in].
  clear Hn. induction d as [|[k' v'] d IH]; simpl; [discriminate|].
  destruct (Z.eqb_spec k' k) as [->|_].
  - intros [= ->]. now left.
  - intros H. right. now apply IH.
Qed.

(** X1. [_update_category_lists] rebuilds the list of every category from
    the catalog alone, whatever the lists held before: the ids of the
    records of that category, in the order of the catalog.  On every
    tracker reachable by loads the index is therefore the partition of the
    catalog by category: an id is in the list of [c] exactly when the
    catalog has a record of it with category [c], no list repeats an id,
    and no id is in two lists. *)
Theorem category_index_is_partition :
  (forall self : Tracker,
      NoDup (map fst (categories self)) ->
      categories (_update_category_lists self)
      = map (fun c => (c, members c (satellites self)))
            (map fst (categories self))) /\
  (forall self : Tracker,
      reachable self ->
      categories self
      = map (fun c => (c, members c (satellites self))) taxonomy /\
      (forall c id,
          In id (members c (satellites self)) <->
          exists sat_data,
            dict_get id (satellites self) = Some sat_data /\
            category sat_data = c) /\
      (forall c, NoDup (members c (satellites self))) /\
      (forall c1 c2 id,
          In id (members c1 (satellites self)) ->
          In id (members c2 (satellites self)) -> c1 = c2)).
Proof.
  split; [apply update_category_lists_index|].
  intros self Hreach.
  pose proof (reachable_keys_nodup self Hreach) as Hn.
  assert (Hin : forall c id,
             In id (members c (satellites self)) <->
             exists sat_data,
               dict_get id (satellites self) = Some sat_data /\
               category sat_data = c).
  { intros c id. rewrite members_in.
    split; intros (v & Hv & Hc); exists v; (split; [|exact Hc]);
      now apply (dict_get_iff _ id v _ Hn). }
  split; [now apply reachable_index|]. split; [exact Hin|]. split.
  - intros c. now apply keys_filter_nodup.
  - intros c1 c2 id H1 H2.
    apply Hin in H1 as (v1 & Hv1 & <-). apply Hin in H2 as (v2 & Hv2 & <-).
    congruence.
Qed.

(** X2. On every reachable tracker [get_satellite_categories] lists the
    23 categories of the taxonomy in its order, each with its display name
    and colour, the ids of the catalog records of the category and their
    number; the counts add up to the size of the catalog. *)
Theorem category_summary_counts (self : Tracker) :
  reachable self ->
  get_satellite_categories self
  = map (fun c =>
           (c, {| summary_name := category_name c;
                  summary_color := category_color c;
                  summary_count :=
                    Z.of_nat (List.length (members c (satellites self)));
                  summary_satellites := members c (satellites self) |}))
        taxonomy /\
  list_sum (map (fun e => Z.to_nat (summary_count (snd e)))
                (get_satellite_categories self))
  = List.length (satellites self).
Proof.
  intros Hreach.
  assert (E : get_satellite_categories self
              = map (fun c =>
                       (c, {| summary_name := category_name c;
                              summary_color := category_color c;
                              summary_count :=
                                Z.of_nat (List.length
                                            (members c (satellites self)));
                              summary_satellites :=
                                members c (satellites self) |}))
                    taxonomy).
  { unfold get_satellite_categories.
    rewrite (reachable_index self Hreach). unfold index_of.
    now rewrite map_map. }
  split; [exact E|]. rewrite E, map_map. cbn [snd summary_count].
  rewrite (map_ext _ (fun c => List.length (members c (satellites self))))
    by (intros c; apply Nat2Z.id).
  apply members_total.
Qed.

Lemma first_match_range (rs : list rule) (l : string) (id : Z) :
  first_match rs l id = Other \/ In (first_match rs l id) (map snd rs).
Proof.
  induction rs as [|r rs IH]; simpl; [now left|].
  destruct (rule_matches r l id); [right; now left|].
  destruct IH as [IH|IH]; [now left | right; now right].
Qed.

Lemma categorize_range (n : string) (id : Z) :
  _categorize_satellite n id <> Debris_Tracking /\
  _categorize_satellite n id <> LEO_Constellation /\
  _categorize_satellite n id <> Commercial.
Proof.
  rewrite categorize_is_first_match.
  destruct (first_match_range rule_table (Py.lower n) id) as [->|H].
  - repeat split; discriminate.
  - set (c := first_match rule_table (Py.lower n) id) in *.
    cbn [map snd rule_table In] in H.
    repeat split; intros E; rewrite E in H; intuition discriminate.
Qed.

Lemma members_none (c : Category) (d : dict SatData) :
  Forall (fun e => category (snd e) <> c) d -> members c d = [].
Proof.
  induction d as [|e d IH]; intros H; [reflexivity|].
  inversion H as [|? ? He Hd]; subst. rewrite members_cons.
  destruct (category_eqb (category (snd e)) c) eqn:E; [|now apply IH].
  apply category_eqb_eq in E. contradiction.
Qed.

(** X3. The categorizer has no rule for three categories of the
    taxonomy: it never answers Debris_Tracking, LEO_Constellation or
    Commercial.  The list of each of the three is therefore empty on every
    reachable tracker, and its count in [get_satellite_categories] is 0. *)
Theorem three_categories_never_assigned :
  (forall n id,
      _categorize_satellite n id <> Debris_Tracking /\
      _categorize_satellite n id <> LEO_Constellation /\
      _categorize_satellite n id <> Commercial) /\
  (forall (self : Tracker) c,
      reachable self ->
      c = Debris_Tracking \/ c = LEO_Constellation \/ c = Commercial ->
      members c (satellites self) = [] /\
      In (c, {| summary_name := category_name c;
                summary_color := category_color c;
                summary_count := 0;
                summary_satellites := [] |})
         (get_satellite_categories self)).
Proof.
  split; [apply categorize_range|].
  intros self c Hreach Hc.
  assert (Hnone : members c (satellites self) = []).
  { apply members_none.
    pose proof (reachable_consistent self Hreach) as Hcons.
    rewrite Forall_forall in *. intros e He.
    destruct (Hcons e He) as [_ ->].
    destruct (categorize_range (name (snd e)) (fst e)) as (H1 & H2 & H3).
    destruct Hc as [->|[->| ->]]; assumption. }
  split; [exact Hnone|].
  unfold get_satellite_categories.
  rewrite (reachable_index self Hreach). unfold index_of. rewrite map_map.
  apply in_map_iff. exists c. cbn [fst snd]. rewrite Hnone.
  split; [reflexivity | apply taxonomy_complete].
Qed.

(** X4. Every record of every reachable catalog agrees with its own
    lines: the key it is stored under is [int] of characters 2 to 6 of its
    first line, its category is what the categorizer answers for its name
    and key, and looking its key up gives the record back. *)
Theorem stored_records_consistent (self : Tracker) (e : Z * SatData) :
  reachable self ->
  In e (satellites self) ->
  Py.int (Py.slice (tle_line1 (snd e)) 2 7) = Ret (fst e) /\
  category (snd e) = _categorize_satellite (name (snd e)) (fst e) /\
  dict_get (fst e) (satellites self) = Some (snd e).
Proof.
  intros Hreach He.
  pose proof (reachable_consistent self Hreach) as Hcons.
  rewrite Forall_forall in Hcons. destruct (Hcons e He) as [H1 H2].
  split; [exact H1|]. split; [exact H2|].
  apply dict_get_in; [now apply reachable_keys_nodup|]. now destruct e.
Qed.

End ReachableFacts.
(** ** The requests of a load and the refresh policy *)

Section RequestFacts.

Context {P : Propagation}.
Variable http_get : string -> res string.

Local Open Scope Z_scope.

Lemma load_source_sets_full (sets : list (list string)) (acc : Ingest) :
  ceiling <= satellite_count acc -> load_source_sets http_get sets acc = acc.
Proof.
  intros H. destruct sets as [|g sets]; [reflexivity|]. simpl.
  apply Z.leb_le in H. now rewrite H.
Qed.

(** The requests of the loop are the endpoints in their order, from the
    first one on without a gap; endpoints are left out only once a record
    is held. *)
Lemma load_source_sets_requests (sets : list (list string)) :
  forall acc : Ingest,
    counted acc ->
    exists asked rest,
      List.concat sets = asked ++ rest /\
      requested (load_source_sets http_get sets acc) = requested acc ++ asked /\
      (rest = [] \/
       0 < Z.of_nat (List.length
                       (all_satellites (load_source_sets http_get sets acc)))).
Proof.
  induction sets as [|g sets IH]; intros acc Hc.
  - exists [], []. simpl. rewrite app_nil_r. auto.
  - cbn [load_source_sets].
    destruct (Z.leb_spec ceiling (satellite_count acc)) as [Hfull|Hroom].
    { exists [], (List.concat (g :: sets)). rewrite app_nil_r.
      repeat split. right. red in Hc. unfold ceiling in Hfull. lia. }
    destruct (load_urls_spec http_get g acc 0 Hc)
      as (att & skip & Hsplit & [Hd [Hr Hc1]] & _ & Hstop & Hle & Hlt).
    set (st1 := load_urls http_get g (acc, 0)) in *.
    destruct (Z.ltb_spec 0 (snd st1)) as [Hpos|Hzero].
    + exists att, (skip ++ List.concat sets). repeat split.
      * simpl. now rewrite Hsplit, <- app_assoc.
      * exact Hr.
      * right. apply Hlt in Hpos. lia.
    + destruct Hstop as [->|Hstop].
      * rewrite app_nil_r in Hsplit. subst att.
        destruct (IH (fst st1) Hc1) as (asked & rest & Hcat & Hreq & Hrest).
        exists (g ++ asked), rest. repeat split.
        -- simpl. now rewrite Hcat, app_assoc.
        -- now rewrite Hreq, Hr, app_assoc.
        -- exact Hrest.
      * rewrite load_source_sets_full
          by (red in Hc1; rewrite Hc1; exact Hstop).
        exists att, (skip ++ List.concat sets). repeat split.
        -- simpl. now rewrite Hsplit, <- app_assoc.
        -- exact Hr.
        -- right. unfold ceiling in Hstop. lia.
Qed.

(** A successful group somewhere gives a record. *)
Lemma some_successful_some_record (sets : list (list string)) :
  existsb (successful http_get) sets = true ->
  all_satellites (load_source_sets http_get sets ingest_start) <> [].
Proof.
  intros H.
  destruct (first_successful_split http_get sets H)
    as (pre & g & post & -> & Hpre & Hg).
  pose proof (load_source_sets_priority http_get g post Hg pre [] Hpre) as E.
  change (entering []) with ingest_start in E. rewrite E.
  destruct (load_urls_spec http_get g (entering ([] ++ List.concat pre)) 0
              eq_refl) as (_ & _ & _ & [Hd _] & _).
  rewrite Hd. apply absorb_nonempty. now apply successful_some_record.
Qed.

Lemma none_successful_no_record (sets : list (list string)) :
  existsb (successful http_get) sets = false ->
  all_satellites (load_source_sets http_get sets ingest_start) = [].
Proof.
  intros H.
  destruct (load_source_sets_catalog http_get sets) as [-> Hin].
  rewrite no_record_anywhere; [reflexivity|].
  intros u Hu. apply Hin in Hu. apply in_concat in Hu as (g & Hg & Hu).
  apply yields_false.
  destruct (yields http_get u) eqn:E; [|reflexivity].
  assert (existsb (successful http_get) sets = true).
  { apply existsb_exists. exists g. split; [exact Hg|].
    apply existsb_exists. now exists u. }
  congruence.
Qed.

Lemma unsuccessful_requests_all (sets : list (list string)) (t : pyfloat)
    (self : Tracker) :
  existsb (successful http_get) sets = false ->
  snd (load_tle_data_from http_get sets t self) = List.concat sets.
Proof.
  intros Hnone.
  destruct (load_source_sets_requests sets ingest_start ingest_start_counted)
    as (asked & rest & Hcat & Hreq & Hrest).
  destruct (load_tle_data_from_satellites http_get sets t self) as [_ ->].
  simpl in Hreq. rewrite Hreq, Hcat.
  destruct Hrest as [->|Hpos]; [now rewrite app_nil_r|].
  rewrite (none_successful_no_record sets Hnone) in Hpos. simpl in Hpos. lia.
Qed.

(** X5. A load requests the endpoints of the source groups in their
    order, each at most once and without a gap: the requests made are a
    prefix of the list of all endpoints.  When no endpoint yields a record
    the prefix is the whole list, every endpoint of every group having
    been tried; endpoints are left untried only when the catalog got a
    record. *)
Theorem requests_are_a_prefix (sets : list (list string)) (t : pyfloat)
    (self : Tracker) :
  exists untried,
    List.concat sets
    = snd (load_tle_data_from http_get sets t self) ++ untried /\
    (existsb (successful http_get) sets = false -> untried = []) /\
    (untried <> [] ->
     existsb (successful http_get) sets = true /\
     satellites (fst (load_tle_data_from http_get sets t self))
     = all_satellites (load_source_sets http_get sets ingest_start)).
Proof.
  destruct (load_source_sets_requests sets ingest_start ingest_start_counted)
    as (asked & rest & Hcat & Hreq & Hrest).
  simpl in Hreq.
  destruct (load_tle_data_from_satellites http_get sets t self) as [Hsat Hsnd].
  exists rest. rewrite Hsnd, Hreq. split; [exact Hcat|]. split.
  - intros Hnone. destruct Hrest as [->|Hpos]; [reflexivity|].
    rewrite (none_successful_no_record sets Hnone) in Hpos. simpl in Hpos. lia.
  - intros Hrest'. destruct Hrest as [->|Hpos]; [contradiction|].
    destruct (existsb (successful http_get) sets) eqn:E.
    + split; [reflexivity|]. rewrite Hsat.
      destruct (all_satellites _); [simpl in Hpos; lia | reflexivity].
    + rewrite (none_successful_no_record sets E) in Hpos. simpl in Hpos. lia.
Qed.

(** *** The clock of the refresh policy *)

Lemma load_fallback_data_last_update (self : Tracker) :
  last_update (_load_fallback_data self) = last_update self /\
  update_interval (_load_fallback_data self) = update_interval self.
Proof.
  unfold _load_fallback_data.
  now destruct (EarthSatellite iss_tle1 iss_tle2 "ISS (ZARYA)").
Qed.

Lemma load_tle_data_from_last_update (sets : list (list string))
    (t : pyfloat) (self : Tracker) :
  last_update (fst (load_tle_data_from http_get sets t self))
  = (if existsb (successful http_get) sets then Some t else last_update self)
  /\ update_interval (fst (load_tle_data_from http_get sets t self))
     = update_interval self.
Proof.
  unfold load_tle_data_from.
  destruct (existsb (successful http_get) sets) eqn:E.
  - pose proof (some_successful_some_record sets E) as Hne.
    destruct (all_satellites _); [contradiction|]. now split.
  - rewrite (none_successful_no_record sets E). cbn [fst].
    apply load_fallback_data_last_update.
Qed.

(** X6. Only a load in which a source yields a record sets the time of
    the last update (to the clock of that load); a load that falls back
    leaves it as it was, and no load changes the interval.  So a tracker
    whose loads have all fallen back stays due for ever:
    [get_satellite_positions] then loads again on every call, and while no
    source yields it requests every endpoint each time. *)
Theorem fallback_stays_due (sets : list (list string)) (t : pyfloat)
    (self : Tracker) :
  last_update (fst (load_tle_data_from http_get sets t self))
  = (if existsb (successful http_get) sets then Some t else last_update self)
  /\
  update_interval (fst (load_tle_data_from http_get sets t self))
  = update_interval self /\
  (last_update self = None ->
   forall time_time current_time,
     _should_update_tle time_time self = true /\
     exists out,
       get_satellite_positions http_get time_time current_time self
       = Ret (load_tle_data http_get time_time self, out)) /\
  (last_update self = None ->
   existsb (successful http_get) tle_source_sets = false ->
   forall time_time,
     snd (load_tle_data http_get time_time self) = List.concat tle_source_sets
     /\ last_update (fst (load_tle_data http_get time_time self)) = None).
Proof.
  destruct (load_tle_data_from_last_update sets t self) as [H1 H2].
  split; [exact H1|]. split; [exact H2|]. split.
  - intros Hnone time_time current_time.
    assert (Hdue : _should_update_tle time_time self = true).
    { unfold _should_update_tle. now rewrite Hnone. }
    split; [exact Hdue|].
    rewrite get_satellite_positions_result, Hdue. now eexists.
  - intros Hnone Hoff time_time. unfold load_tle_data. split.
    + now apply unsuccessful_requests_all.
    + destruct (load_tle_data_from_last_update tle_source_sets time_time self)
        as [-> _].
      now rewrite Hoff.
Qed.

End RequestFacts.
(** ** Details and positions of one record *)

Lemma lt_1000_lt_2000 (x : pyfloat) :
  F.lt x (F.of_Z 1000) = true -> F.lt x (F.of_Z 2000) = true.
Proof.
  destruct x as [q| | |]; simpl; try easy.
  unfold F.Qgtb. intros H. apply negb_true_iff in H. apply negb_true_iff.
  destruct (Qle_bool (inject_Z 2000) q) eqn:E; [|reflexivity].
  apply Qle_bool_iff in E.
  assert (Hle : Qle (inject_Z 1000) q).
  { eapply Qle_trans; [|exact E]. unfold Qle, inject_Z. simpl. lia. }
  apply Qle_bool_iff in Hle. congruence.
Qed.

Section DetailFacts.

Context {P : Propagation}.
Variable http_get : string -> res string.

(** Everything a detail record holds, in terms of its entry. *)
Lemma detail_record_fields (current_time : Time) (norad_id : Z)
    (sat_data : SatData) (d : Detail) :
  detail_record current_time norad_id sat_data = Ret d ->
  exists geocentric sp velocity inclination mean_motion,
    sat_at (satellite sat_data) current_time = Ret geocentric /\
    subpoint geocentric = Ret sp /\
    velocity_at (satellite sat_data) current_time = Ret velocity /\
    Py.float (Py.slice (tle_line2 sat_data) 8 16) = Ret inclination /\
    Py.float (Py.slice (tle_line2 sat_data) 52 63) = Ret mean_motion /\
    period_of mean_motion = Ret (orbit_period (detail_orbit d)) /\
    d = {| detail_norad_id := norad_id;
           detail_name := name sat_data;
           detail_category := category sat_data;
           detail_orbit :=
             {| orbit_altitude := elevation_km sp;
                orbit_inclination := inclination;
                orbit_period := orbit_period (detail_orbit d);
                orbit_velocity := div_by velocity (inject_Z 1000);
                orbit_type :=
                  if F.lt (elevation_km sp) (F.of_Z 2000)
                  then "LEO (Low Earth Orbit)"
                  else if F.lt (elevation_km sp) (F.of_Z 35000)
                       then "MEO (Medium Earth Orbit)"
                       else "GEO (Geostationary Orbit)" |};
           detail_position :=
             {| position_latitude := latitude_degrees sp;
                position_longitude := longitude_degrees sp;
                position_country :=
                  _get_country_from_satellite (name sat_data) norad_id;
                position_visibility :=
                  if F.lt (elevation_km sp) (F.of_Z 1000) then "Visible"
                  else "Telescope Required" |};
           detail_technical :=
             {| technical_norad_id := norad_id;
                technical_launch_date :=
                  _extract_launch_date (Py.slice (tle_line1 sat_data) 18 32);
                technical_type := _get_satellite_type (category sat_data);
                technical_agency :=
                  _get_agency_from_satellite (name sat_data)
                                             (category sat_data);
                technical_status :=
                  if F.gt mean_motion (F.of_Z 0) then "Active"
                  else "Inactive" |};
           detail_tle_data :=
             {| tle_data_line1 := tle_line1 sat_data;
                tle_data_line2 := tle_line2 sat_data;
                tle_data_epoch := Py.slice (tle_line1 sat_data) 18 32 |} |}.
Proof.
  unfold detail_record.
  destruct (sat_at _ _) as [g|] eqn:Hg; [|discriminate]. cbn [bind].
  destruct (subpoint g) as [sp|] eqn:Hsp; [|discriminate]. cbn [bind].
  destruct (velocity_at _ _) as [v|] eqn:Hv; [|discriminate]. cbn [bind].
  destruct (Py.float (Py.slice (tle_line2 sat_data) 8 16)) as [inc|] eqn:Hi;
    [|discriminate]. cbn [bind].
  destruct (Py.float ("0." ++ _)) as [ecc|]; [|discriminate]. cbn [bind].
  destruct (Py.float (Py.slice (tle_line2 sat_data) 34 42)) as [arg|];
    [|discriminate]. cbn [bind].
  destruct (Py.float (Py.slice (tle_line2 sat_data) 43 51)) as [ma|];
    [|discriminate]. cbn [bind].
  destruct (Py.float (Py.slice (tle_line2 sat_data) 52 63)) as [mm|] eqn:Hm;
    [|discriminate]. cbn [bind].
  destruct (period_of mm) as [p|] eqn:Hp; [|discriminate]. cbn [bind].
  rewrite div_by_constant by lia. cbn [bind].
  intros [= <-]. exists g, sp, v, inc, mm.
  repeat (split; [first [reflexivity | assumption | exact Hp]|]).
  reflexivity.
Qed.

Lemma period_of_cases (mean_motion : pyfloat) (p : pynum) :
  period_of mean_motion = Ret p ->
  (F.gt mean_motion (F.of_Z 0) = true /\ exists f, p = PFloat f) \/
  (F.gt mean_motion (F.of_Z 0) = false /\ p = PInt 0).
Proof.
  unfold period_of. destruct (F.gt mean_motion (F.of_Z 0)).
  - destruct (F.div _ _) as [f|]; [|discriminate]. simpl.
    intros [= <-]. left. split; [reflexivity | now exists f].
  - intros [= <-]. now right.
Qed.

(** X8. A detail record is consistent in itself: it carries the id asked
    for, twice, and the name, category and lines of the stored record; its
    epoch is characters 18 to 31 of the first line; the visibility is
    "Visible" only in a low orbit; and the status is "Active" exactly when
    the period is a quotient, "Inactive" exactly when it is the integer 0. *)
Theorem detail_is_consistent (current_time : Time) (norad_id : Z)
    (self : Tracker) (d : Detail) :
  get_satellite_details current_time norad_id self = Ret (Some d) ->
  exists sat_data,
    dict_get norad_id (satellites self) = Some sat_data /\
    detail_norad_id d = norad_id /\
    technical_norad_id (detail_technical d) = norad_id /\
    detail_name d = name sat_data /\
    detail_category d = category sat_data /\
    technical_type (detail_technical d)
    = _get_satellite_type (category sat_data) /\
    tle_data_line1 (detail_tle_data d) = tle_line1 sat_data /\
    tle_data_line2 (detail_tle_data d) = tle_line2 sat_data /\
    tle_data_epoch (detail_tle_data d)
    = Py.slice (tle_line1 sat_data) 18 32 /\
    (position_visibility (detail_position d) = "Visible" ->
     orbit_type (detail_orbit d) = "LEO (Low Earth Orbit)") /\
    (technical_status (detail_technical d) = "Active" <->
     exists f, orbit_period (detail_orbit d) = PFloat f) /\
    (technical_status (detail_technical d) = "Inactive" <->
     orbit_period (detail_orbit d) = PInt 0).
Proof.
  intros Hres.
  unfold get_satellite_details in Hres.
  destruct (dict_has norad_id (satellites self)); [|discriminate]. simpl in Hres.
  destruct (dict_get norad_id (satellites self)) as [sat_data|];
    [|discriminate].
  destruct (detail_record current_time norad_id sat_data) as [d'|] eqn:Hd;
    [|discriminate].
  simpl in Hres. injection Hres as ->.
  destruct (detail_record_fields _ _ _ _ Hd)
    as (g & sp & v & inc & mm & _ & _ & _ & _ & _ & Hp & E).
  exists sat_data. split; [reflexivity|].
  set (p := orbit_period (detail_orbit d)) in *.
  apply period_of_cases in Hp.
  rewrite E. cbn -[F.lt F.gt F.of_Z].
  repeat (split; [reflexivity|]).
  split; [|split].
  - destruct (F.lt (elevation_km sp) (F.of_Z 1000)) eqn:E1;
      intros H; [|discriminate H].
    now rewrite (lt_1000_lt_2000 _ E1).
  - destruct Hp as [[-> [f ->]]|[-> ->]].
    + split; [now exists f | reflexivity].
    + split; [discriminate | now intros [f Hf]].
  - destruct Hp as [[-> [f ->]]|[-> ->]].
    + split; discriminate.
    + split; reflexivity.
Qed.

(** X9. Details and positions agree.  When [get_satellite_details]
    returns a detail record for an id, the position of the same stored
    record at the same time can be computed too, and it has the same name,
    category, latitude, longitude, altitude, period and launch date; the
    velocity of the details is the velocity of the position over 1000. *)
Theorem details_agree_with_positions (current_time : Time) (norad_id : Z)
    (self : Tracker) (d : Detail) :
  get_satellite_details current_time norad_id self = Ret (Some d) ->
  exists sat_data r,
    dict_get norad_id (satellites self) = Some sat_data /\
    position_record current_time (norad_id, sat_data) = Ret r /\
    pos_norad_id r = detail_norad_id d /\
    pos_name r = detail_name d /\
    pos_category r = detail_category d /\
    pos_latitude r = position_latitude (detail_position d) /\
    pos_longitude r = position_longitude (detail_position d) /\
    pos_altitude r = orbit_altitude (detail_orbit d) /\
    pos_orbital_period r = orbit_period (detail_orbit d) /\
    pos_launch_date r = technical_launch_date (detail_technical d) /\
    orbit_velocity (detail_orbit d) = div_by (pos_velocity r) (inject_Z 1000).
Proof.
  intros Hres.
  unfold get_satellite_details in Hres.
  destruct (dict_has norad_id (satellites self)); [|discriminate]. simpl in Hres.
  destruct (dict_get norad_id (satellites self)) as [sat_data|];
    [|discriminate].
  destruct (detail_record current_time norad_id sat_data) as [d'|] eqn:Hd;
    [|discriminate].
  simpl in Hres. injection Hres as ->.
  destruct (detail_record_fields _ _ _ _ Hd)
    as (g & sp & v & inc & mm & Hg & Hsp & Hv & _ & Hmm & Hp & E).
  exists sat_data. eexists. split; [reflexivity|]. split.
  - unfold position_record. cbn [fst snd].
    rewrite Hg. cbn [bind]. rewrite Hsp. cbn [bind]. rewrite Hv. cbn [bind].
    rewrite Hmm. cbn [bind]. rewrite Hp. cbn [bind]. reflexivity.
  - rewrite E. cbn. now repeat split.
Qed.

(** X10. On a reachable tracker [get_satellite_positions] returns each
    satellite at most once and in the order of the catalog: the ids of the
    result are the keys of the entries whose position can be computed, and
    no id is repeated. *)
Theorem positions_follow_the_catalog (time_time : pyfloat)
    (current_time : Time) (self : Tracker) (after : Tracker * list string)
    (out : list PositionRecord) :
  reachable self ->
  get_satellite_positions http_get time_time current_time self
  = Ret (after, out) ->
  map pos_norad_id out
  = keys (computable current_time (satellites (fst after))) /\
  NoDup (map pos_norad_id out) /\
  reachable (fst after).
Proof.
  intros Hreach Hres.
  rewrite get_satellite_positions_result in Hres.
  injection Hres as Hafter Hout.
  assert (Hreach' : reachable (fst after)).
  { rewrite <- Hafter. destruct (_should_update_tle time_time self);
      [apply reach_load; exact Hreach | exact Hreach]. }
  assert (E : map pos_norad_id out
              = keys (computable current_time (satellites (fst after)))).
  { rewrite <- Hout, Hafter.
    unfold computable, keys.
    induction (satellites (fst after)) as [|e l IH]; [reflexivity|].
    simpl. rewrite map_app, IH.
    destruct (position_record current_time e) as [r|] eqn:Hr; simpl.
    - now rewrite (position_record_id _ _ _ Hr).
    - reflexivity. }
  split; [exact E|]. split; [|exact Hreach'].
  rewrite E. apply keys_filter_nodup. now apply reachable_keys_nodup.
Qed.

End DetailFacts.
(** ** Events without their pass *)

Section OrphanFacts.

Context {P : Propagation}.

Lemma truthy_on_culmination (satellite : Satellite) (observer : Observer)
    (t : Time) (current_pass p : Pass) :
  on_culmination satellite observer t current_pass = Ret p ->
  truthy p = truthy current_pass.
Proof.
  unfold on_culmination. destruct (truthy current_pass) eqn:Ht.
  - destruct (altaz _ _ _) as [[[alt az] dist]|]; [|discriminate].
    simpl. intros [= <-]. unfold truthy. cbn.
    now rewrite !orb_true_r.
  - now intros [= <-].
Qed.

Lemma count_events_cons (kind : Z) (t : Time) (ev : Z)
    (events : list (Time * Z)) :
  count_events kind ((t, ev) :: events)
  = ((if (ev =? kind)%Z then 1 else 0) + count_events kind events)%nat.
Proof.
  unfold count_events. cbn [filter snd].
  now destruct (ev =? kind)%Z.
Qed.

(** Every pass appended takes a set, and a rise before it. *)
Lemma pair_events_bounds (satellite : Satellite) (observer : Observer)
    (events : list (Time * Z)) :
  forall st,
    (List.length (pair_events satellite observer events st)
     <= List.length (fst st) + count_events 2 events)%nat /\
    (List.length (pair_events satellite observer events st)
     <= List.length (fst st) + count_events 0 events
        + (if truthy (snd st) then 1 else 0))%nat.
Proof.
  induction events as [|[t ev] events IH]; intros [passes cp];
    [cbn; lia|].
  rewrite !count_events_cons. cbn [pair_events fst snd].
  destruct (on_event satellite observer t ev (passes, cp)) as [st'|] eqn:E;
    [|cbn [fst]; lia].
  specialize (IH st'). unfold on_event in E. cbn [fst snd] in E.
  destruct (Z.eqb_spec ev 0) as [->|H0].
  { injection E as <-. cbn [fst snd] in IH.
    change (truthy (on_rise t)) with true in IH.
    change (0 =? 2)%Z with false.
    cbv iota in IH. destruct (truthy cp); lia. }
  destruct (Z.eqb_spec ev 1) as [->|H1].
  { destruct (on_culmination _ _ _ _) as [p|] eqn:Hc; [|discriminate].
    injection E as <-. cbn [fst snd] in IH.
    change (1 =? 2)%Z with false.
    rewrite (truthy_on_culmination _ _ _ _ _ Hc) in IH. cbv iota. destruct (truthy cp); lia. }
  destruct (Z.eqb_spec ev 2) as [->|H2].
  { destruct (truthy cp) eqn:Ht.
    - destruct (on_set _ _ _ _) as [p|]; [|discriminate].
      injection E as <-. cbn [fst snd] in IH.
      rewrite length_app in IH. simpl List.length in IH.
      change (truthy no_pass) with false in IH. cbv iota in IH. lia.
    - injection E as <-. cbn [fst snd] in IH. rewrite Ht in IH. lia. }
  injection E as <-. cbn [fst snd] in IH.
  destruct (Z.eqb_spec ev 0); [contradiction|].
  destruct (Z.eqb_spec ev 2); [contradiction|].
  destruct (truthy cp); lia.
Qed.

Lemma count_events_none (kind : Z) (events : list (Time * Z)) :
  (forall e, In e events -> snd e <> kind) -> count_events kind events = 0%nat.
Proof.
  induction events as [|[t ev] events IH]; intros H; [reflexivity|].
  rewrite count_events_cons. destruct (Z.eqb_spec ev kind) as [E|_].
  - exfalso. apply (H (t, ev)); [now left | exact E].
  - apply IH. intros e' He'. apply H. now right.
Qed.

(** X11. [get_next_passes] never returns more passes than the window has
    rises, nor more than it has sets: a culmination or a set without a rise
    before it is ignored, and a rise that no set follows gives no pass.  In
    particular a window without a rise, or without a set, gives the empty
    list. *)
Theorem passes_need_rise_and_set (current_time : Time) (norad_id : Z)
    (lat lon alt days : pyfloat) (self : Tracker) (sat_data : SatData)
    (events : list (Time * Z)) :
  dict_get norad_id (satellites self) = Some sat_data ->
  find_events (satellite sat_data) (latlon lat lon alt) current_time
              (F.add current_time days) (F.of_Z 10) = Ret events ->
  exists passes,
    get_next_passes current_time norad_id lat lon alt days self = Ret passes /\
    (List.length passes <= count_events 0 events)%nat /\
    (List.length passes <= count_events 2 events)%nat /\
    ((forall e, In e events -> snd e <> 0%Z) -> passes = []) /\
    ((forall e, In e events -> snd e <> 2%Z) -> passes = []).
Proof.
  intros Hget Hev.
  rewrite (get_next_passes_known _ _ _ _ _ _ _ _ Hget), Hev.
  eexists. split; [reflexivity|].
  destruct (pair_events_bounds (satellite sat_data) (latlon lat lon alt)
              events ([], no_pass)) as [Hset Hrise].
  cbn [fst snd List.length] in Hset, Hrise.
  change (truthy no_pass) with false in Hrise. cbv iota in Hrise.
  set (found := pair_events _ _ events _) in *.
  assert (Hlen : (List.length (firstn 3 found) <= List.length found)%nat).
  { rewrite length_firstn. lia. }
  split; [lia|]. split; [lia|]. split.
  - intros H. rewrite (count_events_none 0 events H) in Hrise.
    destruct (firstn 3 found); [reflexivity | simpl in Hlen; lia].
  - intros H. rewrite (count_events_none 2 events H) in Hset.
    destruct (firstn 3 found); [reflexivity | simpl in Hlen; lia].
Qed.

(** *** The keys of a pass *)

Lemma pair_events_invariant (Qp Qc : Pass -> Prop) (satellite : Satellite)
    (observer : Observer) :
  Qc no_pass ->
  (forall t, Qc (on_rise t)) ->
  (forall t cp p,
      Qc cp -> on_culmination satellite observer t cp = Ret p -> Qc p) ->
  (forall t cp p,
      Qc cp -> truthy cp = true ->
      on_set satellite observer t cp = Ret p -> Qp p) ->
  forall events st,
    Forall Qp (fst st) -> Qc (snd st) ->
    Forall Qp (pair_events satellite observer events st).
Proof.
  intros Hno Hrise Hcul Hset events.
  induction events as [|[t ev] events IH]; intros [passes cp] Hp Hc;
    [exact Hp|].
  cbn [pair_events].
  destruct (on_event satellite observer t ev (passes, cp)) as [st'|] eqn:E;
    [|exact Hp].
  unfold on_event in E; cbn [fst snd] in *.
  destruct (ev =? 0)%Z.
  { injection E as <-. apply IH; [exact Hp | apply Hrise]. }
  destruct (ev =? 1)%Z.
  { destruct (on_culmination _ _ _ _) as [p|] eqn:Hc'; [|discriminate].
    injection E as <-. apply IH; [exact Hp | now apply (Hcul t cp)]. }
  destruct (ev =? 2)%Z; [|injection E as <-; now apply IH].
  destruct (truthy cp) eqn:Ht; [|injection E as <-; now apply IH].
  destruct (on_set satellite observer t cp) as [p|] eqn:Hs; [|discriminate].
  injection E as <-. apply IH; [|exact Hno]. cbn [fst].
  apply Forall_app. split; [exact Hp|].
  constructor; [|constructor]. now apply (Hset t cp).
Qed.

Lemma on_culmination_assembling (satellite : Satellite) (observer : Observer)
    (t : Time) (cp p : Pass) :
  risen cp /\ assembling cp ->
  on_culmination satellite observer t cp = Ret p ->
  risen p /\ assembling p.
Proof.
  intros [Hr (H1 & H2 & H3 & H4)] Hc.
  split; [now apply (on_culmination_risen _ _ _ _ _ Hr Hc)|].
  unfold on_culmination in Hc. destruct (truthy cp).
  - destruct (altaz _ _ _) as [[[el az] dist]|]; [|discriminate].
    simpl in Hc. injection Hc as <-. unfold assembling. cbn.
    repeat (split; [assumption|]). left. now exists (utc_iso t), el, az.
  - injection Hc as <-. now repeat split.
Qed.

Lemma on_set_assembled (satellite : Satellite) (observer : Observer)
    (t : Time) (cp p : Pass) :
  risen cp /\ assembling cp -> truthy cp = true ->
  on_set satellite observer t cp = Ret p -> assembled p.
Proof.
  intros [Hr (_ & _ & _ & Hcul)] Ht. destruct (Hr Ht) as [iso Hiso].
  unfold on_set. rewrite Hiso.
  destruct (parse_iso iso) as [rise_dt|]; [|discriminate]. cbn [bind].
  destruct (from_datetime rise_dt); [|discriminate]. cbn [bind].
  destruct (altaz _ _ _) as [[[a1 az1] d1]|]; [|discriminate]. cbn [bind].
  destruct (altaz _ _ _) as [[[a2 az2] d2]|]; [|discriminate]. cbn [bind].
  destruct (parse_iso (utc_iso t)) as [set_dt|]; [|discriminate]. cbn [bind].
  destruct (F.div _ _); [|discriminate]. cbn [bind].
  intros [= <-]. unfold assembled. cbn.
  split; [now exists az1|]. split; [now exists az2|]. exact Hcul.
Qed.

(** X12. Every pass [get_next_passes] returns has the azimuth of its rise
    and the azimuth of its set as numbers, and has the time, elevation and
    azimuth of its culmination all three or none of them: a pass whose
    culmination was not reported is returned without those keys. *)
Theorem passes_are_assembled (current_time : Time) (norad_id : Z)
    (lat lon alt days : pyfloat) (self : Tracker) :
  exists passes,
    get_next_passes current_time norad_id lat lon alt days self = Ret passes /\
    Forall assembled passes.
Proof.
  destruct (dict_get norad_id (satellites self)) as [sat_data|] eqn:Hget.
  - rewrite (get_next_passes_known _ _ _ _ _ _ _ _ Hget).
    eexists. split; [reflexivity|]. apply firstn_forall.
    destruct (find_events _ _ _ _ _); [|constructor].
    apply (pair_events_invariant assembled
             (fun cp => risen cp /\ assembling cp)).
    + split; [apply no_pass_risen|]. unfold assembling. cbn. tauto.
    + intros t. split; [apply on_rise_risen|]. unfold assembling. cbn. tauto.
    + intros t cp p. apply on_culmination_assembling.
    + intros t cp p. apply on_set_assembled.
    + constructor.
    + split; [apply no_pass_risen|]. unfold assembling. cbn. tauto.
  - apply dict_has_false_get in Hget.
    rewrite (get_next_passes_unknown _ _ _ _ _ _ _ Hget).
    exists []. split; [reflexivity | constructor].
Qed.

End OrphanFacts.

(** ** Category, agency and country *)

(** Go down the cascade of the categorizer as long as the answer of a
    rule differs from the one assumed. *)
Ltac descend :=
  repeat match goal with
         | |- (if ?c then _ else _) = _ -> _ =>
             let E := fresh "E" in
             destruct c eqn:E; [discriminate|]
         end.

Lemma categorize_starlink (n : string) (id : Z) :
  _categorize_satellite n id = Starlink ->
  Py.contains "starlink" (Py.lower n) = true.
Proof.
  unfold _categorize_satellite. cbv beta zeta. descend.
  destruct (Py.contains "starlink" (Py.lower n)); [reflexivity|].
  descend. discriminate.
Qed.

Lemma categorize_oneweb (n : string) (id : Z) :
  _categorize_satellite n id = OneWeb ->
  Py.contains "starlink" (Py.lower n) = false /\
  Py.contains "oneweb" (Py.lower n) = true.
Proof.
  unfold _categorize_satellite. cbv beta zeta. descend.
  destruct (Py.contains "oneweb" (Py.lower n)); [now split|].
  descend. discriminate.
Qed.

Lemma categorize_iridium (n : string) (id : Z) :
  _categorize_satellite n id = Iridium ->
  Py.contains "starlink" (Py.lower n) = false /\
  Py.contains "oneweb" (Py.lower n) = false /\
  Py.contains "iridium" (Py.lower n) = true.
Proof.
  unfold _categorize_satellite. cbv beta zeta. descend.
  destruct (Py.contains "iridium" (Py.lower n)); [now repeat split|].
  descend. discriminate.
Qed.

Lemma categorize_station (n : string) :
  _categorize_satellite n 25544 = ISS.
Proof. reflexivity. Qed.

(** *** Keywords another keyword hides *)

Lemma prefix_app_l (p q s : string) :
  String.prefix (p ++ q) s = true -> String.prefix p s = true.
Proof.
  revert s. induction p as [|a p IH]; intros s; [now destruct s|].
  destruct s as [|b s]; [discriminate|]. simpl.
  destruct (ascii_dec a b); [apply IH | discriminate].
Qed.

Lemma contains_nil (p : string) :
  Py.contains p "" = String.prefix p "" || false.
Proof. reflexivity. Qed.

Lemma contains_cons (p : string) (b : ascii) (s : string) :
  Py.contains p (String b s) = String.prefix p (String b s) || Py.contains p s.
Proof. reflexivity. Qed.

Lemma contains_app_l (p q s : string) :
  Py.contains (p ++ q) s = true -> Py.contains p s = true.
Proof.
  induction s as [|b s IH].
  - rewrite !contains_nil, !orb_false_r. apply prefix_app_l.
  - rewrite !contains_cons. intros H.
    apply orb_true_iff in H. apply orb_true_iff.
    destruct H as [H|H]; [left; now apply (prefix_app_l p q) | right; auto].
Qed.

Lemma contains_tail (a : ascii) (p s : string) :
  Py.contains (String a p) s = true -> Py.contains p s = true.
Proof.
  induction s as [|b s IH]; [discriminate|].
  rewrite !contains_cons. intros H.
  apply orb_true_iff. right.
  apply orb_true_iff in H. destruct H as [H|H]; [|now apply IH].
  simpl in H. destruct (ascii_dec a b); [|discriminate].
  clear IH. destruct s as [|c s].
  - rewrite contains_nil. destruct p; [reflexivity | discriminate].
  - rewrite contains_cons. now rewrite H.
Qed.

Lemma mission_has_iss (s : string) :
  Py.contains "mission" s = true -> Py.contains "iss" s = true.
Proof.
  intros H. apply contains_tail in H.
  exact (contains_app_l "iss" "ion" s H).
Qed.

Lemma experimental_has_experiment (s : string) :
  Py.contains "experimental" s = true -> Py.contains "experiment" s = true.
Proof. exact (contains_app_l "experiment" "al" s). Qed.

(** X18. Two keywords of the categorizer can never decide.  A name with
    "mission" in it has "iss" in it and is in category ISS, so a record is
    in category Scientific only for "science", "research", "explorer" or
    "experiment"; and a name with "experimental" in it has "experiment" in
    it and is never in category Technology_Demo, which a record gets only
    for "demo", "test" or "technology". *)
Theorem shadowed_keywords (name : string) (norad_id : Z) :
  let has p := Py.contains p (Py.lower name) in
  (has "mission" = true -> _categorize_satellite name norad_id = ISS) /\
  (has "experimental" = true ->
   _categorize_satellite name norad_id <> Technology_Demo) /\
  (_categorize_satellite name norad_id = Scientific ->
   has "mission" = false /\
   has "science" || has "research" || has "explorer" || has "experiment"
   = true) /\
  (_categorize_satellite name norad_id = Technology_Demo ->
   has "experimental" = false /\
   has "demo" || has "test" || has "technology" = true).
Proof.
  cbv zeta.
  assert (Hsci : _categorize_satellite name norad_id = Scientific ->
                 Py.contains "mission" (Py.lower name) = false /\
                 Py.contains "science" (Py.lower name)
                 || Py.contains "research" (Py.lower name)
                 || Py.contains "explorer" (Py.lower name)
                 || Py.contains "experiment" (Py.lower name) = true).
  { unfold _categorize_satellite. cbv beta zeta. descend.
    apply orb_false_iff in E as [_ Hiss].
    assert (Hm : Py.contains "mission" (Py.lower name) = false).
    { destruct (Py.contains "mission" (Py.lower name)) eqn:Hm;
        [|reflexivity].
      apply mission_has_iss in Hm. congruence. }
    rewrite Hm, orb_false_r.
    destruct (_ || _ || _ || Py.contains "experiment" _);
      [now split|]. descend. discriminate. }
  assert (Hdemo : _categorize_satellite name norad_id = Technology_Demo ->
                  Py.contains "experimental" (Py.lower name) = false /\
                  Py.contains "demo" (Py.lower name)
                  || Py.contains "test" (Py.lower name)
                  || Py.contains "technology" (Py.lower name) = true).
  { unfold _categorize_satellite. cbv beta zeta. descend.
    assert (Hx : Py.contains "experimental" (Py.lower name) = false).
    { destruct (Py.contains "experimental" (Py.lower name)) eqn:Hx;
        [|reflexivity].
      apply experimental_has_experiment in Hx.
      match goal with
      | H : _ || Py.contains "experiment" _ = false |- _ =>
          rewrite Hx, orb_true_r in H; discriminate H
      end. }
    rewrite Hx, orb_false_r.
    destruct (_ || _ || Py.contains "technology" _);
      [now split|]. descend. discriminate. }
  split; [|split; [|split; assumption]].
  - intros H. apply mission_has_iss in H.
    unfold _categorize_satellite. cbv beta zeta.
    now rewrite H, orb_true_r.
  - intros H Hc. destruct (Hdemo Hc) as [Hx _]. congruence.
Qed.

Section LabelFacts.

Context {P : Propagation}.

(** X13. The labels of a detail record agree on a reachable tracker.  A
    record in category Starlink has agency "SpaceX", one in OneWeb has
    agency "OneWeb", one in Iridium has agency "Iridium Communications";
    and the record with id 25544 is in category ISS, with country
    "International" and type "Space Station". *)
Theorem detail_labels_agree (current_time : Time) (norad_id : Z)
    (self : Tracker) (d : Detail) :
  reachable self ->
  get_satellite_details current_time norad_id self = Ret (Some d) ->
  (detail_category d = Starlink ->
   technical_agency (detail_technical d) = "SpaceX") /\
  (detail_category d = OneWeb ->
   technical_agency (detail_technical d) = "OneWeb") /\
  (detail_category d = Iridium ->
   technical_agency (detail_technical d) = "Iridium Communications") /\
  (norad_id = 25544%Z ->
   detail_category d = ISS /\
   position_country (detail_position d) = "International" /\
   technical_type (detail_technical d) = "Space Station").
Proof.
  intros Hreach Hres.
  unfold get_satellite_details in Hres.
  destruct (dict_has norad_id (satellites self)); [|discriminate]. simpl in Hres.
  destruct (dict_get norad_id (satellites self)) as [sat_data|] eqn:Hget;
    [|discriminate].
  destruct (detail_record current_time norad_id sat_data) as [d'|] eqn:Hd;
    [|discriminate].
  simpl in Hres. injection Hres as ->.
  apply dict_get_iff in Hget; [|now apply reachable_keys_nodup].
  pose proof (reachable_consistent self Hreach) as Hcons.
  rewrite Forall_forall in Hcons.
  destruct (Hcons _ Hget) as [_ Hcat]. cbn [fst snd] in Hcat.
  destruct (detail_record_fields _ _ _ _ Hd)
    as (g & sp & v & inc & mm & _ & _ & _ & _ & _ & _ & E).
  rewrite E. cbn [detail_category detail_technical detail_position
                  technical_agency technical_type position_country].
  rewrite Hcat. unfold _get_agency_from_satellite. cbv zeta.
  split; [|split; [|split]].
  - intros H. now rewrite (categorize_starlink _ _ H).
  - intros H. destruct (categorize_oneweb _ _ H) as [-> ->]. reflexivity.
  - intros H. destruct (categorize_iridium _ _ H) as (-> & -> & ->).
    reflexivity.
  - intros ->. now rewrite categorize_station.
Qed.

End LabelFacts.

(** ** The routes *)

Section RouteFacts.

Context {P : Propagation}.
Variable http_get : string -> res string.

(** The three outcomes of [get_satellite_details]. *)
Lemma get_satellite_details_cases (current_time : Time) (norad_id : Z)
    (self : Tracker) :
  get_satellite_details current_time norad_id self
  = match dict_get norad_id (satellites self) with
    | None => Ret None
    | Some sat_data =>
        match detail_record current_time norad_id sat_data with
        | Ret d => Ret (Some d)
        | Raise _ => Ret None
        end
    end.
Proof.
  unfold get_satellite_details.
  destruct (dict_get norad_id (satellites self)) as [sat_data|] eqn:Hget.
  - assert (Hhas : dict_has norad_id (satellites self) = true)
      by (apply dict_has_get; now exists sat_data).
    rewrite Hhas. simpl.
    now destruct (detail_record current_time norad_id sat_data).
  - destruct (dict_has norad_id (satellites self)) eqn:Hhas; [|reflexivity].
    apply dict_has_get in Hhas. destruct Hhas as [sat_data Hsd]. congruence.
Qed.

(** X14. The details route answers 200 or 404 and never 500: it answers
    200 with the detail record when the record can be computed, and 404
    with "Satellite not found" both when the id is not in the catalog and
    when the id is there but the computation fails; the handler of the
    route for exceptions is never entered. *)
Theorem details_route_never_500 (current_time : Time) (norad_id : Z)
    (tracker : Tracker) :
  let response :=
    Routes.get_satellite_details current_time norad_id tracker in
  (Routes.status response = 200%Z \/ Routes.status response = 404%Z) /\
  (Routes.status response = 200%Z <->
   exists sat_data d,
     dict_get norad_id (satellites tracker) = Some sat_data /\
     detail_record current_time norad_id sat_data = Ret d /\
     response = {| Routes.success := true;
                   Routes.body := Routes.satellite_body d;
                   Routes.status := 200 |}) /\
  (Routes.status response = 404%Z <->
   response = {| Routes.success := false;
                 Routes.body := Routes.error_body "Satellite not found";
                 Routes.status := 404 |}) /\
  (Routes.status response = 404%Z <->
   dict_get norad_id (satellites tracker) = None \/
   exists sat_data,
     dict_get norad_id (satellites tracker) = Some sat_data /\
     raises (detail_record current_time norad_id sat_data) = true).
Proof.
  cbv zeta. unfold Routes.get_satellite_details.
  rewrite get_satellite_details_cases.
  destruct (dict_get norad_id (satellites tracker)) as [sat_data|].
  - destruct (detail_record current_time norad_id sat_data) as [d|e] eqn:Hd;
      cbn [Routes.status].
    + split; [now left|]. split; [|split].
      * split; [intros _; now exists sat_data, d|reflexivity].
      * split; discriminate.
      * split; [discriminate|].
        intros [H|(sd & H & Hr)]; [discriminate|].
        injection H as <-. rewrite Hd in Hr. discriminate.
    + split; [now right|]. split; [|split].
      * split; [discriminate|]. intros (sd & d & H & Hr & _).
        injection H as <-. congruence.
      * split; reflexivity.
      * split; [|reflexivity]. intros _. right. exists sat_data.
        now rewrite Hd.
  - cbn [Routes.status]. split; [now right|]. split; [|split].
    + split; [discriminate|]. now intros (sd & d & H & _).
    + split; reflexivity.
    + split; [now left | reflexivity].
Qed.

(** X15. The orbit route always answers 200 with [success] true and at most
    100 points, whatever the library does at the sampled times: a point
    that cannot be computed is left out, and an id that is not in the
    catalog gives the empty orbit rather than an error answer. *)
Theorem orbit_route_always_succeeds (current_time : Time) (norad_id : Z)
    (tracker : Tracker) :
  exists orbit_points,
    Routes.get_satellite_orbit current_time norad_id tracker
    = {| Routes.success := true;
         Routes.body := Routes.orbit_body orbit_points;
         Routes.status := 200 |} /\
    (List.length orbit_points <= 100)%nat /\
    (dict_get norad_id (satellites tracker) = None -> orbit_points = []).
Proof.
  unfold Routes.get_satellite_orbit.
  destruct (dict_get norad_id (satellites tracker)) as [sat_data|] eqn:Hget.
  - rewrite (get_orbital_path_known _ _ _ _ _ Hget).
    eexists. split; [reflexivity|]. split; [|discriminate].
    eapply Nat.le_trans; [apply collect_length|].
    rewrite length_map, range_length. apply Nat.le_refl.
  - apply dict_has_false_get in Hget.
    rewrite (get_orbital_path_unknown _ _ _ _ Hget).
    exists []. split; [reflexivity|]. split; [simpl; lia | reflexivity].
Qed.

Lemma get_next_passes_returns (current_time : Time) (norad_id : Z)
    (lat lon alt days : pyfloat) (self : Tracker) :
  exists passes,
    get_next_passes current_time norad_id lat lon alt days self = Ret passes /\
    (List.length passes <= 3)%nat /\
    (dict_get norad_id (satellites self) = None -> passes = []).
Proof.
  destruct (dict_get norad_id (satellites self)) as [sat_data|] eqn:Hget.
  - rewrite (get_next_passes_known _ _ _ _ _ _ _ _ Hget).
    eexists. split; [reflexivity|]. split; [|discriminate].
    rewrite length_firstn. lia.
  - apply dict_has_false_get in Hget.
    rewrite (get_next_passes_unknown _ _ _ _ _ _ _ Hget).
    exists []. split; [reflexivity|]. split; [simpl; lia | reflexivity].
Qed.

(** X16. The passes route answers 500 exactly when an argument [lat],
    [lon] or [alt] that is present is not a float literal, also for an id
    that is not in the catalog; otherwise it answers 200 with at most three
    passes, computed for the parsed arguments with 0.0 for a missing one
    and a window of 7 days, and with no pass for an id that is not in the
    catalog. *)
Theorem passes_route_status (current_time : Time) (norad_id : Z)
    (lat_arg lon_arg alt_arg : option string) (tracker : Tracker) :
  let response :=
    Routes.get_satellite_passes current_time norad_id lat_arg lon_arg alt_arg
                                tracker in
  (Routes.status response = 500%Z <->
   raises (Routes.float_arg lat_arg) || raises (Routes.float_arg lon_arg)
   || raises (Routes.float_arg alt_arg) = true) /\
  (forall lat lon alt,
      Routes.float_arg lat_arg = Ret lat ->
      Routes.float_arg lon_arg = Ret lon ->
      Routes.float_arg alt_arg = Ret alt ->
      exists passes,
        get_next_passes current_time norad_id lat lon alt (F.of_Z 7) tracker
        = Ret passes /\
        response = {| Routes.success := true;
                      Routes.body := Routes.passes_body passes;
                      Routes.status := 200 |} /\
        (List.length passes <= 3)%nat /\
        (dict_get norad_id (satellites tracker) = None -> passes = [])).
Proof.
  cbv zeta. unfold Routes.get_satellite_passes.
  destruct (Routes.float_arg lat_arg) as [lat|]; cbn [bind raises orb];
    [|split; [now split | discriminate]].
  destruct (Routes.float_arg lon_arg) as [lon|]; cbn [bind raises orb];
    [|split; [now split | discriminate]].
  destruct (Routes.float_arg alt_arg) as [alt|]; cbn [bind raises orb];
    [|split; [now split | discriminate]].
  destruct (get_next_passes_returns current_time norad_id lat lon alt
              (F.of_Z 7) tracker) as (passes & Hp & Hlen & Hnone).
  rewrite Hp. cbn [Routes.status]. split; [split; discriminate|].
  intros ? ? ? [= <-] [= <-] [= <-]. exists passes.
  split; [exact Hp|]. split; [reflexivity|]. now split.
Qed.

(** A load leaves a catalog that is not empty when the built-in record can
    be built. *)
Lemma load_tle_data_from_nonempty (sets : list (list string))
    (time_time : pyfloat) (self : Tracker) (iss : Satellite) :
  EarthSatellite iss_tle1 iss_tle2 "ISS (ZARYA)" = Ret iss ->
  satellites (fst (load_tle_data_from http_get sets time_time self)) <> [].
Proof.
  intros Hiss.
  rewrite (proj1 (load_tle_data_from_satellites http_get sets time_time self)).
  destruct (all_satellites (load_source_sets http_get sets ingest_start));
    [|discriminate].
  rewrite load_fallback_data_satellites, Hiss. discriminate.
Qed.

(** X17. The satellites route always answers 200 with [success] true, and
    when the built-in record can be built it never serves from an empty
    catalog: an empty catalog is loaded first, so the catalog after the
    request has at least one record, and the ids of the answer are the keys
    of its records whose position can be computed, in the order of the
    catalog. *)
Theorem satellites_route_serves_a_catalog (time_time : pyfloat)
    (current_time : Time) (timestamp : string) (tracker : Tracker)
    (iss : Satellite) :
  EarthSatellite iss_tle1 iss_tle2 "ISS (ZARYA)" = Ret iss ->
  let result :=
    Routes.get_satellites http_get time_time current_time timestamp tracker in
  exists out,
    snd result = {| Routes.success := true;
                    Routes.body := Routes.satellites_body out timestamp;
                    Routes.status := 200 |} /\
    satellites (fst (fst result)) <> [] /\
    map pos_norad_id out
    = keys (computable current_time (satellites (fst (fst result)))).
Proof.
  intros Hiss. cbv zeta. unfold Routes.get_satellites.
  rewrite get_satellite_positions_result. cbn [fst snd].
  eexists. split; [reflexivity|].
  set (loaded := if Routes.is_empty (satellites tracker)
                 then load_tle_data http_get time_time tracker
                 else (tracker, [])).
  set (after := fst (if _should_update_tle time_time (fst loaded)
                     then load_tle_data http_get time_time (fst loaded)
                     else (fst loaded, []))).
  split.
  - subst after. destruct (_should_update_tle time_time (fst loaded)).
    + now apply (load_tle_data_from_nonempty _ _ _ iss).
    + subst loaded. cbn [fst].
      destruct (satellites tracker) eqn:Hs; cbn [Routes.is_empty fst].
      * now apply (load_tle_data_from_nonempty _ _ _ iss).
      * rewrite Hs. discriminate.
  - unfold computable, keys.
    induction (satellites after) as [|e l IH]; [reflexivity|].
    simpl. rewrite map_app, IH.
    destruct (position_record current_time e) as [r|] eqn:Hr; simpl.
    + now rewrite (position_record_id _ _ _ Hr).
    + reflexivity.
Qed.

(** X20. The refresh route answers 200 with "TLE data refreshed
    successfully" also when no endpoint of any group yields a record.  The
    load has then requested every endpoint, the catalog held before is
    gone and the built-in record is the only one left, and the time of the
    last update is what it was. *)
Theorem refresh_route_after_an_outage (time_time : pyfloat)
    (tracker : Tracker) (iss : Satellite) :
  EarthSatellite iss_tle1 iss_tle2 "ISS (ZARYA)" = Ret iss ->
  existsb (successful http_get) tle_source_sets = false ->
  let result := Routes.refresh_tle_data http_get time_time tracker in
  snd result
  = {| Routes.success := true;
       Routes.body := Routes.message_body "TLE data refreshed successfully";
       Routes.status := 200 |} /\
  snd (fst result) = List.concat tle_source_sets /\
  satellites (fst (fst result)) = [fallback_entry iss] /\
  last_update (fst (fst result)) = last_update tracker.
Proof.
  intros Hiss Hoff. cbv zeta.
  unfold Routes.refresh_tle_data, refresh_tle_data, load_tle_data.
  cbn [fst snd]. split; [reflexivity|]. split; [|split].
  - now apply unsuccessful_requests_all.
  - rewrite (proj1 (load_tle_data_from_satellites http_get tle_source_sets
                      time_time tracker)).
    rewrite (none_successful_no_record http_get _ Hoff).
    now rewrite load_fallback_data_satellites, Hiss.
  - rewrite (proj1 (load_tle_data_from_last_update http_get tle_source_sets
                      time_time tracker)).
    now rewrite Hoff.
Qed.

End RouteFacts.

(** ** Lines that do not make a triplet *)

Section EdgeFacts.

Context {P : Propagation}.
Variable http_get : string -> res string.

Lemma parse_lines_short (tail : list string) (st : Ingest * Z) :
  (List.length tail < 3)%nat -> parse_lines tail st = st.
Proof.
  destruct tail as [|a [|b [|c rest]]]; simpl; try reflexivity. lia.
Qed.

Lemma parse_lines_trailing (tail : list string) :
  (List.length tail < 3)%nat ->
  forall lines (k : nat) st,
    List.length lines = (3 * k)%nat ->
    parse_lines (lines ++ tail) st = parse_lines lines st.
Proof.
  intros Ht lines.
  induction lines as [| a | a b | a b c rest IH] using triplet_ind;
    intros k st Hk.
  - apply (parse_lines_short tail st Ht).
  - simpl in Hk. lia.
  - simpl in Hk. lia.
  - cbn [app parse_lines].
    destruct ((ceiling <=? satellite_count (fst st))%Z
              || (ceiling <=? snd st)%Z); [reflexivity|].
    apply (IH (k - 1)%nat). simpl in Hk. lia.
Qed.

(** X19. The loop over triplets reads whole triplets only.  One or two
    lines after the last whole triplet are ignored; and an answer of fewer
    than three lines, the empty answer among them, is treated exactly as a
    request that failed: the request is recorded, no record is stored and
    the endpoint does not count as a successful load. *)
Theorem incomplete_triplets_ignored (tail : list string) :
  (List.length tail < 3)%nat ->
  (forall lines (k : nat) st,
      List.length lines = (3 * k)%nat ->
      parse_lines (lines ++ tail) st = parse_lines lines st) /\
  (forall url text st e,
      http_get url = Ret text ->
      Py.split Py.newline (Py.strip text) = tail ->
      load_url http_get url st = load_url (fun _ => Raise e) url st /\
      valid_records http_get url = []).
Proof.
  intros Ht. split; [now apply parse_lines_trailing|].
  intros url text st e Hget Hsplit. split.
  - unfold load_url. rewrite Hget. cbn [bind try_except]. rewrite Hsplit.
    rewrite (parse_lines_short tail _ Ht). reflexivity.
  - unfold valid_records. rewrite Hget. cbn [bind try_except]. rewrite Hsplit.
    now destruct tail as [|a [|b [|c rest]]]; [..|simpl in Ht; lia].
Qed.

End EdgeFacts.

(** ** The further properties on the test double *)

(** The loaded tracker holds the station, a Starlink and a satellite of
    no category: its index lists the Starlink under Starlink alone. *)
Lemma category_index_is_partition_witness :
  @categories Stub.lib Scenes.loaded
  = map (fun c => (c, members c (satellites Scenes.loaded))) taxonomy /\
  members Starlink (satellites Scenes.loaded) = [44713%Z] /\
  NoDup (members Starlink (satellites Scenes.loaded)).
Proof.
  destruct (proj2 (@category_index_is_partition Stub.lib) Scenes.loaded)
    as (Hidx & _ & Hnodup & _); [apply reach_load, reach_fresh|].
  split; [exact Hidx|]. split; [reflexivity | apply Hnodup].
Defined.

Lemma category_summary_counts_witness :
  list_sum (map (fun e => Z.to_nat (summary_count (snd e)))
                (@get_satellite_categories Stub.lib Scenes.loaded))
  = 3%nat.
Proof.
  rewrite (proj2 (@category_summary_counts Stub.lib Scenes.loaded
                    (reach_load _ _ _ _ reach_fresh))).
  reflexivity.
Defined.

Lemma three_categories_never_assigned_witness :
  members Commercial (satellites Scenes.loaded) = [] /\
  In (Commercial, {| summary_name := category_name Commercial;
                     summary_color := category_color Commercial;
                     summary_count := 0;
                     summary_satellites := [] |})
     (@get_satellite_categories Stub.lib Scenes.loaded).
Proof.
  apply (proj2 (@three_categories_never_assigned Stub.lib) Scenes.loaded
           Commercial (reach_load _ _ _ _ reach_fresh)).
  right. right. reflexivity.
Defined.

Lemma stored_records_consistent_witness :
  exists e,
    In e (satellites Scenes.loaded) /\ fst e = 44713%Z /\
    category (snd e) = Starlink /\
    dict_get 44713 (satellites Scenes.loaded) = Some (snd e).
Proof.
  destruct (satellites Scenes.loaded) as [|e0 [|e l]] eqn:E;
    [vm_compute in E; discriminate ..|].
  assert (He : fst e = 44713%Z /\ category (snd e) = Starlink).
  { vm_compute in E. injection E as _ <- _. split; reflexivity. }
  exists e. rewrite <- E.
  assert (Hin : In e (satellites Scenes.loaded))
    by (rewrite E; right; left; reflexivity).
  split; [exact Hin|]. split; [apply He|]. split; [apply He|].
  rewrite <- (proj1 He).
  apply (@stored_records_consistent Stub.lib Scenes.loaded e
           (reach_load _ _ _ _ reach_fresh) Hin).
Defined.

(** With no network every endpoint is requested, in the order of the
    groups. *)
Lemma requests_are_a_prefix_witness :
  snd (@load_tle_data_from Stub.lib Stub.offline [["a"; "b"]; ["c"]]
         (F.of_Z 0) fresh)
  = ["a"; "b"; "c"].
Proof.
  destruct (@requests_are_a_prefix Stub.lib Stub.offline [["a"; "b"]; ["c"]]
              (F.of_Z 0) fresh) as (untried & Hcat & Hnone & _).
  rewrite (Hnone eq_refl), app_nil_r in Hcat. symmetry. exact Hcat.
Defined.

Lemma fallback_stays_due_witness :
  last_update (fst (@load_tle_data_from Stub.lib Stub.offline
                      [["a"; "b"]; ["c"]] (F.of_Z 5) fresh)) = None /\
  last_update (fst (@load_tle_data_from Stub.lib Stub.http_get
                      [["first"]; ["second"]] (F.of_Z 5) fresh))
  = Some (F.of_Z 5) /\
  @_should_update_tle Stub.lib (F.of_Z 5) fresh = true.
Proof.
  split; [|split].
  - exact (proj1 (@fallback_stays_due Stub.lib Stub.offline
                    [["a"; "b"]; ["c"]] (F.of_Z 5) fresh)).
  - exact (proj1 (@fallback_stays_due Stub.lib Stub.http_get
                    [["first"]; ["second"]] (F.of_Z 5) fresh)).
  - apply (proj1 (proj2 (proj2 (@fallback_stays_due Stub.lib Stub.offline
                                  [] (F.of_Z 5) fresh)))
             eq_refl (F.of_Z 5) (F.of_Z 0)).
Defined.

Lemma detail_is_consistent_witness :
  exists d,
    @get_satellite_details Stub.lib (F.of_Z 0) 25544 Stub.tracker
    = Ret (Some d) /\
    detail_norad_id d = 25544%Z /\
    tle_data_epoch (detail_tle_data d) = "23001.00000000".
Proof.
  destruct (@get_satellite_details Stub.lib (F.of_Z 0) 25544 Stub.tracker)
    as [[d|]|] eqn:E; [|vm_compute in E; discriminate ..].
  exists d. split; [reflexivity|].
  destruct (@detail_is_consistent Stub.lib (F.of_Z 0) 25544%Z Stub.tracker d E)
    as (sat_data & Hget & Hid & _ & _ & _ & _ & _ & _ & Hepoch & _).
  split; [exact Hid|]. rewrite Hepoch.
  vm_compute in Hget. injection Hget as <-. reflexivity.
Defined.

(** The record with the overwritten inclination has a position and no
    details; the built-in record has both, and they agree. *)
Lemma details_agree_with_positions_witness :
  raises (@position_record Stub.lib (F.of_Z 0) Scenes.tilted) = false /\
  @get_satellite_details Stub.lib (F.of_Z 0) 8 Scenes.tracker = Ret None /\
  exists d r,
    @get_satellite_details Stub.lib (F.of_Z 0) 25544 Scenes.tracker
    = Ret (Some d) /\
    @position_record Stub.lib (F.of_Z 0) Stub.healthy = Ret r /\
    pos_orbital_period r = orbit_period (detail_orbit d).
Proof.
  split; [reflexivity|]. split; [reflexivity|].
  destruct (@get_satellite_details Stub.lib (F.of_Z 0) 25544 Scenes.tracker)
    as [[d|]|] eqn:E; [|vm_compute in E; discriminate ..].
  destruct (@details_agree_with_positions Stub.lib (F.of_Z 0) 25544%Z
              Scenes.tracker d E)
    as (sat_data & r & Hget & Hr & _ & _ & _ & _ & _ & _ & Hp & _).
  exists d, r. split; [reflexivity|].
  vm_compute in Hget. injection Hget as <-.
  split; [exact Hr | exact Hp].
Defined.

Lemma positions_follow_the_catalog_witness :
  exists after out,
    @get_satellite_positions Stub.lib Stub.http_get (F.of_Z 10) (F.of_Z 0)
      Scenes.loaded = Ret (after, out) /\
    map pos_norad_id out = [25544%Z; 44713%Z; 99999%Z] /\
    NoDup (map pos_norad_id out).
Proof.
  destruct (@get_satellite_positions Stub.lib Stub.http_get (F.of_Z 10)
              (F.of_Z 0) Scenes.loaded) as [[after out]|] eqn:E;
    [|vm_compute in E; discriminate].
  exists after, out. split; [reflexivity|].
  destruct (@positions_follow_the_catalog Stub.lib Stub.http_get (F.of_Z 10)
              (F.of_Z 0) Scenes.loaded after out
              (reach_load _ _ _ _ reach_fresh) E) as (Hids & Hnodup & _).
  split; [|exact Hnodup].
  vm_compute in E. injection E as <- <-. reflexivity.
Defined.

(** A set and a culmination without a rise, then a rise and a culmination
    without a set: no pass. *)
Lemma passes_need_rise_and_set_witness :
  exists passes,
    @get_next_passes Scenes.lib_truncated (F.of_Z 0) 25544 (F.of_Z 0)
      (F.of_Z 0) (F.of_Z 0) (F.of_Z 7) Scenes.tracker_truncated
    = Ret passes /\
    (List.length passes <= 1)%nat /\ passes = [].
Proof.
  destruct (@passes_need_rise_and_set Scenes.lib_truncated (F.of_Z 0) 25544%Z
              (F.of_Z 0) (F.of_Z 0) (F.of_Z 0) (F.of_Z 7)
              Scenes.tracker_truncated _ Scenes.truncated eq_refl eq_refl)
    as (passes & Hres & Hrise & _).
  exists passes. split; [exact Hres|]. split; [exact Hrise|].
  vm_compute in Hres. now injection Hres as <-.
Defined.

Lemma detail_labels_agree_witness :
  exists d,
    @get_satellite_details Stub.lib (F.of_Z 0) 44713 Scenes.loaded
    = Ret (Some d) /\
    detail_category d = Starlink /\
    technical_agency (detail_technical d) = "SpaceX".
Proof.
  destruct (@get_satellite_details Stub.lib (F.of_Z 0) 44713 Scenes.loaded)
    as [[d|]|] eqn:E; [|vm_compute in E; discriminate ..].
  exists d. split; [reflexivity|].
  assert (Hc : detail_category d = Starlink).
  { vm_compute in E. now injection E as <-. }
  split; [exact Hc|].
  apply (proj1 (@detail_labels_agree Stub.lib (F.of_Z 0) 44713%Z Scenes.loaded
                  d (reach_load _ _ _ _ reach_fresh) E) Hc).
Defined.

(** The record whose mean motion cannot be read is answered with 404. *)
Lemma details_route_never_500_witness :
  Routes.status (@Routes.get_satellite_details Stub.lib (F.of_Z 0) 7
                   Stub.tracker) = 404%Z /\
  dict_has 7 (satellites Stub.tracker) = true.
Proof.
  split; [|reflexivity].
  apply (proj2 (proj2 (proj2 (@details_route_never_500 Stub.lib (F.of_Z 0)
                                7%Z Stub.tracker)))).
  right. exists (snd Stub.corrupted). split; reflexivity.
Defined.

Lemma passes_route_status_witness :
  Routes.status (@Routes.get_satellite_passes Stub.lib (F.of_Z 0) 99999
                   (Some "51.5") None (Some "abc") Stub.tracker) = 500%Z /\
  @Routes.get_satellite_passes Stub.lib (F.of_Z 0) 99999 (Some "51.5") None
    (Some "1e2") Stub.tracker
  = {| Routes.success := true;
       Routes.body := Routes.passes_body [];
       Routes.status := 200 |}.
Proof.
  split.
  - apply (proj1 (@passes_route_status Stub.lib (F.of_Z 0) 99999%Z
                    (Some "51.5") None (Some "abc") Stub.tracker)).
    reflexivity.
  - destruct (proj2 (@passes_route_status Stub.lib (F.of_Z 0) 99999%Z
                       (Some "51.5") None (Some "1e2") Stub.tracker)
                _ _ _ eq_refl eq_refl eq_refl)
      as (passes & _ & Hresp & _ & Hnone).
    rewrite Hresp, (Hnone eq_refl). reflexivity.
Defined.

(** A new tracker without network: the route loads, falls back, and
    answers with the built-in record. *)
Lemma satellites_route_serves_a_catalog_witness :
  exists out,
    snd (@Routes.get_satellites Stub.lib Stub.offline (F.of_Z 10) (F.of_Z 0)
           "now" fresh)
    = {| Routes.success := true;
         Routes.body := Routes.satellites_body out "now";
         Routes.status := 200 |} /\
    map pos_norad_id out = [25544%Z].
Proof.
  destruct (@satellites_route_serves_a_catalog Stub.lib Stub.offline
              (F.of_Z 10) (F.of_Z 0) "now" fresh "ISS (ZARYA)" eq_refl)
    as (out & Hresp & _ & Hids).
  exists out. split; [exact Hresp|]. rewrite Hids.
  vm_compute. reflexivity.
Defined.

Lemma shadowed_keywords_witness :
  _categorize_satellite "MAGNETOSPHERIC MISSION 1" 40482 = ISS /\
  _categorize_satellite "EXPERIMENTAL SAT" 5 = Scientific.
Proof.
  split.
  - apply (proj1 (shadowed_keywords "MAGNETOSPHERIC MISSION 1" 40482%Z)).
    reflexivity.
  - reflexivity.
Defined.

Lemma incomplete_triplets_ignored_witness :
  @valid_records Stub.lib Stub.http_get "empty" = [] /\
  @load_url Stub.lib Stub.http_get "empty" (ingest_start, 0%Z)
  = @load_url Stub.lib Stub.offline "empty" (ingest_start, 0%Z).
Proof.
  destruct (proj2 (@incomplete_triplets_ignored Stub.lib Stub.http_get
                     ["nothing here"] ltac:(simpl; lia))
              "empty" "nothing here" (ingest_start, 0%Z) RequestException
              eq_refl eq_refl) as [Hload Hnone].
  split; [exact Hnone | exact Hload].
Defined.

(** Without network the refresh route answers success, and of the two
    records held before only the built-in one is left. *)
Lemma refresh_route_after_an_outage_witness :
  List.length (satellites Stub.tracker) = 2%nat /\
  Routes.success (snd (@Routes.refresh_tle_data Stub.lib Stub.offline
                         (F.of_Z 10) Stub.tracker)) = true /\
  keys (satellites (fst (fst (@Routes.refresh_tle_data Stub.lib Stub.offline
                                (F.of_Z 10) Stub.tracker))))
  = [25544%Z].
Proof.
  destruct (@refresh_route_after_an_outage Stub.lib Stub.offline (F.of_Z 10)
              Stub.tracker "ISS (ZARYA)" eq_refl
              ltac:(vm_compute; reflexivity))
    as (Hresp & _ & Hsat & _).
  split; [reflexivity|]. split.
  - now rewrite Hresp.
  - now rewrite Hsat.
Defined.
